(** * The Portal event-processing core of the bridge (package bridgev2)

    A shallow embedding of the portal code: the pump [eventLoop], the
    Matrix-side handlers, the remote-side handlers, the info updater, the
    membership syncer and the room creator.

    Conventions of the embedding.
    - A Go method on [*Portal] is a computation in the monad [M]: it reads
      and writes the portal held in the [World], and every call that leaves
      the portal (Matrix API, network client, database, logger, clock) is a
      [Call] answered by the environment and recorded, with its answer, in
      the world's trace.
    - A Go multi-value return [(v, err)] is a pair whose second component is
      [option error]; a pointer that the code tests against nil, or that is
      returned by a lookup, is an [option]; dereferencing [None] panics.
    - A Go map is an association list; a nil map is [None] where the code
      distinguishes it.
    - Locks are not modelled: one pump runs the handlers of one portal one
      after the other. *)

From Stdlib Require Import String List ZArith Bool Lia.
From Stdlib.Strings Require Import Byte.
Import ListNotations.
Open Scope string_scope.
Open Scope list_scope.

Set Implicit Arguments.
Set Warnings "-register-all".

(** ** Identifiers *)

Module id.
Definition UserID := string.
Definition RoomID := string.
Definition EventID := string.
Definition ContentURIString := string.
End id.

Module networkid.
Definition PortalID := string.
Definition MessageID := string.
Definition PartID := string.
Definition UserID := string.
Definition UserLoginID := string.
Definition EmojiID := string.
Definition AvatarID := string.
Definition BridgeID := string.
End networkid.

(** [time.Time], as milliseconds; the zero time is [0]. *)
Definition Time := Z.

(** A [[32]byte] digest. *)
Definition Hash := list byte.

Definition zeroHash : Hash := repeat x00 32.

Definition Hash_eqb (a b : Hash) : bool :=
  if list_eq_dec byte_eq_dec a b then true else false.

(** ** Errors *)

Inductive error :=
| MForbidden
| ErrNotLoggedIn
| OtherError (msg : string).

(** [errors.Is(err, mautrix.MForbidden)] *)
Definition is_MForbidden (err : option error) : bool :=
  match err with
  | Some MForbidden => true
  | _ => false
  end.

(** ** Dynamic values: [any], and [map[string]any] *)

#[local] Unset Elimination Schemes.

Inductive any :=
| AnyString (s : string)
| AnyUserID (u : id.UserID)
| AnyUserIDs (l : list id.UserID)
| AnyRoomTypeSpace
| AnyMap (m : list (string * any)).

#[local] Set Elimination Schemes.

Definition anymap := list (string * any).

Fixpoint map_get {V} (k : string) (m : list (string * V)) : option V :=
  match m with
  | [] => None
  | (k', v) :: m' => if String.eqb k k' then Some v else map_get k m'
  end.

Fixpoint map_delete {V} (k : string) (m : list (string * V)) : list (string * V) :=
  match m with
  | [] => []
  | (k', v) :: m' =>
      if String.eqb k k' then map_delete k m' else (k', v) :: map_delete k m'
  end.

Definition map_set {V} (k : string) (v : V) (m : list (string * V)) : list (string * V) :=
  (k, v) :: map_delete k m.

(** ** The Matrix API handle of one user ([MatrixAPI], an "intent") *)

Record MatrixAPI := {
  api_ptr : nat;             (* identity of the interface value *)
  GetMXID : id.UserID
}.

Definition MatrixAPI_eqb (a b : MatrixAPI) : bool :=
  Nat.eqb (api_ptr a) (api_ptr b) && String.eqb (GetMXID a) (GetMXID b).

(** ** Event types and contents (package event) *)

Module event.

Inductive Type_ :=
| StateRoomName
| StateTopic
| StateRoomAvatar
| StateEncryption
| StateBridge
| StateHalfShotBridge
| StateMember
| StateSpaceParent
| stateElementFunctionalMembers
| EventMessage
| EventSticker
| EventReaction
| EventRedaction
| EphemeralEventReceipt
| EphemeralEventTyping
| OtherType (name : string).

Inductive Membership :=
| MembershipJoin
| MembershipInvite
| MembershipLeave
| MembershipBan
| MembershipKnock.

Definition Membership_eqb (a b : Membership) : bool :=
  match a, b with
  | MembershipJoin, MembershipJoin
  | MembershipInvite, MembershipInvite
  | MembershipLeave, MembershipLeave
  | MembershipBan, MembershipBan
  | MembershipKnock, MembershipKnock => true
  | _, _ => false
  end.

Record MemberEventContent := {
  Membership_ : Membership;
  AvatarURL : id.ContentURIString;
  Displayname : string;
  Reason : string
}.

Record BridgeInfoSection := {
  BIS_ID : string;
  BIS_DisplayName : string;
  BIS_AvatarURL : id.ContentURIString;
  BIS_ExternalURL : string
}.

Record BridgeEventContent := {
  BridgeBot : id.UserID;
  Creator : id.UserID;
  Protocol : BridgeInfoSection;
  Network : option BridgeInfoSection;
  Channel : BridgeInfoSection
}.

Record SpaceParentEventContent := {
  Via : list string;
  Canonical : bool
}.

Record RedactionEventContent := {
  Redacts : id.EventID
}.

Record Mentions := {
  UserIDs : list id.UserID
}.

End event.

(** The parts of package event that the portal code only uses: the message
    content, the relation attached to it, and their methods. They are taken
    as an interface. [RelatesTo] stands for a [*event.RelatesTo], nil
    included (its accessors are nil-safe methods); [MessageEventContent]
    for the struct behind a [*event.MessageEventContent]. *)
Class EventLib := {
  RelatesTo : Type;
  MessageEventContent : Type;
  (* the fields [content.RelatesTo], [content.NewContent], [content.Mentions] *)
  MessageEventContent_RelatesTo : MessageEventContent -> RelatesTo;
  MessageEventContent_NewContent : MessageEventContent -> option MessageEventContent;
  MessageEventContent_Mentions : MessageEventContent -> option event.Mentions;
  (* the assignment [content.Mentions = m] *)
  set_Mentions : MessageEventContent -> event.Mentions -> MessageEventContent;
  (* [rel.GetReplaceID()], [rel.GetThreadParent()], [rel.GetReplyTo()],
     [rel.GetNonFallbackReplyTo()] *)
  GetReplaceID : RelatesTo -> id.EventID;
  GetThreadParent : RelatesTo -> id.EventID;
  GetReplyTo : RelatesTo -> id.EventID;
  GetNonFallbackReplyTo : RelatesTo -> id.EventID;
  (* the content after [content.GetRelatesTo().SetThread(root, last)] *)
  SetThread : MessageEventContent -> id.EventID -> id.EventID -> MessageEventContent;
  (* the content after [content.GetRelatesTo().SetReplyTo(mxid)] *)
  SetReplyTo : MessageEventContent -> id.EventID -> MessageEventContent;
  (* the content after [content.SetEdit(mxid)] *)
  SetEdit : MessageEventContent -> id.EventID -> MessageEventContent;
  (* the flag [event.SourceEphemeral] *)
  SourceEphemeral : Z
}.

(** ** Data model *)

Section DataModel.

Context {L : EventLib}.

(** Modelled from the spec: the struct [database.Portal] (spec section 3,
    Portal), with the fields the portal code reads and writes. *)
Record database_Portal := {
  Portal_BridgeID : networkid.BridgeID;
  Portal_ID : networkid.PortalID;
  Portal_MXID : id.RoomID;
  Portal_ParentID : networkid.PortalID;
  Portal_Name : string;
  Portal_Topic : string;
  Portal_AvatarID : networkid.AvatarID;
  Portal_AvatarHash : Hash;
  Portal_AvatarMXC : id.ContentURIString;
  Portal_NameSet : bool;
  Portal_TopicSet : bool;
  Portal_AvatarSet : bool
}.

(** Modelled from the spec: the struct [database.Message] (spec section 3,
    Message). [Metadata] is [None] for a nil map. *)
Record database_Message := {
  Message_RowID : Z;
  Message_ID : networkid.MessageID;
  Message_PartID : networkid.PartID;
  Message_MXID : id.EventID;
  Message_RoomID : networkid.PortalID;
  Message_SenderID : networkid.UserID;
  Message_Timestamp : Time;
  Message_RelatesToRowID : Z;
  Message_Metadata : option anymap
}.

(** Modelled from the spec: the struct [database.Reaction] (spec section 3,
    Reaction). *)
Record database_Reaction := {
  Reaction_MessageID : networkid.MessageID;
  Reaction_MessagePartID : networkid.PartID;
  Reaction_SenderID : networkid.UserID;
  Reaction_EmojiID : networkid.EmojiID;
  Reaction_MXID : id.EventID
}.

(** A [NetworkAPI] value (the R-side client of one login). *)
Definition NetworkAPI := nat.

(** [*UserLogin]; its [User] is named by [UserLogin_UserMXID]. *)
Record UserLogin := {
  UserLogin_ID : networkid.UserLoginID;
  UserLogin_UserMXID : id.UserID;
  UserLogin_Client : option NetworkAPI
}.

(** [*User]; [logins] in the order in which a [range] over the map visits it. *)
Record User := {
  User_MXID : id.UserID;
  User_logins : list (networkid.UserLoginID * UserLogin)
}.

Record Ghost := {
  Ghost_ID : networkid.UserID;
  Ghost_Intent : MatrixAPI
}.

(** [Portal]: the database row it embeds and the runtime fields. The queue
    [events] is the argument of [eventLoop]. A [Portal] is a finite value:
    its chain of parents ends. The portals of the bridge, among which
    [loadPortal] can make a portal its own parent, are the [PortalObject]s
    of the registry. *)
Inductive Portal := mkPortal {
  Portal_row : database_Portal;
  Portal_Parent : option Portal;
  Portal_Relay : option UserLogin;
  Portal_currentlyTyping : list id.UserID
}.

Record Avatar := {
  Avatar_ID : networkid.AvatarID;
  Avatar_Remove : bool
}.

Record PortalInfo := {
  PortalInfo_Name : option string;
  PortalInfo_Topic : option string;
  PortalInfo_Avatar : option Avatar;
  PortalInfo_Members : list networkid.UserID;
  PortalInfo_IsDirectChat : option bool;
  PortalInfo_IsSpace : option bool
}.

Record EventSender := {
  IsFromMe : bool;
  SenderLogin : networkid.UserLoginID;
  Sender : networkid.UserID
}.

(** *** Matrix events *)

Inductive ReceiptType :=
| ReceiptTypeRead
| ReceiptTypeOther (name : string).

Record ReadReceipt := {
  ReadReceipt_Timestamp : Time
}.

Record ReactionEventContent := {
  Reaction_RelatesTo_EventID : id.EventID
}.

(** The dynamic value in [Content.Parsed]: a pointer to a content struct,
    except for [ParsedReceipt], which is a value of the map type
    [event.ReceiptEventContent], as [handleMatrixReceipts] asserts it. *)
Inductive Parsed :=
| ParsedRoomName (name : string)
| ParsedTopic (topic : string)
| ParsedRoomAvatar (url : id.ContentURIString)
| ParsedBridge (c : event.BridgeEventContent)
| ParsedMember (c : event.MemberEventContent)
| ParsedSpaceParent (c : event.SpaceParentEventContent)
| ParsedMessage (c : MessageEventContent)
| ParsedReaction (c : ReactionEventContent)
| ParsedRedaction (c : event.RedactionEventContent)
| ParsedReceipt (c : list (id.EventID * list (ReceiptType * list (id.UserID * ReadReceipt))))
| ParsedTyping (UserIDs : list id.UserID).

Record Content := {
  Content_Parsed : option Parsed;
  Content_Raw : option anymap
}.

Record Event := {
  Event_ID : id.EventID;
  Event_Sender : id.UserID;
  Event_Type : event.Type_;
  Event_StateKey : option string;
  Event_Redacts : id.EventID;
  Event_Content : Content;
  Event_EventSource : Z          (* [evt.Mautrix.EventSource] *)
}.

Record OrigSender := {
  OrigSender_User : User;
  OrigSender_MemberEventContent : option event.MemberEventContent
}.

Record MatrixMessage := {
  MatrixMessage_Event : Event;
  MatrixMessage_Content : MessageEventContent;
  MatrixMessage_OrigSender : option OrigSender;
  MatrixMessage_Portal : Portal;
  MatrixMessage_ThreadRoot : option database_Message;
  MatrixMessage_ReplyTo : option database_Message
}.

Record MatrixEdit := {
  MatrixEdit_Event : Event;
  MatrixEdit_Content : MessageEventContent;
  MatrixEdit_OrigSender : option OrigSender;
  MatrixEdit_Portal : Portal;
  MatrixEdit_EditTarget : database_Message
}.

(** The closure [GetExisting] of the source is a lookup the client may make
    in the reaction table; it is left to the environment. *)
Record MatrixReaction := {
  MatrixReaction_Event : Event;
  MatrixReaction_Content : ReactionEventContent;
  MatrixReaction_Portal : Portal;
  MatrixReaction_TargetMessage : database_Message
}.

Record MatrixMessageRemove := {
  MatrixMessageRemove_Event : Event;
  MatrixMessageRemove_Content : event.RedactionEventContent;
  MatrixMessageRemove_Portal : Portal;
  MatrixMessageRemove_OrigSender : option OrigSender;
  MatrixMessageRemove_TargetMessage : database_Message
}.

Record MatrixReactionRemove := {
  MatrixReactionRemove_Event : Event;
  MatrixReactionRemove_Content : event.RedactionEventContent;
  MatrixReactionRemove_Portal : Portal;
  MatrixReactionRemove_OrigSender : option OrigSender;
  MatrixReactionRemove_TargetReaction : database_Reaction
}.

Record RespSendEvent := {
  RespSendEvent_EventID : id.EventID
}.

Record ReqCreateRoom := {
  Req_Visibility : string;
  Req_Name : string;
  Req_Topic : string;
  Req_Invite : list id.UserID;
  Req_Preset : string;
  Req_IsDirect : bool;
  Req_CreationContent : anymap;
  Req_InitialState : list Event;
  Req_PowerLevelOverride_Users : list (id.UserID * Z);
  Req_BeeperLocalRoomID : id.RoomID;
  Req_BeeperInitialMembers : list id.UserID;
  Req_BeeperAutoJoinInvites : bool
}.

(** *** Remote events *)

Inductive RemoteEventType :=
| RemoteEventUnknown
| RemoteEventMessage
| RemoteEventEdit
| RemoteEventReaction
| RemoteEventReactionRemove
| RemoteEventMessageRemove.

Definition RemoteEventType_eqb (a b : RemoteEventType) : bool :=
  match a, b with
  | RemoteEventUnknown, RemoteEventUnknown
  | RemoteEventMessage, RemoteEventMessage
  | RemoteEventEdit, RemoteEventEdit
  | RemoteEventReaction, RemoteEventReaction
  | RemoteEventReactionRemove, RemoteEventReactionRemove
  | RemoteEventMessageRemove, RemoteEventMessageRemove => true
  | _, _ => false
  end.

(** A [RemoteEvent] interface value: what its getters return, and which of
    the interfaces [RemoteMessage], [RemoteEdit], ... its dynamic type
    implements ([Implements t] for the interface of event type [t]). *)
Record RemoteEvent := {
  GetType : RemoteEventType;
  GetID : networkid.MessageID;
  GetSender : EventSender;
  GetTargetMessage : networkid.MessageID;
  ShouldCreatePortal : bool;
  Implements : RemoteEventType -> bool
}.

Record MessageOptionalPartID := {
  MessageID : networkid.MessageID;
  PartID : option networkid.PartID
}.

Record ConvertedMessagePart := {
  Part_ID : networkid.PartID;
  Part_Type : event.Type_;
  Part_Content : MessageEventContent;
  Part_Extra : option anymap;
  Part_DBMetadata : option anymap
}.

Record ConvertedMessage := {
  ConvertedMessage_ReplyTo : option MessageOptionalPartID;
  ConvertedMessage_ThreadRoot : option MessageOptionalPartID;
  ConvertedMessage_Timestamp : Time;
  ConvertedMessage_Parts : list ConvertedMessagePart
}.

Record ConvertedEditPart := {
  EditPart_Part : database_Message;
  EditPart_Type : event.Type_;
  EditPart_Content : MessageEventContent;
  EditPart_Extra : option anymap;
  EditPart_TopLevelExtra : option anymap
}.

Record ConvertedEdit := {
  ConvertedEdit_ModifiedParts : list ConvertedEditPart;
  ConvertedEdit_DeletedParts : list database_Message;
  ConvertedEdit_Timestamp : Time
}.

(** The two kinds of [portalEvent]; [portalIllegalEvent] is any other value
    of the interface type. *)
Inductive portalEvent :=
| portalMatrixEvent (evt : Event) (sender : User)
| portalRemoteEvent (evt : RemoteEvent) (source : UserLogin)
| portalIllegalEvent.

(** ** Calls that leave the portal

    [Call R] is a call whose answer has type [R]. *)

Inductive LogLevel := DebugLevel | InfoLevel | WarnLevel | ErrorLevel.

Inductive Call : Type -> Type :=
(* methods of a [MatrixAPI] value *)
| SendState (intent : MatrixAPI) (roomID : id.RoomID) (eventType : event.Type_)
    (stateKey : string) (content : Content) (ts : Time)
  : Call (option RespSendEvent * option error)
| SendMessage (intent : MatrixAPI) (roomID : id.RoomID) (eventType : event.Type_)
    (content : Content) (ts : Time)
  : Call (option RespSendEvent * option error)
| EnsureJoined (intent : MatrixAPI) (roomID : id.RoomID) : Call (option error)
| CreateRoom (intent : MatrixAPI) (req : ReqCreateRoom) : Call (id.RoomID * option error)
| InviteUser (intent : MatrixAPI) (roomID : id.RoomID) (userID : id.UserID)
  : Call (option error)
(* methods of the Matrix connector, [portal.Bridge.Matrix] *)
| UserIntent (user : id.UserID) : Call (option MatrixAPI)
| GetMemberInfo (roomID : id.RoomID) (userID : id.UserID)
  : Call (option event.MemberEventContent * option error)
| GetMembers (roomID : id.RoomID)
  : Call (list (id.UserID * event.MemberEventContent) * option error)
| ServerName : Call string
(* methods of a login's network client *)
| HandleMatrixMessage (client : NetworkAPI) (msg : MatrixMessage)
  : Call (option database_Message * option error)
| HandleMatrixEdit (client : NetworkAPI) (msg : MatrixEdit) : Call (option error)
| HandleMatrixReaction (client : NetworkAPI) (msg : MatrixReaction)
  : Call (option database_Reaction * option error)
| HandleMatrixMessageRemove (client : NetworkAPI) (msg : MatrixMessageRemove)
  : Call (option error)
| HandleMatrixReactionRemove (client : NetworkAPI) (msg : MatrixReactionRemove)
  : Call (option error)
| GetChatInfo (client : NetworkAPI) (portal : Portal)
  : Call (option PortalInfo * option error)
| IsThisUser (client : NetworkAPI) (userID : networkid.UserID) : Call bool
(* the store, [portal.Bridge.DB] *)
| DB_Message_GetPartByMXID (mxid : id.EventID)
  : Call (option database_Message * option error)
| DB_Message_GetFirstPartByID (msgID : networkid.MessageID)
  : Call (option database_Message * option error)
| DB_Message_GetFirstOrSpecificPartByID (ref : MessageOptionalPartID)
  : Call (option database_Message * option error)
| DB_Message_GetAllPartsByID (msgID : networkid.MessageID)
  : Call (option (list database_Message) * option error)
| DB_Message_Insert (msg : database_Message) : Call (option error)
| DB_Message_Update (msg : database_Message) : Call (option error)
| DB_Message_Delete (rowID : Z) : Call (option error)
| DB_Reaction_GetByMXID (mxid : id.EventID)
  : Call (option database_Reaction * option error)
| DB_Reaction_Upsert (reaction : database_Reaction) : Call (option error)
| DB_Portal_Update (row : database_Portal) : Call (option error)
| DB_User_FindLoginsByPortalID (userID : id.UserID) (portalID : networkid.PortalID)
  : Call (list networkid.UserLoginID * option error)
(* the bridge's caches *)
| GetGhostByID (ghostID : networkid.UserID) : Call (option Ghost * option error)
| GetCachedUserLoginByID (loginID : networkid.UserLoginID) : Call (option UserLogin)
| GetUserLoginsInPortal (portalID : networkid.PortalID)
  : Call (list UserLogin * option error)
| GetUserByMXID (userID : id.UserID) : Call (option User * option error)
| UpdateInfoIfNecessary (ghost : Ghost) (source : UserLogin) : Call unit
(* methods of a remote event and of an avatar *)
| ConvertMessage (evt : RemoteEvent) (portal : Portal) (intent : MatrixAPI)
  : Call (option ConvertedMessage * option error)
| ConvertEdit (evt : RemoteEvent) (portal : Portal) (intent : MatrixAPI)
    (existing : list database_Message)
  : Call (option ConvertedEdit * option error)
| Reupload (avatar : Avatar) (intent : MatrixAPI) (currentHash : Hash)
  : Call (id.ContentURIString * Hash * option error)
(* the clock and the logger *)
| time_Now : Call Time
| Log (level : LogLevel) (msg : string) : Call unit.

(** One entry of the trace: a call and the answer it got. *)
Inductive Entry :=
| Called {R : Type} (c : Call R) (r : R).

Definition Trace := list Entry.

(** ** The world and the monad of portal computations *)

Record World := {
  portal : Portal;
  (* [portal.Bridge.portalsByMXID], as room id to portal id *)
  portalsByMXID : list (id.RoomID * networkid.PortalID);
  trace : Trace
}.

(** A computation returns, or panics. *)
Inductive Outcome (A : Type) :=
| Done (a : A) (w : World)
| Panicked (reason : string) (w : World).

Arguments Done {A} a w.
Arguments Panicked {A} reason w.

Definition M (A : Type) := World -> Outcome A.

Definition ret {A} (a : A) : M A := fun w => Done a w.

Definition bind {A B} (m : M A) (k : A -> M B) : M B :=
  fun w =>
    match m w with
    | Done a w' => k a w'
    | Panicked r w' => Panicked r w'
    end.

Definition panic {A} (reason : string) : M A := fun w => Panicked reason w.

(** Dereference of a pointer. *)
Definition deref {A} (p : option A) : M A :=
  match p with
  | Some a => ret a
  | None => panic "nil pointer dereference"
  end.

Definition final {A} (o : Outcome A) : World :=
  match o with
  | Done _ w => w
  | Panicked _ w => w
  end.

End DataModel.

Arguments Done {L A} a w.
Arguments Panicked {L A} reason w.

Declare Scope portal_scope.
Delimit Scope portal_scope with portal.
Notation "x <- m ;; k" := (bind m (fun x => k))
  (at level 61, m at next level, right associativity) : portal_scope.
Notation "' pat <- m ;; k" := (bind m (fun x => match x with pat => k end))
  (at level 61, pat pattern, m at next level, right associativity) : portal_scope.
Notation "m ;; k" := (bind m (fun _ => k))
  (at level 61, right associativity) : portal_scope.
Open Scope portal_scope.

(** ** The environment

    [respond tr c] is the answer the collaborators give to the call [c]
    after the history [tr]; [Bot] is [portal.Bridge.Bot]; [IntentFor] is
    the method [IntentFor] of a ghost. *)
Class Env {L : EventLib} := {
  respond : forall R : Type, Trace -> Call R -> R;
  Bot : MatrixAPI;
  IntentFor : Ghost -> Portal -> MatrixAPI
}.

(** ** The portal code *)

Section Code.

Context {L : EventLib} {E : Env}.

(** *** Primitive computations *)

Definition record (e : Entry) (w : World) : World :=
  {| portal := portal w;
     portalsByMXID := portalsByMXID w;
     trace := trace w ++ [e] |}.

(** An outgoing call: the environment answers, the trace records it. *)
Definition call {R} (c : Call R) : M R :=
  fun w =>
    let r := respond (trace w) c in
    Done r (record (Called c r) w).

Definition log (level : LogLevel) (msg : string) : M unit :=
  call (Log level msg).

Definition get_portal : M Portal :=
  fun w => Done (portal w) w.

Definition set_portal (p : Portal) : M unit :=
  fun w => Done tt {| portal := p;
                      portalsByMXID := portalsByMXID w;
                      trace := trace w |}.

(** [portal.Bridge.portalsByMXID[roomID] = portal] *)
Definition register_portalsByMXID (roomID : id.RoomID) (portalID : networkid.PortalID)
  : M unit :=
  fun w => Done tt {| portal := portal w;
                      portalsByMXID := map_set roomID portalID (portalsByMXID w);
                      trace := trace w |}.

(** Assignments to the fields of the embedded row. *)
Definition set_MXID (v : id.RoomID) (r : database_Portal) : database_Portal :=
  {| Portal_BridgeID := Portal_BridgeID r; Portal_ID := Portal_ID r;
     Portal_MXID := v; Portal_ParentID := Portal_ParentID r;
     Portal_Name := Portal_Name r; Portal_Topic := Portal_Topic r;
     Portal_AvatarID := Portal_AvatarID r; Portal_AvatarHash := Portal_AvatarHash r;
     Portal_AvatarMXC := Portal_AvatarMXC r; Portal_NameSet := Portal_NameSet r;
     Portal_TopicSet := Portal_TopicSet r; Portal_AvatarSet := Portal_AvatarSet r |}.

Definition set_Name (v : string) (r : database_Portal) : database_Portal :=
  {| Portal_BridgeID := Portal_BridgeID r; Portal_ID := Portal_ID r;
     Portal_MXID := Portal_MXID r; Portal_ParentID := Portal_ParentID r;
     Portal_Name := v; Portal_Topic := Portal_Topic r;
     Portal_AvatarID := Portal_AvatarID r; Portal_AvatarHash := Portal_AvatarHash r;
     Portal_AvatarMXC := Portal_AvatarMXC r; Portal_NameSet := Portal_NameSet r;
     Portal_TopicSet := Portal_TopicSet r; Portal_AvatarSet := Portal_AvatarSet r |}.

Definition set_Topic (v : string) (r : database_Portal) : database_Portal :=
  {| Portal_BridgeID := Portal_BridgeID r; Portal_ID := Portal_ID r;
     Portal_MXID := Portal_MXID r; Portal_ParentID := Portal_ParentID r;
     Portal_Name := Portal_Name r; Portal_Topic := v;
     Portal_AvatarID := Portal_AvatarID r; Portal_AvatarHash := Portal_AvatarHash r;
     Portal_AvatarMXC := Portal_AvatarMXC r; Portal_NameSet := Portal_NameSet r;
     Portal_TopicSet := Portal_TopicSet r; Portal_AvatarSet := Portal_AvatarSet r |}.

Definition set_AvatarID (v : networkid.AvatarID) (r : database_Portal) : database_Portal :=
  {| Portal_BridgeID := Portal_BridgeID r; Portal_ID := Portal_ID r;
     Portal_MXID := Portal_MXID r; Portal_ParentID := Portal_ParentID r;
     Portal_Name := Portal_Name r; Portal_Topic := Portal_Topic r;
     Portal_AvatarID := v; Portal_AvatarHash := Portal_AvatarHash r;
     Portal_AvatarMXC := Portal_AvatarMXC r; Portal_NameSet := Portal_NameSet r;
     Portal_TopicSet := Portal_TopicSet r; Portal_AvatarSet := Portal_AvatarSet r |}.

Definition set_AvatarHash (v : Hash) (r : database_Portal) : database_Portal :=
  {| Portal_BridgeID := Portal_BridgeID r; Portal_ID := Portal_ID r;
     Portal_MXID := Portal_MXID r; Portal_ParentID := Portal_ParentID r;
     Portal_Name := Portal_Name r; Portal_Topic := Portal_Topic r;
     Portal_AvatarID := Portal_AvatarID r; Portal_AvatarHash := v;
     Portal_AvatarMXC := Portal_AvatarMXC r; Portal_NameSet := Portal_NameSet r;
     Portal_TopicSet := Portal_TopicSet r; Portal_AvatarSet := Portal_AvatarSet r |}.

Definition set_AvatarMXC (v : id.ContentURIString) (r : database_Portal) : database_Portal :=
  {| Portal_BridgeID := Portal_BridgeID r; Portal_ID := Portal_ID r;
     Portal_MXID := Portal_MXID r; Portal_ParentID := Portal_ParentID r;
     Portal_Name := Portal_Name r; Portal_Topic := Portal_Topic r;
     Portal_AvatarID := Portal_AvatarID r; Portal_AvatarHash := Portal_AvatarHash r;
     Portal_AvatarMXC := v; Portal_NameSet := Portal_NameSet r;
     Portal_TopicSet := Portal_TopicSet r; Portal_AvatarSet := Portal_AvatarSet r |}.

Definition set_NameSet (v : bool) (r : database_Portal) : database_Portal :=
  {| Portal_BridgeID := Portal_BridgeID r; Portal_ID := Portal_ID r;
     Portal_MXID := Portal_MXID r; Portal_ParentID := Portal_ParentID r;
     Portal_Name := Portal_Name r; Portal_Topic := Portal_Topic r;
     Portal_AvatarID := Portal_AvatarID r; Portal_AvatarHash := Portal_AvatarHash r;
     Portal_AvatarMXC := Portal_AvatarMXC r; Portal_NameSet := v;
     Portal_TopicSet := Portal_TopicSet r; Portal_AvatarSet := Portal_AvatarSet r |}.

Definition set_TopicSet (v : bool) (r : database_Portal) : database_Portal :=
  {| Portal_BridgeID := Portal_BridgeID r; Portal_ID := Portal_ID r;
     Portal_MXID := Portal_MXID r; Portal_ParentID := Portal_ParentID r;
     Portal_Name := Portal_Name r; Portal_Topic := Portal_Topic r;
     Portal_AvatarID := Portal_AvatarID r; Portal_AvatarHash := Portal_AvatarHash r;
     Portal_AvatarMXC := Portal_AvatarMXC r; Portal_NameSet := Portal_NameSet r;
     Portal_TopicSet := v; Portal_AvatarSet := Portal_AvatarSet r |}.

Definition set_AvatarSet (v : bool) (r : database_Portal) : database_Portal :=
  {| Portal_BridgeID := Portal_BridgeID r; Portal_ID := Portal_ID r;
     Portal_MXID := Portal_MXID r; Portal_ParentID := Portal_ParentID r;
     Portal_Name := Portal_Name r; Portal_Topic := Portal_Topic r;
     Portal_AvatarID := Portal_AvatarID r; Portal_AvatarHash := Portal_AvatarHash r;
     Portal_AvatarMXC := Portal_AvatarMXC r; Portal_NameSet := Portal_NameSet r;
     Portal_TopicSet := Portal_TopicSet r; Portal_AvatarSet := v |}.

Definition with_row (f : database_Portal -> database_Portal) (p : Portal) : Portal :=
  {| Portal_row := f (Portal_row p);
     Portal_Parent := Portal_Parent p;
     Portal_Relay := Portal_Relay p;
     Portal_currentlyTyping := Portal_currentlyTyping p |}.

(** [portal.F = v] for a field [F] of the row. *)
Definition assign (f : database_Portal -> database_Portal) : M unit :=
  p <- get_portal ;;
  set_portal (with_row f p).

(** The promoted field [portal.MXID]. *)
Definition MXID (p : Portal) : id.RoomID := Portal_MXID (Portal_row p).

(** *** Info updater *)

Definition sendRoomMeta (sender : option Ghost) (ts : Time)
    (eventType : event.Type_) (stateKey : string) (content : Parsed) : M bool :=
  p <- get_portal ;;
  if String.eqb (MXID p) "" then ret false else
  let intent :=
    match sender with
    | Some g => IntentFor g p
    | None => Bot
    end in
  let wrappedContent := {| Content_Parsed := Some content; Content_Raw := None |} in
  '(_, err) <- call (SendState intent (MXID p) eventType stateKey wrappedContent ts) ;;
  err <- (if is_MForbidden err && negb (MatrixAPI_eqb intent Bot) then
            let wrappedContent :=
              {| Content_Parsed := Some content;
                 Content_Raw :=
                   Some [("fi.mau.bridge.set_by", AnyUserID (GetMXID intent))] |} in
            '(_, err) <- call (SendState Bot (MXID p) event.StateRoomName ""
                                 wrappedContent ts) ;;
            ret err
          else ret err) ;;
  match err with
  | Some _ =>
      log ErrorLevel "Failed to set room metadata" ;;
      ret false
  | None => ret true
  end.

Definition UpdateName (name : string) (sender : option Ghost) (ts : Time) : M bool :=
  p <- get_portal ;;
  if String.eqb (Portal_Name (Portal_row p)) name
     && (Portal_NameSet (Portal_row p) || String.eqb (MXID p) "")
  then ret false else
  assign (set_Name name) ;;
  ok <- sendRoomMeta sender ts event.StateRoomName "" (ParsedRoomName name) ;;
  assign (set_NameSet ok) ;;
  ret true.

Definition UpdateTopic (topic : string) (sender : option Ghost) (ts : Time) : M bool :=
  p <- get_portal ;;
  if String.eqb (Portal_Topic (Portal_row p)) topic
     && (Portal_TopicSet (Portal_row p) || String.eqb (MXID p) "")
  then ret false else
  assign (set_Topic topic) ;;
  ok <- sendRoomMeta sender ts event.StateTopic "" (ParsedTopic topic) ;;
  assign (set_TopicSet ok) ;;
  ret true.

Definition UpdateAvatar (avatar : Avatar) (sender : option Ghost) (ts : Time) : M bool :=
  p <- get_portal ;;
  if String.eqb (Portal_AvatarID (Portal_row p)) (Avatar_ID avatar)
     && (Portal_AvatarSet (Portal_row p) || String.eqb (MXID p) "")
  then ret false else
  assign (set_AvatarID (Avatar_ID avatar)) ;;
  p <- get_portal ;;
  let intent :=
    match sender with
    | Some g => IntentFor g p
    | None => Bot
    end in
  (* the last statement of the function *)
  let send :=
    p <- get_portal ;;
    ok <- sendRoomMeta sender ts event.StateRoomAvatar ""
            (ParsedRoomAvatar (Portal_AvatarMXC (Portal_row p))) ;;
    assign (set_AvatarSet ok) ;;
    ret true in
  if Avatar_Remove avatar then
    assign (set_AvatarMXC "") ;;
    assign (set_AvatarHash zeroHash) ;;
    send
  else
    '(newMXC, newHash, err) <-
      call (Reupload avatar intent (Portal_AvatarHash (Portal_row p))) ;;
    match err with
    | Some _ =>
        assign (set_AvatarSet false) ;;
        log ErrorLevel "Failed to reupload room avatar" ;;
        ret true
    | None =>
        if Hash_eqb newHash (Portal_AvatarHash (Portal_row p)) then ret true else
        assign (set_AvatarMXC newMXC) ;;
        assign (set_AvatarHash newHash) ;;
        send
    end.

(** On a [Portal] the chain of parents ends; [Heap.GetTopLevelParent] is the
    function on the portals of the bridge, where it need not. *)
Fixpoint GetTopLevelParent (p : Portal) : Portal :=
  match p with
  | mkPortal _ (Some parent) _ _ => GetTopLevelParent parent
  | mkPortal _ None _ _ => p
  end.

Definition getBridgeInfo (p : Portal) : string * event.BridgeEventContent :=
  let parent := GetTopLevelParent p in
  let bridgeInfo :=
    {| event.BridgeBot := GetMXID Bot;
       event.Creator := GetMXID Bot;
       event.Protocol :=
         {| event.BIS_ID := "signal";
            event.BIS_DisplayName := "Signal";
            event.BIS_AvatarURL := "";
            event.BIS_ExternalURL := "https://signal.org/" |};
       event.Channel :=
         {| event.BIS_ID := Portal_ID (Portal_row p);
            event.BIS_DisplayName := Portal_Name (Portal_row p);
            event.BIS_AvatarURL := Portal_AvatarMXC (Portal_row p);
            event.BIS_ExternalURL := "" |};
       event.Network :=
         Some {| event.BIS_ID := Portal_ID (Portal_row parent);
                 event.BIS_DisplayName := Portal_Name (Portal_row parent);
                 event.BIS_AvatarURL := Portal_AvatarMXC (Portal_row parent);
                 event.BIS_ExternalURL := "" |} |} in
  let stateKey := Portal_BridgeID (Portal_row p) in
  (stateKey, bridgeInfo).

Definition UpdateBridgeInfo : M unit :=
  p <- get_portal ;;
  if String.eqb (MXID p) "" then ret tt else
  let '(stateKey, bridgeInfo) := getBridgeInfo p in
  now <- call time_Now ;;
  sendRoomMeta None now event.StateBridge stateKey (ParsedBridge bridgeInfo) ;;
  now <- call time_Now ;;
  sendRoomMeta None now event.StateHalfShotBridge stateKey (ParsedBridge bridgeInfo) ;;
  ret tt.

Definition UpdateInfo (info : PortalInfo) (sender : option Ghost) (ts : Time) : M unit :=
  let changed := false in
  changed <- match PortalInfo_Name info with
             | Some name => c <- UpdateName name sender ts ;; ret (c || changed)
             | None => ret changed
             end ;;
  changed <- match PortalInfo_Topic info with
             | Some topic => c <- UpdateTopic topic sender ts ;; ret (c || changed)
             | None => ret changed
             end ;;
  changed <- match PortalInfo_Avatar info with
             | Some avatar => c <- UpdateAvatar avatar sender ts ;; ret (c || changed)
             | None => ret changed
             end ;;
  if changed then
    UpdateBridgeInfo ;;
    p <- get_portal ;;
    err <- call (DB_Portal_Update (Portal_row p)) ;;
    match err with
    | Some _ => log ErrorLevel "Failed to save portal to database after updating info"
    | None => ret tt
    end
  else ret tt.

(** *** Membership syncer *)

(** The inner loop of [SyncParticipants]: the first login that is this
    member decides; the result is the user intent found (if any) and the
    user ids appended to [expectedExtraUsers] and [expectedUserIDs]. *)
Fixpoint SyncParticipants_findLogin (member : networkid.UserID)
    (loginsInPortal : list UserLogin) : M (option MatrixAPI * list id.UserID) :=
  match loginsInPortal with
  | [] => ret (None, [])
  | login :: rest =>
      client <- deref (UserLogin_Client login) ;;
      isThis <- call (IsThisUser client member) ;;
      if isThis then
        userIntent <- call (UserIntent (UserLogin_UserMXID login)) ;;
        match userIntent with
        | Some i => ret (Some i, [])
        | None => ret (None, [UserLogin_UserMXID login])
        end
      else SyncParticipants_findLogin member rest
  end.

(** The first loop of [SyncParticipants], over [members]; [inl err] when the
    function returns the error from inside the loop. *)
Fixpoint SyncParticipants_plan (members : list networkid.UserID)
    (loginsInPortal : list UserLogin) (source : UserLogin)
    (expectedUserIDs expectedExtraUsers : list id.UserID)
    (expectedIntents : list MatrixAPI)
  : M (error + (list id.UserID * list id.UserID * list MatrixAPI)) :=
  match members with
  | [] => ret (inr (expectedUserIDs, expectedExtraUsers, expectedIntents))
  | member :: rest =>
      '(userIntent, extra) <- SyncParticipants_findLogin member loginsInPortal ;;
      let expectedExtraUsers := expectedExtraUsers ++ extra in
      let expectedUserIDs := expectedUserIDs ++ extra in
      '(ghost, err) <- call (GetGhostByID member) ;;
      match err with
      | Some e => ret (inl e)
      | None =>
          ghost <- deref ghost ;;
          call (UpdateInfoIfNecessary ghost source) ;;
          let intent :=
            match userIntent with
            | Some i => i
            | None => Ghost_Intent ghost
            end in
          SyncParticipants_plan rest loginsInPortal source
            (expectedUserIDs ++ [GetMXID intent]) expectedExtraUsers
            (expectedIntents ++ [intent])
      end
  end.

Definition Membership_is (m : event.Membership) (c : event.MemberEventContent) : bool :=
  event.Membership_eqb (event.Membership_ c) m.

(** The loop over [expectedIntents]; returns [currentMembers] after the
    deletions. *)
Fixpoint SyncParticipants_join (roomID : id.RoomID) (expectedIntents : list MatrixAPI)
    (currentMembers : list (id.UserID * event.MemberEventContent))
  : M (list (id.UserID * event.MemberEventContent)) :=
  match expectedIntents with
  | [] => ret currentMembers
  | intent :: rest =>
      let mxid := GetMXID intent in
      let memberEvt := map_get mxid currentMembers in
      let currentMembers := map_delete mxid currentMembers in
      (if match memberEvt with
          | None => true
          | Some evt => negb (Membership_is event.MembershipJoin evt)
          end
       then
         err <- call (EnsureJoined intent roomID) ;;
         match err with
         | Some _ => log ErrorLevel "Failed to ensure user is joined to room"
         | None => ret tt
         end
       else ret tt) ;;
      SyncParticipants_join roomID rest currentMembers
  end.

(** The loop over [expectedExtraUsers]. *)
Fixpoint SyncParticipants_invite (roomID : id.RoomID) (expectedExtraUsers : list id.UserID)
    (currentMembers : list (id.UserID * event.MemberEventContent))
  : M (list (id.UserID * event.MemberEventContent)) :=
  match expectedExtraUsers with
  | [] => ret currentMembers
  | mxid :: rest =>
      let memberEvt := map_get mxid currentMembers in
      let currentMembers := map_delete mxid currentMembers in
      (if match memberEvt with
          | None => true
          | Some evt => negb (Membership_is event.MembershipJoin evt)
                        && negb (Membership_is event.MembershipInvite evt)
          end
       then
         err <- call (InviteUser Bot roomID mxid) ;;
         match err with
         | Some _ => log ErrorLevel "Failed to invite user to room"
         | None => ret tt
         end
       else ret tt) ;;
      SyncParticipants_invite roomID rest currentMembers
  end.

(** The loop over the members that are left, when the portal has no relay. *)
Fixpoint SyncParticipants_remove (roomID : id.RoomID)
    (currentMembers : list (id.UserID * event.MemberEventContent)) : M unit :=
  match currentMembers with
  | [] => ret tt
  | (extraMember, memberEvt) :: rest =>
      (if Membership_is event.MembershipLeave memberEvt
          || Membership_is event.MembershipBan memberEvt
       then ret tt else
       now <- call time_Now ;;
       '(_, err) <- call (SendState Bot roomID event.StateMember extraMember
                            {| Content_Parsed := Some (ParsedMember
                                 {| event.Membership_ := event.MembershipLeave;
                                    event.AvatarURL := event.AvatarURL memberEvt;
                                    event.Displayname := event.Displayname memberEvt;
                                    event.Reason := "User is not in remote chat" |});
                               Content_Raw := None |} now) ;;
       match err with
       | Some _ => log ErrorLevel "Failed to remove user from room"
       | None => ret tt
       end) ;;
      SyncParticipants_remove roomID rest
  end.

Definition SyncParticipants (members : list networkid.UserID) (source : UserLogin)
  : M (list id.UserID * option error) :=
  p <- get_portal ;;
  '(loginsInPortal, err) <- call (GetUserLoginsInPortal (Portal_ID (Portal_row p))) ;;
  match err with
  | Some e => ret ([], Some e)
  | None =>
      plan <- SyncParticipants_plan members loginsInPortal source [] [] [] ;;
      match plan with
      | inl e => ret ([], Some e)
      | inr (expectedUserIDs, expectedExtraUsers, expectedIntents) =>
          p <- get_portal ;;
          if String.eqb (MXID p) "" then ret (expectedUserIDs, None) else
          '(currentMembers, _) <- call (GetMembers (MXID p)) ;;
          currentMembers <- SyncParticipants_join (MXID p) expectedIntents currentMembers ;;
          currentMembers <- SyncParticipants_invite (MXID p) expectedExtraUsers currentMembers ;;
          match Portal_Relay p with
          | None => SyncParticipants_remove (MXID p) currentMembers
          | Some _ => ret tt
          end ;;
          ret (expectedUserIDs, None)
      end
  end.

(** *** Room creator *)

Definition CreateMatrixRoom (source : UserLogin) : M (option error) :=
  p <- get_portal ;;
  if negb (String.eqb (MXID p) "") then ret None else
  log InfoLevel "Creating Matrix room" ;;
  client <- deref (UserLogin_Client source) ;;
  '(info, err) <- call (GetChatInfo client p) ;;
  match err with
  | Some e =>
      log ErrorLevel "Failed to update portal info for creation" ;;
      ret (Some e)
  | None =>
  info <- deref info ;;
  UpdateInfo info None 0%Z ;;
  '(initialMembers, err) <- SyncParticipants (PortalInfo_Members info) source ;;
  match err with
  | Some e =>
      log ErrorLevel "Failed to process participant list for portal creation" ;;
      ret (Some e)
  | None =>
  p <- get_portal ;;
  isDirect <- deref (PortalInfo_IsDirectChat info) ;;
  serverName <- call ServerName ;;
  let req_Name := Portal_Name (Portal_row p) in
  let req_Topic := Portal_Topic (Portal_row p) in
  let req_CreationContent : anymap := [] in
  let req_InitialState : list Event := [] in
  (* TODO find this properly from the matrix connector *)
  let isBeeper := true in
  let req_BeeperAutoJoinInvites := if isBeeper then true else false in
  let req_Invite := if isBeeper then initialMembers else [] in
  isSpace <- deref (PortalInfo_IsSpace info) ;;
  let req_CreationContent :=
    if isSpace then map_set "type" AnyRoomTypeSpace req_CreationContent
    else req_CreationContent in
  let emptyString := "" in
  let stateEvent (stateKey : string) (t : event.Type_) (c : Content) : Event :=
    {| Event_ID := ""; Event_Sender := ""; Event_Type := t;
       Event_StateKey := Some stateKey; Event_Redacts := "";
       Event_Content := c; Event_EventSource := 0%Z |} in
  let req_InitialState :=
    req_InitialState ++
    [stateEvent emptyString event.stateElementFunctionalMembers
       {| Content_Parsed := None;
          Content_Raw := Some [("service_members", AnyUserIDs [GetMXID Bot])] |}] in
  let req_InitialState :=
    if String.eqb req_Topic "" then
      req_InitialState ++
      [stateEvent emptyString event.StateTopic
         {| Content_Parsed := Some (ParsedTopic ""); Content_Raw := None |}]
    else req_InitialState in
  let req_InitialState :=
    if negb (String.eqb (Portal_AvatarMXC (Portal_row p)) "") then
      req_InitialState ++
      [stateEvent emptyString event.StateRoomAvatar
         {| Content_Parsed := Some (ParsedRoomAvatar (Portal_AvatarMXC (Portal_row p)));
            Content_Raw := None |}]
    else req_InitialState in
  req_InitialState <-
    match Portal_Parent p with
    | Some parent =>
        serverName <- call ServerName ;;
        ret (req_InitialState ++
             [stateEvent (MXID parent) event.StateSpaceParent
                {| Content_Parsed := Some (ParsedSpaceParent
                     {| event.Via := [serverName]; event.Canonical := true |});
                   Content_Raw := None |}])
    | None => ret req_InitialState
    end ;;
  let req :=
    {| Req_Visibility := "private";
       Req_Name := req_Name;
       Req_Topic := req_Topic;
       Req_Invite := req_Invite;
       Req_Preset := "private_chat";
       Req_IsDirect := isDirect;
       Req_CreationContent := req_CreationContent;
       Req_InitialState := req_InitialState;
       Req_PowerLevelOverride_Users := [(GetMXID Bot, 9001%Z)];
       Req_BeeperLocalRoomID :=
         String.append "!" (String.append (Portal_ID (Portal_row p))
                              (String.append ":" serverName));
       Req_BeeperInitialMembers := initialMembers;
       Req_BeeperAutoJoinInvites := req_BeeperAutoJoinInvites |} in
  '(roomID, err) <- call (CreateRoom Bot req) ;;
  match err with
  | Some e =>
      log ErrorLevel "Failed to create Matrix room" ;;
      ret (Some e)
  | None =>
  log InfoLevel "Matrix room created" ;;
  assign (set_AvatarSet true) ;;
  assign (set_TopicSet true) ;;
  assign (set_NameSet true) ;;
  assign (set_MXID roomID) ;;
  p <- get_portal ;;
  register_portalsByMXID roomID (Portal_ID (Portal_row p)) ;;
  err <- call (DB_Portal_Update (Portal_row p)) ;;
  match err with
  | Some e =>
      log ErrorLevel "Failed to save portal to database after creating Matrix room" ;;
      ret (Some e)
  | None =>
  (if negb isBeeper then
     '(_, err) <- SyncParticipants (PortalInfo_Members info) source ;;
     match err with
     | Some _ => log ErrorLevel "Failed to sync participants after room creation"
     | None => ret tt
     end
   else ret tt) ;;
  ret None
  end end end end.

(** *** Remote-event handlers *)

Definition getIntentFor (sender : EventSender) (source : UserLogin)
  : M (option MatrixAPI) :=
  intent <- (if IsFromMe sender
             then call (UserIntent (UserLogin_UserMXID source))
             else ret None) ;;
  intent <- match intent with
            | None =>
                if negb (String.eqb (SenderLogin sender) "") then
                  senderLogin <- call (GetCachedUserLoginByID (SenderLogin sender)) ;;
                  match senderLogin with
                  | Some l => call (UserIntent (UserLogin_UserMXID l))
                  | None => ret intent
                  end
                else ret intent
            | Some _ => ret intent
            end ;;
  match intent with
  | None =>
      '(ghost, err) <- call (GetGhostByID (Sender sender)) ;;
      match err with
      | Some _ =>
          log ErrorLevel "Failed to get ghost for message sender" ;;
          ret None
      | None =>
          ghost <- deref ghost ;;
          call (UpdateInfoIfNecessary ghost source) ;;
          ret (Some (Ghost_Intent ghost))
      end
  | Some _ => ret intent
  end.

(** [slices.Contains] *)
Definition slices_Contains (l : list string) (x : string) : bool :=
  existsb (String.eqb x) l.

(** [make(map[string]any)] when the map is nil. *)
Definition or_empty (m : option anymap) : anymap :=
  match m with
  | Some m => m
  | None => []
  end.

(** The loop of [handleRemoteMessage] over [converted.Parts];
    [prevThreadEvent] is the loop-carried variable. *)
Fixpoint handleRemoteMessage_parts (evt : RemoteEvent) (intent : MatrixAPI)
    (timestamp : Time) (relatesToRowID : Z)
    (replyTo threadRoot prevThreadEvent : option database_Message)
    (parts : list ConvertedMessagePart) : M unit :=
  match parts with
  | [] => ret tt
  | part :: rest =>
      p <- get_portal ;;
      let content := Part_Content part in
      let content :=
        match threadRoot, prevThreadEvent with
        | Some root, Some prev => SetThread content (Message_MXID root) (Message_MXID prev)
        | _, _ => content
        end in
      let content :=
        match replyTo with
        | Some reply =>
            let content := SetReplyTo content (Message_MXID reply) in
            let '(content, mentions) :=
              match MessageEventContent_Mentions content with
              | None =>
                  let m := {| event.UserIDs := [] |} in (set_Mentions content m, m)
              | Some m => (content, m)
              end in
            match map_get "sender_mxid" (or_empty (Message_Metadata reply)) with
            | Some (AnyString replyTargetSenderMXID) =>
                if negb (slices_Contains (event.UserIDs mentions) replyTargetSenderMXID)
                then set_Mentions content
                       {| event.UserIDs := event.UserIDs mentions ++ [replyTargetSenderMXID] |}
                else content
            | _ => content
            end
        | None => content
        end in
      '(resp, err) <- call (SendMessage intent (MXID p) (Part_Type part)
                              {| Content_Parsed := Some (ParsedMessage content);
                                 Content_Raw := Part_Extra part |} timestamp) ;;
      match err with
      | Some _ =>
          log ErrorLevel "Failed to send message part to Matrix" ;;
          handleRemoteMessage_parts evt intent timestamp relatesToRowID
            replyTo threadRoot prevThreadEvent rest
      | None =>
          let DBMetadata :=
            map_set "sender_mxid" (AnyUserID (GetMXID intent))
              (or_empty (Part_DBMetadata part)) in
          resp <- deref resp ;;
          let dbMessage :=
            {| Message_RowID := 0%Z;
               Message_ID := GetID evt;
               Message_PartID := Part_ID part;
               Message_MXID := RespSendEvent_EventID resp;
               Message_RoomID := Portal_ID (Portal_row p);
               Message_SenderID := Sender (GetSender evt);
               Message_Timestamp := timestamp;
               Message_RelatesToRowID := relatesToRowID;
               Message_Metadata := Some DBMetadata |} in
          err <- call (DB_Message_Insert dbMessage) ;;
          match err with
          | Some _ => log ErrorLevel "Failed to save message part to database"
          | None => ret tt
          end ;;
          let prevThreadEvent :=
            match prevThreadEvent with
            | Some _ => Some dbMessage
            | None => None
            end in
          handleRemoteMessage_parts evt intent timestamp relatesToRowID
            replyTo threadRoot prevThreadEvent rest
      end
  end.

Definition handleRemoteMessage (source : UserLogin) (evt : RemoteEvent) : M unit :=
  '(existing, err) <- call (DB_Message_GetFirstPartByID (GetID evt)) ;;
  (* [true] when the function returns here *)
  duplicate <- match err, existing with
               | Some _, _ =>
                   log ErrorLevel "Failed to check if message is a duplicate" ;;
                   ret false
               | None, Some _ =>
                   log DebugLevel "Ignoring duplicate message" ;;
                   ret true
               | None, None => ret false
               end ;;
  if duplicate then ret tt else
  intent <- getIntentFor (GetSender evt) source ;;
  match intent with
  | None => ret tt
  | Some intent =>
  p <- get_portal ;;
  '(converted, err) <- call (ConvertMessage evt p intent) ;;
  match err with
  | Some _ => ret tt
  | None =>
  converted <- deref converted ;;
  let relatesToRowID := 0%Z in
  '(replyTo, relatesToRowID) <-
    match ConvertedMessage_ReplyTo converted with
    | Some ref =>
        '(replyTo, err) <- call (DB_Message_GetFirstOrSpecificPartByID ref) ;;
        match err with
        | Some _ =>
            log ErrorLevel "Failed to get reply target message from database" ;;
            ret (replyTo, relatesToRowID)
        | None =>
            row <- deref replyTo ;;
            ret (replyTo, Message_RowID row)
        end
    | None => ret (None, relatesToRowID)
    end ;;
  '(threadRoot, prevThreadEvent, relatesToRowID) <-
    match ConvertedMessage_ThreadRoot converted with
    | Some ref =>
        '(threadRoot, err) <- call (DB_Message_GetFirstOrSpecificPartByID ref) ;;
        relatesToRowID <-
          match err with
          | Some _ =>
              log ErrorLevel "Failed to get thread root message from database" ;;
              ret relatesToRowID
          | None =>
              row <- deref threadRoot ;;
              ret (Message_RowID row)
          end ;;
        ret (threadRoot, threadRoot, relatesToRowID)
    | None => ret (None, None, relatesToRowID)
    end ;;
  handleRemoteMessage_parts evt intent (ConvertedMessage_Timestamp converted)
    relatesToRowID replyTo threadRoot prevThreadEvent
    (ConvertedMessage_Parts converted)
  end end.

(** The loop of [handleRemoteEdit] over [converted.ModifiedParts]. *)
Fixpoint handleRemoteEdit_modified (intent : MatrixAPI) (timestamp : Time)
    (parts : list ConvertedEditPart) : M unit :=
  match parts with
  | [] => ret tt
  | part :: rest =>
      p <- get_portal ;;
      let content := SetEdit (EditPart_Content part) (Message_MXID (EditPart_Part part)) in
      let TopLevelExtra := or_empty (EditPart_TopLevelExtra part) in
      let TopLevelExtra :=
        match EditPart_Extra part with
        | Some extra => map_set "m.new_content" (AnyMap extra) TopLevelExtra
        | None => TopLevelExtra
        end in
      let wrappedContent :=
        {| Content_Parsed := Some (ParsedMessage content);
           Content_Raw := Some TopLevelExtra |} in
      '(_, err) <- call (SendMessage intent (MXID p) (EditPart_Type part)
                           wrappedContent timestamp) ;;
      match err with
      | Some _ => log ErrorLevel "Failed to edit message part"
      | None => ret tt
      end ;;
      err <- call (DB_Message_Update (EditPart_Part part)) ;;
      match err with
      | Some _ => log ErrorLevel "Failed to update message part in database"
      | None => ret tt
      end ;;
      handleRemoteEdit_modified intent timestamp rest
  end.

(** The loop of [handleRemoteEdit] over [converted.DeletedParts]. *)
Fixpoint handleRemoteEdit_deleted (intent : MatrixAPI) (timestamp : Time)
    (parts : list database_Message) : M unit :=
  match parts with
  | [] => ret tt
  | part :: rest =>
      p <- get_portal ;;
      let redactContent :=
        {| Content_Parsed := Some (ParsedRedaction
                                     {| event.Redacts := Message_MXID part |});
           Content_Raw := None |} in
      '(_, err) <- call (SendMessage intent (MXID p) event.EventRedaction
                           redactContent timestamp) ;;
      match err with
      | Some _ => log ErrorLevel "Failed to redact message part deleted in edit"
      | None => ret tt
      end ;;
      err <- call (DB_Message_Delete (Message_RowID part)) ;;
      match err with
      | Some _ => log ErrorLevel "Failed to delete message part from database"
      | None => ret tt
      end ;;
      handleRemoteEdit_deleted intent timestamp rest
  end.

Definition handleRemoteEdit (source : UserLogin) (evt : RemoteEvent) : M unit :=
  '(existing, err) <- call (DB_Message_GetAllPartsByID (GetTargetMessage evt)) ;;
  match err, existing with
  | Some _, _ => log ErrorLevel "Failed to get edit target message"
  | None, None => log WarnLevel "Edit target message not found"
  | None, Some existing =>
  intent <- getIntentFor (GetSender evt) source ;;
  match intent with
  | None => ret tt
  | Some intent =>
  p <- get_portal ;;
  '(converted, err) <- call (ConvertEdit evt p intent existing) ;;
  match err with
  | Some _ => ret tt
  | None =>
  converted <- deref converted ;;
  handleRemoteEdit_modified intent (ConvertedEdit_Timestamp converted)
    (ConvertedEdit_ModifiedParts converted) ;;
  handleRemoteEdit_deleted intent (ConvertedEdit_Timestamp converted)
    (ConvertedEdit_DeletedParts converted)
  end end end.

Definition handleRemoteReaction (source : UserLogin) (evt : RemoteEvent) : M unit :=
  ret tt.

Definition handleRemoteReactionRemove (source : UserLogin) (evt : RemoteEvent) : M unit :=
  ret tt.

Definition handleRemoteMessageRemove (source : UserLogin) (evt : RemoteEvent) : M unit :=
  ret tt.

(** The type assertion [evt.(I)], [I] the interface of event type [t],
    followed by the handler. *)
Definition assert_type (t : RemoteEventType) (evt : RemoteEvent)
    (handler : RemoteEvent -> M unit) : M unit :=
  if Implements evt t then handler evt
  else panic "interface conversion: missing method".

Definition handleRemoteEvent (source : UserLogin) (evt : RemoteEvent) : M unit :=
  p <- get_portal ;;
  created <-
    (if String.eqb (MXID p) "" then
       if negb (ShouldCreatePortal evt) then ret false else
       err <- CreateMatrixRoom source ;;
       match err with
       | Some _ =>
           log ErrorLevel "Failed to create portal to handle event" ;;
           ret false
       | None => ret true
       end
     else ret true) ;;
  (* [created] is false when the function has returned above *)
  if negb created then ret tt else
  match GetType evt with
  | RemoteEventMessage =>
      assert_type RemoteEventMessage evt (handleRemoteMessage source)
  | RemoteEventEdit =>
      assert_type RemoteEventEdit evt (handleRemoteEdit source)
  | RemoteEventReaction =>
      assert_type RemoteEventReaction evt (handleRemoteReaction source)
  | RemoteEventReactionRemove =>
      assert_type RemoteEventReactionRemove evt (handleRemoteReactionRemove source)
  | RemoteEventMessageRemove =>
      assert_type RemoteEventMessageRemove evt (handleRemoteMessageRemove source)
  | RemoteEventUnknown => ret tt
  end.

(** *** Matrix-event handlers *)

(** The first loop of [FindPreferredLogin]: the first of [logins] that the
    user has cached with a client. *)
Fixpoint FindPreferredLogin_usable (user : User) (logins : list networkid.UserLoginID)
  : option UserLogin :=
  match logins with
  | [] => None
  | loginID :: rest =>
      match map_get loginID (User_logins user) with
      | Some login =>
          match UserLogin_Client login with
          | Some _ => Some login
          | None => FindPreferredLogin_usable user rest
          end
      | None => FindPreferredLogin_usable user rest
      end
  end.

Definition FindPreferredLogin (user : User) : M (option UserLogin * option error) :=
  p <- get_portal ;;
  '(logins, err) <- call (DB_User_FindLoginsByPortalID (User_MXID user)
                            (Portal_ID (Portal_row p))) ;;
  match err with
  | Some e => ret (None, Some e)
  | None =>
      match FindPreferredLogin_usable user logins with
      | Some login => ret (Some login, None)
      | None =>
          (* Portal has relay, use it *)
          match Portal_Relay p with
          | Some _ => ret (None, None)
          | None =>
              match User_logins user with
              | (_, firstLogin) :: _ =>
                  log WarnLevel "No usable user portal rows found, returning random login" ;;
                  ret (Some firstLogin, None)
              | [] => ret (None, Some ErrNotLoggedIn)
              end
          end
      end
  end.

Definition handleMatrixReadReceipt (user : option User) (eventID : id.EventID)
    (receipt : ReadReceipt) : M unit :=
  ret tt.

Fixpoint ReceiptType_get {V} (m : list (ReceiptType * V)) : option V :=
  match m with
  | [] => None
  | (ReceiptTypeRead, v) :: _ => Some v
  | _ :: rest => ReceiptType_get rest
  end.

(** The inner loop of [handleMatrixReceipts]; [false] when the function
    returns from inside the loop. *)
Fixpoint handleMatrixReceipts_users (evtID : id.EventID)
    (readReceipts : list (id.UserID * ReadReceipt)) : M bool :=
  match readReceipts with
  | [] => ret true
  | (userID, receipt) :: rest =>
      '(sender, err) <- call (GetUserByMXID userID) ;;
      match err with
      | Some _ => ret false
      | None =>
          handleMatrixReadReceipt sender evtID receipt ;;
          handleMatrixReceipts_users evtID rest
      end
  end.

Fixpoint handleMatrixReceipts_events
    (content : list (id.EventID * list (ReceiptType * list (id.UserID * ReadReceipt))))
  : M unit :=
  match content with
  | [] => ret tt
  | (evtID, receipts) :: rest =>
      match ReceiptType_get receipts with
      | None => handleMatrixReceipts_events rest
      | Some readReceipts =>
          continue <- handleMatrixReceipts_users evtID readReceipts ;;
          if continue then handleMatrixReceipts_events rest else ret tt
      end
  end.

Definition handleMatrixReceipts (evt : Event) : M unit :=
  match Content_Parsed (Event_Content evt) with
  | Some (ParsedReceipt content) => handleMatrixReceipts_events content
  | _ => ret tt
  end.

(** [slices.Sort] on user ids, by insertion. *)
Fixpoint sort_insert (x : string) (l : list string) : list string :=
  match l with
  | [] => [x]
  | y :: l' => if String.leb x y then x :: l else y :: sort_insert x l'
  end.

Fixpoint slices_Sort (l : list string) : list string :=
  match l with
  | [] => []
  | x :: l' => sort_insert x (slices_Sort l')
  end.

Definition set_currentlyTyping (v : list id.UserID) (p : Portal) : Portal :=
  {| Portal_row := Portal_row p;
     Portal_Parent := Portal_Parent p;
     Portal_Relay := Portal_Relay p;
     Portal_currentlyTyping := v |}.

(** The typing diff is computed by the source and not used yet (the two
    loops over it are empty); what remains is the assignment. *)
Definition handleMatrixTyping (evt : Event) : M unit :=
  match Content_Parsed (Event_Content evt) with
  | Some (ParsedTyping UserIDs) =>
      p <- get_portal ;;
      set_portal (set_currentlyTyping (slices_Sort UserIDs) p)
  | _ => ret tt
  end.

Definition handleMatrixEdit (sender : UserLogin) (origSender : option OrigSender)
    (evt : Event) (content : MessageEventContent) : M unit :=
  let editTargetID := GetReplaceID (MessageEventContent_RelatesTo content) in
  let content :=
    match MessageEventContent_NewContent content with
    | Some newContent => newContent
    | None => content
    end in
  '(editTarget, err) <- call (DB_Message_GetPartByMXID editTargetID) ;;
  match err, editTarget with
  | Some _, _ => log ErrorLevel "Failed to get edit target message from database"
  | None, None => log WarnLevel "Edit target message not found in database"
  | None, Some editTarget =>
      p <- get_portal ;;
      client <- deref (UserLogin_Client sender) ;;
      err <- call (HandleMatrixEdit client
                     {| MatrixEdit_Event := evt;
                        MatrixEdit_Content := content;
                        MatrixEdit_OrigSender := origSender;
                        MatrixEdit_Portal := p;
                        MatrixEdit_EditTarget := editTarget |}) ;;
      match err with
      | Some _ => log ErrorLevel "Failed to handle Matrix edit"
      | None =>
          err <- call (DB_Message_Update editTarget) ;;
          match err with
          | Some _ => log ErrorLevel "Failed to save message to database after editing"
          | None => ret tt
          end
      end
  end.

Definition set_Metadata (v : option anymap) (m : database_Message) : database_Message :=
  {| Message_RowID := Message_RowID m;
     Message_ID := Message_ID m;
     Message_PartID := Message_PartID m;
     Message_MXID := Message_MXID m;
     Message_RoomID := Message_RoomID m;
     Message_SenderID := Message_SenderID m;
     Message_Timestamp := Message_Timestamp m;
     Message_RelatesToRowID := Message_RelatesToRowID m;
     Message_Metadata := v |}.

Definition handleMatrixMessage (sender : UserLogin) (origSender : option OrigSender)
    (evt : Event) : M unit :=
  match Content_Parsed (Event_Content evt) with
  | Some (ParsedMessage content) =>
      if negb (String.eqb (GetReplaceID (MessageEventContent_RelatesTo content)) "") then
        handleMatrixEdit sender origSender evt content
      else
      (* TODO get capabilities from network connector *)
      let threadsSupported := true in
      let repliesSupported := true in
      threadRoot <-
        (if threadsSupported then
           let threadRootID := GetThreadParent (MessageEventContent_RelatesTo content) in
           if negb (String.eqb threadRootID "") then
             '(threadRoot, err) <- call (DB_Message_GetPartByMXID threadRootID) ;;
             match err with
             | Some _ => log ErrorLevel "Failed to get thread root message from database"
             | None => ret tt
             end ;;
             ret threadRoot
           else ret None
         else ret None) ;;
      replyTo <-
        (if repliesSupported then
           let replyToID :=
             if threadsSupported
             then GetNonFallbackReplyTo (MessageEventContent_RelatesTo content)
             else GetReplyTo (MessageEventContent_RelatesTo content) in
           if negb (String.eqb replyToID "") then
             '(replyTo, err) <- call (DB_Message_GetPartByMXID replyToID) ;;
             match err with
             | Some _ => log ErrorLevel "Failed to get reply target message from database"
             | None => ret tt
             end ;;
             ret replyTo
           else ret None
         else ret None) ;;
      p <- get_portal ;;
      client <- deref (UserLogin_Client sender) ;;
      '(message, err) <- call (HandleMatrixMessage client
                                 {| MatrixMessage_Event := evt;
                                    MatrixMessage_Content := content;
                                    MatrixMessage_OrigSender := origSender;
                                    MatrixMessage_Portal := p;
                                    MatrixMessage_ThreadRoot := threadRoot;
                                    MatrixMessage_ReplyTo := replyTo |}) ;;
      match err with
      | Some _ => log ErrorLevel "Failed to handle Matrix message"
      | None =>
          message <- deref message ;;
          let message :=
            set_Metadata
              (Some (map_set "sender_mxid" (AnyUserID (Event_Sender evt))
                       (or_empty (Message_Metadata message))))
              message in
          (* Hack to ensure the ghost row exists *)
          call (GetGhostByID (Message_SenderID message)) ;;
          err <- call (DB_Message_Insert message) ;;
          match err with
          | Some _ => log ErrorLevel "Failed to save message to database"
          | None => ret tt
          end
      end
  | _ => log ErrorLevel "Unexpected parsed content type"
  end.

Definition handleMatrixReaction (sender : UserLogin) (evt : Event) : M unit :=
  match Content_Parsed (Event_Content evt) with
  | Some (ParsedReaction content) =>
      '(reactionTarget, err) <-
        call (DB_Message_GetPartByMXID (Reaction_RelatesTo_EventID content)) ;;
      match err, reactionTarget with
      | Some _, _ => log ErrorLevel "Failed to get reaction target message from database"
      | None, None => log WarnLevel "Reaction target message not found in database"
      | None, Some reactionTarget =>
          p <- get_portal ;;
          client <- deref (UserLogin_Client sender) ;;
          '(dbReaction, err) <- call (HandleMatrixReaction client
                                        {| MatrixReaction_Event := evt;
                                           MatrixReaction_Content := content;
                                           MatrixReaction_Portal := p;
                                           MatrixReaction_TargetMessage := reactionTarget |}) ;;
          match err with
          | Some _ => log ErrorLevel "Failed to handle Matrix reaction"
          | None =>
              (* TODO figure out how to delete outdated reactions if appropriate *)
              match dbReaction with
              | Some dbReaction =>
                  err <- call (DB_Reaction_Upsert dbReaction) ;;
                  match err with
                  | Some _ => log ErrorLevel "Failed to save reaction to database"
                  | None => ret tt
                  end
              | None => log DebugLevel "Reaction was ignored"
              end
          end
      end
  | _ => log ErrorLevel "Unexpected parsed content type"
  end.

Definition set_Content_Parsed (v : Parsed) (evt : Event) : Event :=
  {| Event_ID := Event_ID evt;
     Event_Sender := Event_Sender evt;
     Event_Type := Event_Type evt;
     Event_StateKey := Event_StateKey evt;
     Event_Redacts := Event_Redacts evt;
     Event_Content := {| Content_Parsed := Some v;
                         Content_Raw := Content_Raw (Event_Content evt) |};
     Event_EventSource := Event_EventSource evt |}.

Definition handleMatrixRedaction (sender : UserLogin) (origSender : option OrigSender)
    (evt : Event) : M unit :=
  match Content_Parsed (Event_Content evt) with
  | Some (ParsedRedaction content) =>
      (* [content] points into [evt]: the assignment is seen through both *)
      let content :=
        if negb (String.eqb (Event_Redacts evt) "")
           && negb (String.eqb (event.Redacts content) (Event_Redacts evt))
        then {| event.Redacts := Event_Redacts evt |}
        else content in
      let evt := set_Content_Parsed (ParsedRedaction content) evt in
      '(redactionTargetMsg, err) <-
        call (DB_Message_GetPartByMXID (event.Redacts content)) ;;
      match err with
      | Some _ => log ErrorLevel "Failed to get redaction target message from database"
      | None =>
      '(redactionTargetReaction, err) <-
        call (DB_Reaction_GetByMXID (event.Redacts content)) ;;
      match err with
      | Some _ => log ErrorLevel "Failed to get redaction target reaction from database"
      | None =>
      p <- get_portal ;;
      match redactionTargetMsg, redactionTargetReaction with
      | Some msg, _ =>
          client <- deref (UserLogin_Client sender) ;;
          err <- call (HandleMatrixMessageRemove client
                         {| MatrixMessageRemove_Event := evt;
                            MatrixMessageRemove_Content := content;
                            MatrixMessageRemove_Portal := p;
                            MatrixMessageRemove_OrigSender := origSender;
                            MatrixMessageRemove_TargetMessage := msg |}) ;;
          match err with
          | Some _ => log ErrorLevel "Failed to handle Matrix redaction"
          | None =>
              (* TODO delete msg/reaction db row *)
              ret tt
          end
      | None, Some reaction =>
          client <- deref (UserLogin_Client sender) ;;
          err <- call (HandleMatrixReactionRemove client
                         {| MatrixReactionRemove_Event := evt;
                            MatrixReactionRemove_Content := content;
                            MatrixReactionRemove_Portal := p;
                            MatrixReactionRemove_OrigSender := origSender;
                            MatrixReactionRemove_TargetReaction := reaction |}) ;;
          match err with
          | Some _ => log ErrorLevel "Failed to handle Matrix redaction"
          | None =>
              (* TODO delete msg/reaction db row *)
              ret tt
          end
      | None, None => log DebugLevel "Redaction target message not found in database"
      end
      end end
  | _ => log ErrorLevel "Unexpected parsed content type"
  end.


Definition handleMatrixEvent (sender : User) (evt : Event) : M unit :=
  if negb (Z.eqb (Z.land (Event_EventSource evt) SourceEphemeral) 0) then
    match Event_Type evt with
    | event.EphemeralEventReceipt => handleMatrixReceipts evt
    | event.EphemeralEventTyping => handleMatrixTyping evt
    | _ => ret tt
    end
  else
  '(login, err) <- FindPreferredLogin sender ;;
  match err with
  | Some _ => log ErrorLevel "Failed to get user login to handle Matrix event"
  | None =>
  '(login, origSender) <-
    match login with
    | None =>
        p <- get_portal ;;
        '(memberInfo, err) <- call (GetMemberInfo (MXID p) (User_MXID sender)) ;;
        memberEventContent <-
          match err with
          | Some _ =>
              log WarnLevel "Failed to get member info for user being relayed" ;;
              ret None
          | None => ret memberInfo
          end ;;
        ret (Portal_Relay p,
             Some {| OrigSender_User := sender;
                     OrigSender_MemberEventContent := memberEventContent |})
    | Some _ => ret (login, None)
    end ;;
  (* [login.ID] is read for the log context *)
  login <- deref login ;;
  match Event_Type evt with
  | event.EventMessage | event.EventSticker =>
      handleMatrixMessage login origSender evt
  | event.EventReaction =>
      match origSender with
      | Some _ => log DebugLevel "Ignoring reaction event from relayed user"
      | None => handleMatrixReaction login evt
      end
  | event.EventRedaction =>
      handleMatrixRedaction login origSender evt
  | _ => ret tt
  end
  end.

(** *** The pump *)

(** [eventLoop], on the events the channel delivers until it is closed. *)
Fixpoint eventLoop (events : list portalEvent) : M unit :=
  match events with
  | [] => ret tt
  | rawEvt :: rest =>
      match rawEvt with
      | portalMatrixEvent evt sender => handleMatrixEvent sender evt
      | portalRemoteEvent evt source => handleRemoteEvent source evt
      | portalIllegalEvent => panic "illegal type in eventLoop"
      end ;;
      eventLoop rest
  end.

End Code.

(** * Reading a trace *)

Section Observations.

Context {L : EventLib}.

(** The entries a computation added to the trace: those of [w'] after the
    ones [w] already had. *)
Definition new_entries (w w' : World) : Trace :=
  skipn (length (trace w)) (trace w').

(** The world [w] after the entries [tr]. *)
Definition extend (tr : Trace) (w : World) : World :=
  {| portal := portal w;
     portalsByMXID := portalsByMXID w;
     trace := trace w ++ tr |}.

(** Is the entry a [SendState] whose event type satisfies [t]? *)
Definition is_SendState_of (t : event.Type_ -> bool) (e : Entry) : bool :=
  match e with
  | Called c _ =>
      match c with
      | SendState _ _ ty _ _ _ => t ty
      | _ => false
      end
  end.

Definition is_SendMessage (e : Entry) : bool :=
  match e with
  | Called c _ =>
      match c with
      | SendMessage _ _ _ _ _ => true
      | _ => false
      end
  end.

(** Is the entry an event sent to Matrix? *)
Definition is_matrix_send (e : Entry) : bool :=
  is_SendMessage e || is_SendState_of (fun _ => true) e.

(** Is the entry a call to a login's network client that handles a Matrix
    event? *)
Definition is_client_call (e : Entry) : bool :=
  match e with
  | Called c _ =>
      match c with
      | HandleMatrixMessage _ _ | HandleMatrixEdit _ _ | HandleMatrixReaction _ _
      | HandleMatrixMessageRemove _ _ | HandleMatrixReactionRemove _ _ => true
      | _ => false
      end
  end.

(** The writes to the message, reaction and portal tables. Ghost rows are
    written inside [GetGhostByID] and [UpdateInfoIfNecessary], which are
    calls of their own. *)
Inductive DBWrite :=
| WriteMessageInsert (m : database_Message)
| WriteMessageUpdate (m : database_Message)
| WriteMessageDelete (rowID : Z)
| WriteReactionUpsert (r : database_Reaction)
| WritePortalUpdate (row : database_Portal).

Definition db_write_of (e : Entry) : list DBWrite :=
  match e with
  | Called c _ =>
      match c with
      | DB_Message_Insert m => [WriteMessageInsert m]
      | DB_Message_Update m => [WriteMessageUpdate m]
      | DB_Message_Delete r => [WriteMessageDelete r]
      | DB_Reaction_Upsert r => [WriteReactionUpsert r]
      | DB_Portal_Update r => [WritePortalUpdate r]
      | _ => []
      end
  end.

Definition db_writes (tr : Trace) : list DBWrite := flat_map db_write_of tr.

(** The rows passed to [Message.Insert]. *)
Definition inserted (tr : Trace) : list database_Message :=
  flat_map (fun w => match w with WriteMessageInsert m => [m] | _ => [] end)
           (db_writes tr).

(** The answers of the calls of one kind, in order. *)
Definition answers_Reupload (tr : Trace)
  : list (id.ContentURIString * Hash * option error) :=
  flat_map (fun e =>
    match e with
    | Called c r =>
        match c in Call R return R -> list _ with
        | Reupload _ _ _ => fun r => [r]
        | _ => fun _ => []
        end r
    end) tr.

Definition answers_GetPartByMXID (tr : Trace)
  : list (option database_Message * option error) :=
  flat_map (fun e =>
    match e with
    | Called c r =>
        match c in Call R return R -> list _ with
        | DB_Message_GetPartByMXID _ => fun r => [r]
        | _ => fun _ => []
        end r
    end) tr.

Definition answers_GetFirstPartByID (tr : Trace)
  : list (option database_Message * option error) :=
  flat_map (fun e =>
    match e with
    | Called c r =>
        match c in Call R return R -> list _ with
        | DB_Message_GetFirstPartByID _ => fun r => [r]
        | _ => fun _ => []
        end r
    end) tr.

Definition answers_GetFirstOrSpecificPartByID (tr : Trace)
  : list (option database_Message * option error) :=
  flat_map (fun e =>
    match e with
    | Called c r =>
        match c in Call R return R -> list _ with
        | DB_Message_GetFirstOrSpecificPartByID _ => fun r => [r]
        | _ => fun _ => []
        end r
    end) tr.

(** The lookups by [GetFirstOrSpecificPartByID], in order: the reference
    that was looked up, and the answer. *)
Definition lookups_GetFirstOrSpecificPartByID (tr : Trace)
  : list (MessageOptionalPartID * (option database_Message * option error)) :=
  flat_map (fun e =>
    match e with
    | Called c r =>
        match c in Call R return R -> list _ with
        | DB_Message_GetFirstOrSpecificPartByID ref => fun r => [(ref, r)]
        | _ => fun _ => []
        end r
    end) tr.

(** In [tr] the reference [ref] resolves to the stored row [row]: every
    lookup of [ref] found [row]. *)
Definition resolves_to (tr : Trace) (ref : MessageOptionalPartID)
    (row : database_Message) : Prop :=
  forall a, In (ref, a) (lookups_GetFirstOrSpecificPartByID tr) -> a = (Some row, None).


Definition answers_ConvertMessage (tr : Trace)
  : list (option ConvertedMessage * option error) :=
  flat_map (fun e =>
    match e with
    | Called c r =>
        match c in Call R return R -> list _ with
        | ConvertMessage _ _ _ => fun r => [r]
        | _ => fun _ => []
        end r
    end) tr.


Definition answers_CreateRoom (tr : Trace) : list (id.RoomID * option error) :=
  flat_map (fun e =>
    match e with
    | Called c r =>
        match c in Call R return R -> list _ with
        | CreateRoom _ _ => fun r => [r]
        | _ => fun _ => []
        end r
    end) tr.


Definition is_StateRoomAvatar (t : event.Type_) : bool :=
  match t with
  | event.StateRoomAvatar => true
  | _ => false
  end.

(** *** Tests on entries *)

(** The calls [getIntentFor] may make. *)
Definition intent_entry (e : Entry) : bool :=
  match e with
  | Called c _ =>
      match c with
      | UserIntent _ | GetCachedUserLoginByID _ | GetGhostByID _
      | UpdateInfoIfNecessary _ _ | Log _ _ => true
      | _ => false
      end
  end.

(** The calls the loop of [handleRemoteMessage] may make, with the inserted
    rows related to row [rid]. *)
Definition part_entry (rid : Z) (e : Entry) : bool :=
  match e with
  | Called c _ =>
      match c with
      | SendMessage _ _ _ _ _ | Log _ _ => true
      | DB_Message_Insert m => Z.eqb (Message_RelatesToRowID m) rid
      | _ => false
      end
  end.

(** Neither a conversion nor a resolution of a reference, and, if an insert,
    of a row related to row [rid]. *)
Definition relates_to (rid : Z) (e : Entry) : bool :=
  match e with
  | Called c _ =>
      match c with
      | ConvertMessage _ _ _ | DB_Message_GetFirstOrSpecificPartByID _ => false
      | DB_Message_Insert m => Z.eqb (Message_RelatesToRowID m) rid
      | _ => true
      end
  end.

(** Neither a message sent nor a conversion. *)
Definition before_sending (e : Entry) : bool :=
  match e with
  | Called c _ =>
      match c with
      | SendMessage _ _ _ _ _ | ConvertMessage _ _ _ => false
      | _ => true
      end
  end.

(** Not a room creation. *)
Definition no_room_created (e : Entry) : bool :=
  match e with
  | Called c _ =>
      match c with
      | CreateRoom _ _ => false
      | _ => true
      end
  end.

(** *** Statements about computations *)

(** [stepped P f w w']: from [w] to [w'] the trace grew by entries that all
    pass [P], and [f] of the portal is as it was. *)
Definition stepped {T} (P : Entry -> bool) (f : Portal -> T) (w w' : World) : Prop :=
  f (portal w') = f (portal w) /\
  exists tr, trace w' = trace w ++ tr /\ forallb P tr = true.

(** [respects P f m]: whatever the world, [m] steps in this way; also when
    it panics. *)
Definition respects {T A} (P : Entry -> bool) (f : Portal -> T) (m : M A) : Prop :=
  forall w, stepped P f w (final (m w)).

(** [post m w Q]: the outcome of [m] in [w] satisfies [Q]. *)
Definition post {A} (m : M A) (w : World) (Q : Outcome A -> Prop) : Prop := Q (m w).


End Observations.

(** * The portal registry and the event queue

    [Bridge.loadPortal], the lookups built on it, and [Portal.queueEvent].

    Conventions of this part.
    - A [*Portal] is an address in the [heap] of the portals allocated so
      far; the two caches of the bridge map ids to addresses. The row
      embedded in a portal is not changed by the registry.
    - The portal table is asked through a [Query], answered by the [Store]
      and recorded, with its answer, in [asked].
    - An error of the registry is the chain that [fmt.Errorf] builds around
      its cause with [%w].
    - [loadPortal] and [unlockedGetPortalByID] call each other along the
      chain of parents. The chain that the store describes need not end, so
      the embedding counts the lookups that miss the cache: [fuel] bounds
      their nesting, and the result is [None] when it is used up.
    - The channel [portal.events] is the list of the events sent and not
      yet received, oldest first. *)

Section Registry.

Context {L : EventLib}.

Definition PortalRef := nat.

(** The fields of a [Portal] that the registry sets. [Object_looping] is
    set where the source starts [go portal.eventLoop()]. *)
Record PortalObject := {
  Object_row : database_Portal;
  Object_Parent : option PortalRef;
  Object_looping : bool
}.

Inductive Query : Type -> Type :=
| Portal_GetByID (id : networkid.PortalID)
  : Query (option database_Portal * option error)
| Portal_GetByMXID (mxid : id.RoomID)
  : Query (option database_Portal * option error)
| Portal_Insert (row : database_Portal) : Query (option error).

Inductive Asked :=
| Answered {R : Type} (q : Query R) (r : R).

Inductive load_error :=
| FailedQuery (cause : error)            (* "failed to query db: %w" *)
| FailedInsert (cause : error)           (* "failed to insert new portal: %w" *)
| FailedParent (parentID : networkid.PortalID) (cause : load_error).
                                         (* "failed to load parent portal (%s): %w" *)

Record Bridge := {
  Bridge_ID : networkid.BridgeID;
  heap : list PortalObject;
  Bridge_portalsByID : list (networkid.PortalID * PortalRef);
  Bridge_portalsByMXID : list (id.RoomID * PortalRef);
  asked : list Asked
}.

(** [answer qs q] is what the store answers to [q] after the queries [qs]. *)
Class Store := {
  answer : forall R : Type, list Asked -> Query R -> R
}.

Context {store : Store}.

(** A computation on the bridge; [None] when the fuel is used up. *)
Definition Reg (A : Type) := Bridge -> option (A * Bridge).

Definition reg_ret {A} (a : A) : Reg A := fun br => Some (a, br).

Definition reg_bind {A B} (m : Reg A) (k : A -> Reg B) : Reg B :=
  fun br =>
    match m br with
    | Some (a, br') => k a br'
    | None => None
    end.

Definition out_of_fuel {A} : Reg A := fun _ => None.

Declare Scope registry_scope.
Local Notation "x <- m ;; k" := (reg_bind m (fun x => k))
  (at level 61, m at next level, right associativity) : registry_scope.
Local Notation "' pat <- m ;; k" := (reg_bind m (fun x => match x with pat => k end))
  (at level 61, pat pattern, m at next level, right associativity) : registry_scope.
Local Notation "m ;; k" := (reg_bind m (fun _ => k))
  (at level 61, right associativity) : registry_scope.
Local Open Scope registry_scope.

Definition get_bridge : Reg Bridge := fun br => Some (br, br).

Definition ask {R} (q : Query R) : Reg R :=
  fun br =>
    let r := answer (asked br) q in
    Some (r, {| Bridge_ID := Bridge_ID br;
                heap := heap br;
                Bridge_portalsByID := Bridge_portalsByID br;
                Bridge_portalsByMXID := Bridge_portalsByMXID br;
                asked := asked br ++ [Answered q r] |}).

(** [&Portal{...}] *)
Definition alloc (o : PortalObject) : Reg PortalRef :=
  fun br =>
    Some (length (heap br),
          {| Bridge_ID := Bridge_ID br;
             heap := heap br ++ [o];
             Bridge_portalsByID := Bridge_portalsByID br;
             Bridge_portalsByMXID := Bridge_portalsByMXID br;
             asked := asked br |}).

Fixpoint heap_update (p : PortalRef) (f : PortalObject -> PortalObject)
    (h : list PortalObject) : list PortalObject :=
  match h, p with
  | [], _ => []
  | o :: h', 0 => f o :: h'
  | o :: h', S p' => o :: heap_update p' f h'
  end.

(** An assignment to a field of the portal at [p]. *)
Definition update (p : PortalRef) (f : PortalObject -> PortalObject) : Reg unit :=
  fun br =>
    Some (tt, {| Bridge_ID := Bridge_ID br;
                 heap := heap_update p f (heap br);
                 Bridge_portalsByID := Bridge_portalsByID br;
                 Bridge_portalsByMXID := Bridge_portalsByMXID br;
                 asked := asked br |}).

(** [br.portalsByID[id] = portal] *)
Definition cache_ID (id : networkid.PortalID) (p : PortalRef) : Reg unit :=
  fun br =>
    Some (tt, {| Bridge_ID := Bridge_ID br;
                 heap := heap br;
                 Bridge_portalsByID := map_set id p (Bridge_portalsByID br);
                 Bridge_portalsByMXID := Bridge_portalsByMXID br;
                 asked := asked br |}).

(** [br.portalsByMXID[mxid] = portal] *)
Definition cache_MXID (mxid : id.RoomID) (p : PortalRef) : Reg unit :=
  fun br =>
    Some (tt, {| Bridge_ID := Bridge_ID br;
                 heap := heap br;
                 Bridge_portalsByID := Bridge_portalsByID br;
                 Bridge_portalsByMXID := map_set mxid p (Bridge_portalsByMXID br);
                 asked := asked br |}).

Definition set_Parent (parent : option PortalRef) (o : PortalObject) : PortalObject :=
  {| Object_row := Object_row o;
     Object_Parent := parent;
     Object_looping := Object_looping o |}.

Definition start_eventLoop (o : PortalObject) : PortalObject :=
  {| Object_row := Object_row o;
     Object_Parent := Object_Parent o;
     Object_looping := true |}.

(** [&database.Portal{BridgeID: br.ID, ID: *id}] *)
Definition new_row (bridgeID : networkid.BridgeID) (id : networkid.PortalID)
  : database_Portal :=
  {| Portal_BridgeID := bridgeID; Portal_ID := id;
     Portal_MXID := ""; Portal_ParentID := "";
     Portal_Name := ""; Portal_Topic := "";
     Portal_AvatarID := ""; Portal_AvatarHash := zeroHash;
     Portal_AvatarMXC := ""; Portal_NameSet := false;
     Portal_TopicSet := false; Portal_AvatarSet := false |}.

(** [loadPortal], with the lookup it uses for the parent as a parameter. *)
Definition loadPortal_with
    (unlockedGetPortalByID :
       networkid.PortalID -> bool -> Reg (option PortalRef * option load_error))
    (dbPortal : option database_Portal) (queryErr : option error)
    (id : option networkid.PortalID)
  : Reg (option PortalRef * option load_error) :=
  match queryErr with
  | Some e => reg_ret (None, Some (FailedQuery e))
  | None =>
  (* [inl]: the function returns here *)
  dbPortal <-
    match dbPortal with
    | Some row => reg_ret (inr row)
    | None =>
        match id with
        | None => reg_ret (inl (None, None))
        | Some id =>
            br <- get_bridge ;;
            let row := new_row (Bridge_ID br) id in
            err <- ask (Portal_Insert row) ;;
            match err with
            | Some e => reg_ret (inl (None, Some (FailedInsert e)))
            | None => reg_ret (inr row)
            end
        end
    end ;;
  match dbPortal with
  | inl result => reg_ret result
  | inr row =>
  portal <- alloc {| Object_row := row;
                     Object_Parent := None;
                     Object_looping := false |} ;;
  cache_ID (Portal_ID row) portal ;;
  (if negb (String.eqb (Portal_MXID row) "")
   then cache_MXID (Portal_MXID row) portal
   else reg_ret tt) ;;
  err <-
    (if negb (String.eqb (Portal_ParentID row) "") then
       '(parent, err) <- unlockedGetPortalByID (Portal_ParentID row) false ;;
       update portal (set_Parent parent) ;;
       match err with
       | Some e => reg_ret (Some (FailedParent (Portal_ParentID row) e))
       | None => reg_ret None
       end
     else reg_ret None) ;;
  match err with
  | Some e => reg_ret (None, Some e)
  | None =>
      (* [portal.updateLogger()] sets the logger only *)
      update portal start_eventLoop ;;
      reg_ret (Some portal, None)
  end
  end
  end.

Fixpoint unlockedGetPortalByID (fuel : nat) (id : networkid.PortalID)
    (onlyIfExists : bool) : Reg (option PortalRef * option load_error) :=
  br <- get_bridge ;;
  match map_get id (Bridge_portalsByID br) with
  | Some cached => reg_ret (Some cached, None)
  | None =>
      match fuel with
      | 0 => out_of_fuel
      | S fuel =>
          let idPtr := if onlyIfExists then None else Some id in
          '(db, err) <- ask (Portal_GetByID id) ;;
          loadPortal_with (unlockedGetPortalByID fuel) db err idPtr
      end
  end.

Definition loadPortal (fuel : nat) (dbPortal : option database_Portal)
    (queryErr : option error) (id : option networkid.PortalID)
  : Reg (option PortalRef * option load_error) :=
  loadPortal_with (unlockedGetPortalByID fuel) dbPortal queryErr id.

Definition GetPortalByMXID (fuel : nat) (mxid : id.RoomID)
  : Reg (option PortalRef * option load_error) :=
  br <- get_bridge ;;
  match map_get mxid (Bridge_portalsByMXID br) with
  | Some cached => reg_ret (Some cached, None)
  | None =>
      '(db, err) <- ask (Portal_GetByMXID mxid) ;;
      loadPortal fuel db err None
  end.

Definition GetPortalByID (fuel : nat) (id : networkid.PortalID)
  : Reg (option PortalRef * option load_error) :=
  unlockedGetPortalByID fuel id false.

Definition GetExistingPortalByID (fuel : nat) (id : networkid.PortalID)
  : Reg (option PortalRef * option load_error) :=
  unlockedGetPortalByID fuel id true.

End Registry.

(** ** The parent chain on the heap

    [GetTopLevelParent] on the portals of the bridge, where the chain of
    parents need not end: [loadPortal] makes a portal its own parent when
    its row says so. [fuel] bounds the number of calls, and the result is
    [None] when it is used up. An address outside the heap is no pointer of
    the program; it gives [None] as well. *)

Module Heap.

Fixpoint GetTopLevelParent (fuel : nat) (h : list PortalObject) (portal : PortalRef)
  : option PortalRef :=
  match fuel with
  | 0 => None
  | S fuel =>
      match nth_error h portal with
      | None => None
      | Some o =>
          match Object_Parent o with
          | None => Some portal
          | Some parent => GetTopLevelParent fuel h parent
          end
      end
  end.

End Heap.

(** ** The event queue *)

Section Queue.

Context {L : EventLib} {E : Env}.

Definition PortalEventBuffer : nat := 64.

(** [queueEvent]: the send succeeds when the buffer has room (a waiting
    receiver has emptied it); otherwise the event is dropped with an error
    log. [events] is the channel before, the result the channel after. *)
Definition queueEvent (evt : portalEvent) (events : list portalEvent)
  : M (list portalEvent) :=
  if Nat.ltb (length events) PortalEventBuffer
  then ret (events ++ [evt])
  else log ErrorLevel "Portal event channel is full" ;; ret events.

End Queue.

(** * More readings of a trace *)

From Stdlib Require Import Sorting.Sorted Sorting.Permutation.

Section MoreObservations.

Context {L : EventLib}.

(** The errors with which the [SendState] calls were answered, in order. *)
Definition send_errors (tr : Trace) : list (option error) :=
  flat_map (fun e =>
    match e with
    | Called c r =>
        match c in Call R return R -> list (option error) with
        | SendState _ _ _ _ _ _ => fun r => [snd r]
        | _ => fun _ => []
        end r
    end) tr.

(** Was there a [SendState], and was the last one accepted? *)
Definition last_send_accepted (tr : Trace) : bool :=
  match rev (send_errors tr) with
  | None :: _ => true
  | _ => false
  end.

(** [keeps I P m]: started on a portal that satisfies [I], [m] ends on one
    that does, and adds to the trace only entries that pass [P]. *)
Definition keeps {A} (I : Portal -> Prop) (P : Entry -> bool) (m : M A) : Prop :=
  forall w, I (portal w) ->
    I (portal (final (m w))) /\
    exists tr, trace (final (m w)) = trace w ++ tr /\ forallb P tr = true.

(** Not an event sent to Matrix. *)
Definition not_matrix_send (e : Entry) : bool := negb (is_matrix_send e).

Definition answers_FindLoginsByPortalID (tr : Trace)
  : list (list networkid.UserLoginID * option error) :=
  flat_map (fun e =>
    match e with
    | Called c r =>
        match c in Call R return R -> list _ with
        | DB_User_FindLoginsByPortalID _ _ => fun r => [r]
        | _ => fun _ => []
        end r
    end) tr.

Definition answers_HandleMatrixMessage (tr : Trace)
  : list (option database_Message * option error) :=
  flat_map (fun e =>
    match e with
    | Called c r =>
        match c in Call R return R -> list _ with
        | HandleMatrixMessage _ _ => fun r => [r]
        | _ => fun _ => []
        end r
    end) tr.

Definition answers_HandleMatrixReaction (tr : Trace)
  : list (option database_Reaction * option error) :=
  flat_map (fun e =>
    match e with
    | Called c r =>
        match c in Call R return R -> list _ with
        | HandleMatrixReaction _ _ => fun r => [r]
        | _ => fun _ => []
        end r
    end) tr.

(** The calls [FindPreferredLogin] may make. *)
Definition login_entry (e : Entry) : bool :=
  match e with
  | Called c _ =>
      match c with
      | DB_User_FindLoginsByPortalID _ _ | Log _ _ => true
      | _ => false
      end
  end.

(** A lookup of a user by MXID. *)
Definition is_GetUserByMXID (e : Entry) : bool :=
  match e with
  | Called c _ =>
      match c with
      | GetUserByMXID _ => true
      | _ => false
      end
  end.

(** Neither a client call, nor a store write, nor an event sent to Matrix. *)
Definition quiet_entry (e : Entry) : bool :=
  negb (is_client_call e) && negb (is_matrix_send e)
  && match db_write_of e with [] => true | _ => false end.

(** The row that [handleMatrixMessage] saves for the row [msg] returned by
    the client: [msg] with the sender's MXID in its metadata. *)
Definition stamped (sender : id.UserID) (msg : database_Message) : database_Message :=
  {| Message_RowID := Message_RowID msg;
     Message_ID := Message_ID msg;
     Message_PartID := Message_PartID msg;
     Message_MXID := Message_MXID msg;
     Message_RoomID := Message_RoomID msg;
     Message_SenderID := Message_SenderID msg;
     Message_Timestamp := Message_Timestamp msg;
     Message_RelatesToRowID := Message_RelatesToRowID msg;
     Message_Metadata :=
       Some (map_set "sender_mxid" (AnyUserID sender)
               match Message_Metadata msg with
               | Some m => m
               | None => []
               end) |}.

(** The event types that [handleMatrixEvent] hands to a handler. *)
Definition dispatched_type (t : event.Type_) : bool :=
  match t with
  | event.EventMessage | event.EventSticker
  | event.EventReaction | event.EventRedaction => true
  | _ => false
  end.

Definition answers_ConvertEdit (tr : Trace)
  : list (option ConvertedEdit * option error) :=
  flat_map (fun e =>
    match e with
    | Called c r =>
        match c in Call R return R -> list _ with
        | ConvertEdit _ _ _ _ => fun r => [r]
        | _ => fun _ => []
        end r
    end) tr.

(** The messages sent to Matrix: room, event type and content, in order. *)
Definition sent_messages (tr : Trace) : list (id.RoomID * event.Type_ * Content) :=
  flat_map (fun e =>
    match e with
    | Called c _ =>
        match c with
        | SendMessage _ room ty content _ => [(room, ty, content)]
        | _ => []
        end
    end) tr.

(** What [handleRemoteEdit] sends for a modified part. *)
Definition sent_edit (part : ConvertedEditPart) : Content :=
  {| Content_Parsed :=
       Some (ParsedMessage
               (SetEdit (EditPart_Content part) (Message_MXID (EditPart_Part part))));
     Content_Raw :=
       Some match EditPart_Extra part with
            | Some extra =>
                map_set "m.new_content" (AnyMap extra)
                  match EditPart_TopLevelExtra part with
                  | Some m => m
                  | None => []
                  end
            | None =>
                match EditPart_TopLevelExtra part with
                | Some m => m
                | None => []
                end
            end |}.

(** What [handleRemoteEdit] sends for a deleted part. *)
Definition sent_redaction (part : database_Message) : Content :=
  {| Content_Parsed := Some (ParsedRedaction {| event.Redacts := Message_MXID part |});
     Content_Raw := None |}.

(** The answers to the messages sent to Matrix, in order. *)
Definition send_answers (tr : Trace) : list (option RespSendEvent * option error) :=
  flat_map (fun e =>
    match e with
    | Called c r =>
        match c in Call R return R -> list _ with
        | SendMessage _ _ _ _ _ => fun r => [r]
        | _ => fun _ => []
        end r
    end) tr.

(** The intents through which the messages were sent, in order. *)
Definition sent_by (tr : Trace) : list MatrixAPI :=
  flat_map (fun e =>
    match e with
    | Called c _ =>
        match c with
        | SendMessage intent _ _ _ _ => [intent]
        | _ => []
        end
    end) tr.

(** The intents handed to [ConvertMessage], in order. *)
Definition conversion_intents (tr : Trace) : list MatrixAPI :=
  flat_map (fun e =>
    match e with
    | Called c _ =>
        match c with
        | ConvertMessage _ _ intent => [intent]
        | _ => []
        end
    end) tr.

(** The references of a converted message: the reply target, then the
    thread root. *)
Definition message_refs (converted : ConvertedMessage) : list MessageOptionalPartID :=
  match ConvertedMessage_ReplyTo converted with
  | Some ref => [ref]
  | None => []
  end
  ++ match ConvertedMessage_ThreadRoot converted with
     | Some ref => [ref]
     | None => []
     end.

(** The id of the row that a lookup found: the lookup was made, and was
    answered with a row and without error. *)
Definition found_row (answer : option (option database_Message * option error))
  : option Z :=
  match answer with
  | Some (row, None) => option_map Message_RowID row
  | _ => None
  end.

(** The row id to which the rows of a converted message are related, given
    the answers to the lookups of its references, in the order of
    [message_refs]: the id of the row found for the thread root; without
    one, the id of the row found for the reply target; without one, 0. *)
Definition related_row (converted : ConvertedMessage)
    (answers : list (option database_Message * option error)) : Z :=
  let reply :=
    match ConvertedMessage_ReplyTo converted with
    | Some _ => nth_error answers 0
    | None => None
    end in
  let root :=
    match ConvertedMessage_ThreadRoot converted with
    | Some _ =>
        nth_error answers
          match ConvertedMessage_ReplyTo converted with
          | Some _ => 1
          | None => 0
          end
    | None => None
    end in
  match found_row root, found_row reply with
  | Some rowID, _ => rowID
  | None, Some rowID => rowID
  | None, None => 0%Z
  end.

(** The calls that can write a ghost row on their own: [GetGhostByID]
    creates the row of a ghost that the store does not have, and
    [UpdateInfoIfNecessary] saves the ghost it has refreshed. *)
Inductive GhostCall :=
| GhostLookup (ghostID : networkid.UserID)
| GhostRefresh (ghost : Ghost).

Definition ghost_calls (tr : Trace) : list GhostCall :=
  flat_map (fun e =>
    match e with
    | Called c _ =>
        match c with
        | GetGhostByID ghostID => [GhostLookup ghostID]
        | UpdateInfoIfNecessary ghost _ => [GhostRefresh ghost]
        | _ => []
        end
    end) tr.

(** The row that [handleRemoteMessage] saves for a part that Matrix accepted
    with the response [resp]. *)
Definition saved_part (evt : RemoteEvent) (intent : MatrixAPI)
    (room : networkid.PortalID) (ts : Time) (rid : Z)
    (part : ConvertedMessagePart) (resp : RespSendEvent) : database_Message :=
  {| Message_RowID := 0%Z;
     Message_ID := GetID evt;
     Message_PartID := Part_ID part;
     Message_MXID := RespSendEvent_EventID resp;
     Message_RoomID := room;
     Message_SenderID := Sender (GetSender evt);
     Message_Timestamp := ts;
     Message_RelatesToRowID := rid;
     Message_Metadata :=
       Some (map_set "sender_mxid" (AnyUserID (GetMXID intent))
               match Part_DBMetadata part with
               | Some m => m
               | None => []
               end) |}.

(** The rows saved for the parts, given the answers to their messages: one
    row for each part that was accepted. *)
Definition saved_parts (evt : RemoteEvent) (intent : MatrixAPI)
    (room : networkid.PortalID) (ts : Time) (rid : Z)
    (parts : list ConvertedMessagePart)
    (answers : list (option RespSendEvent * option error)) : list database_Message :=
  flat_map (fun pa =>
    match snd (snd pa), fst (snd pa) with
    | None, Some resp => [saved_part evt intent room ts rid (fst pa) resp]
    | _, _ => []
    end) (combine parts answers).

(** The calls the handlers of remote messages and edits may make. *)
Definition remote_entry (e : Entry) : bool :=
  match e with
  | Called c _ =>
      match c with
      | DB_Message_GetFirstPartByID _ | DB_Message_GetFirstOrSpecificPartByID _
      | DB_Message_GetAllPartsByID _
      | DB_Message_Insert _ | DB_Message_Update _ | DB_Message_Delete _
      | UserIntent _ | GetCachedUserLoginByID _ | GetGhostByID _
      | UpdateInfoIfNecessary _ _
      | ConvertMessage _ _ _ | ConvertEdit _ _ _ _
      | SendMessage _ _ _ _ _ | Log _ _ => true
      | _ => false
      end
  end.

(** The calls [CreateMatrixRoom] and the functions it calls may make. *)
Definition creation_entry (e : Entry) : bool :=
  match e with
  | Called c _ =>
      match c with
      | GetChatInfo _ _ | SendState _ _ _ _ _ _ | Reupload _ _ _ | time_Now
      | DB_Portal_Update _ | GetUserLoginsInPortal _ | IsThisUser _ _
      | UserIntent _ | GetGhostByID _ | UpdateInfoIfNecessary _ _
      | GetMembers _ | EnsureJoined _ _ | InviteUser _ _ _
      | ServerName | CreateRoom _ _ | Log _ _ => true
      | _ => false
      end
  end.

(** A write to the portal table. *)
Definition is_portal_write (wr : DBWrite) : bool :=
  match wr with
  | WritePortalUpdate _ => true
  | _ => false
  end.

(** The state keys of the state events sent, in order. *)
Definition state_keys (tr : Trace) : list string :=
  flat_map (fun e =>
    match e with
    | Called c _ =>
        match c with
        | SendState _ _ _ key _ _ => [key]
        | _ => []
        end
    end) tr.

(** The calls with which [SyncParticipants] works out whom to expect. *)
Definition plan_entry (e : Entry) : bool :=
  match e with
  | Called c _ =>
      match c with
      | GetUserLoginsInPortal _ | IsThisUser _ _ | UserIntent _
      | GetGhostByID _ | UpdateInfoIfNecessary _ _ => true
      | _ => false
      end
  end.

(** A plan entry, a read of the member list, or a log line. *)
Definition sync_entry (e : Entry) : bool :=
  plan_entry e ||
  match e with
  | Called c _ =>
      match c with
      | GetMembers _ | EnsureJoined _ _ | InviteUser _ _ _ | Log _ _ => true
      | _ => false
      end
  end.

(** The requests with which rooms were created, in order. *)
Definition requests_CreateRoom (tr : Trace) : list ReqCreateRoom :=
  flat_map (fun e =>
    match e with
    | Called c _ =>
        match c with
        | CreateRoom _ req => [req]
        | _ => []
        end
    end) tr.

(** The event types that the initial state of a new room has for the
    portal [p], in order. *)
Definition initial_state_types (p : Portal) : list event.Type_ :=
  [event.stateElementFunctionalMembers]
  ++ (if String.eqb (Portal_Topic (Portal_row p)) "" then [event.StateTopic] else [])
  ++ (if String.eqb (Portal_AvatarMXC (Portal_row p)) "" then []
      else [event.StateRoomAvatar])
  ++ match Portal_Parent p with
     | Some _ => [event.StateSpaceParent]
     | None => []
     end.

(** The request for the room of portal [p]: what [CreateMatrixRoom] fixes,
    and what it takes from the portal. *)
Definition room_request_of {E : Env} (p : Portal) (req : ReqCreateRoom) : Prop :=
  Req_Visibility req = "private" /\
  Req_Preset req = "private_chat" /\
  Req_Name req = Portal_Name (Portal_row p) /\
  Req_Topic req = Portal_Topic (Portal_row p) /\
  Req_Invite req = Req_BeeperInitialMembers req /\
  Req_BeeperAutoJoinInvites req = true /\
  Req_PowerLevelOverride_Users req = [(GetMXID Bot, 9001%Z)] /\
  map Event_Type (Req_InitialState req) = initial_state_types p /\
  Forall (fun evt => Event_StateKey evt <> None) (Req_InitialState req).

(** The errors with which the lookups of users by MXID were answered. *)
Definition lookup_errors (tr : Trace) : list (option error) :=
  flat_map (fun e =>
    match e with
    | Called c r =>
        match c in Call R return R -> list (option error) with
        | GetUserByMXID _ => fun r => [snd r]
        | _ => fun _ => []
        end r
    end) tr.

Definition no_error (errs : list (option error)) : bool :=
  forallb (fun e => match e with None => true | Some _ => false end) errs.

(** An error, if there is one, is the last element. *)
Fixpoint error_only_last (errs : list (option error)) : bool :=
  match errs with
  | [] => true
  | None :: rest => error_only_last rest
  | Some _ :: rest => match rest with [] => true | _ => false end
  end.

(** The number of read receipts in the content of a receipt event. *)
Definition read_receipts
    (content : list (id.EventID * list (ReceiptType * list (id.UserID * ReadReceipt))))
  : nat :=
  list_sum (map (fun er => match ReceiptType_get (snd er) with
                           | Some readReceipts => length readReceipts
                           | None => 0
                           end) content).

(** The condition "has no room". *)
Definition no_room (p : Portal) : Prop := String.eqb (MXID p) "" = true.

(** [returns m]: whatever the world, [m] returns; it does not panic. *)
Definition returns {A} (m : M A) : Prop :=
  forall w, exists a w', m w = Done a w'.

(** *** The registry *)

(** Every entry of the two caches points to an allocated portal whose row
    has the id, or the room id, of the entry. *)
Definition cache_ok (br : Bridge) : Prop :=
  (forall id p, map_get id (Bridge_portalsByID br) = Some p ->
     exists o, nth_error (heap br) p = Some o /\ Portal_ID (Object_row o) = id) /\
  (forall mxid p, map_get mxid (Bridge_portalsByMXID br) = Some p ->
     exists o, nth_error (heap br) p = Some o /\ Portal_MXID (Object_row o) = mxid).

(** Every portal of [h] is in [h'] at its address, with its row. *)
Definition same_rows (h h' : list PortalObject) : Prop :=
  forall p o, nth_error h p = Some o ->
    exists o', nth_error h' p = Some o' /\ Object_row o' = Object_row o.

(** From [br] to [br'] portals were only added. *)
Definition extends_heap (br br' : Bridge) : Prop :=
  Bridge_ID br' = Bridge_ID br /\ same_rows (heap br) (heap br').

(** A result of a lookup: an allocated portal without error, or no portal. *)
Definition lookup_result (br : Bridge) (r : option PortalRef * option load_error)
  : Prop :=
  match r with
  | (Some p, None) => exists o, nth_error (heap br) p = Some o
  | (Some _, Some _) => False
  | (None, _) => True
  end.

(** [lookup_keeps f]: started with consistent caches, the lookup [f] ends
    with consistent caches, has only added portals, and its result is a
    lookup result. *)
Definition lookup_keeps
    (f : Bridge -> option ((option PortalRef * option load_error) * Bridge)) : Prop :=
  forall br r br',
    f br = Some (r, br') -> cache_ok br ->
    cache_ok br' /\ extends_heap br br' /\ lookup_result br' r.

(** The bridge [br] after the queries [qs]. *)
Definition with_asked (br : Bridge) (qs : list Asked) : Bridge :=
  {| Bridge_ID := Bridge_ID br;
     heap := heap br;
     Bridge_portalsByID := Bridge_portalsByID br;
     Bridge_portalsByMXID := Bridge_portalsByMXID br;
     asked := asked br ++ qs |}.

(** The bridge [br] with one more portal, made from [o], cached under the
    id of its row. *)
Definition with_portal (br : Bridge) (o : PortalObject) : Bridge :=
  {| Bridge_ID := Bridge_ID br;
     heap := heap br ++ [o];
     Bridge_portalsByID :=
       map_set (Portal_ID (Object_row o)) (length (heap br)) (Bridge_portalsByID br);
     Bridge_portalsByMXID :=
       if String.eqb (Portal_MXID (Object_row o)) ""
       then Bridge_portalsByMXID br
       else map_set (Portal_MXID (Object_row o)) (length (heap br))
              (Bridge_portalsByMXID br);
     asked := asked br |}.

(** In the heap [h], the portal at [q] is the parent of the portal at [p]. *)
Definition parent_in (h : list PortalObject) (p q : PortalRef) : Prop :=
  exists o, nth_error h p = Some o /\ Object_Parent o = Some q.

(** [n] steps from a portal to its parent lead from [p] to [q]. *)
Fixpoint ancestor (h : list PortalObject) (n : nat) (p q : PortalRef) : Prop :=
  match n with
  | 0 => p = q
  | S n => exists r, parent_in h p r /\ ancestor h n r q
  end.

(** The portal at [p] has no parent. *)
Definition is_root (h : list PortalObject) (p : PortalRef) : Prop :=
  exists o, nth_error h p = Some o /\ Object_Parent o = None.

(** The queries that inserted a row. *)
Definition inserted_rows (qs : list Asked) : list database_Portal :=
  flat_map (fun a =>
    match a with
    | Answered q _ =>
        match q with
        | Portal_Insert row => [row]
        | _ => []
        end
    end) qs.

(** [queueEvent] for each of [evts] in turn, with nothing received in
    between. *)
Fixpoint queue_all {E : Env} (evts : list portalEvent) (events : list portalEvent)
  : M (list portalEvent) :=
  match evts with
  | [] => ret events
  | evt :: rest =>
      events <- queueEvent evt events ;;
      queue_all rest events
  end.

End MoreObservations.

(** ** A concrete event library and concrete environments

    Used to run the code on explicit inputs. *)

Section Scenarios.

Record simple_RelatesTo := {
  rel_replace : id.EventID;
  rel_thread : id.EventID;
  rel_reply : id.EventID
}.

Inductive simple_Content :=
| mk_simple_Content (body : string) (rel : simple_RelatesTo)
    (mentions : option event.Mentions) (new_content : option simple_Content).

Definition simple_rel (c : simple_Content) : simple_RelatesTo :=
  match c with
  | mk_simple_Content _ r _ _ => r
  end.

Definition simpleEvents : EventLib := {|
  RelatesTo := simple_RelatesTo;
  MessageEventContent := simple_Content;
  MessageEventContent_RelatesTo := simple_rel;
  MessageEventContent_NewContent :=
    fun c => match c with mk_simple_Content _ _ _ n => n end;
  MessageEventContent_Mentions :=
    fun c => match c with mk_simple_Content _ _ m _ => m end;
  set_Mentions :=
    fun c m => match c with mk_simple_Content b r _ n => mk_simple_Content b r (Some m) n end;
  GetReplaceID := rel_replace;
  GetThreadParent := rel_thread;
  GetReplyTo := rel_reply;
  GetNonFallbackReplyTo := rel_reply;
  SetThread :=
    fun c root last =>
      match c with
      | mk_simple_Content b r m n =>
          mk_simple_Content b
            {| rel_replace := rel_replace r; rel_thread := root;
               rel_reply := if String.eqb (rel_reply r) "" then last else rel_reply r |}
            m n
      end;
  SetReplyTo :=
    fun c mxid =>
      match c with
      | mk_simple_Content b r m n =>
          mk_simple_Content b
            {| rel_replace := rel_replace r; rel_thread := rel_thread r;
               rel_reply := mxid |}
            m n
      end;
  SetEdit :=
    fun c mxid =>
      match c with
      | mk_simple_Content b r m n =>
          mk_simple_Content b
            {| rel_replace := mxid; rel_thread := ""; rel_reply := "" |}
            m (Some c)
      end;
  SourceEphemeral := 128
|}.

#[local] Existing Instance simpleEvents.

Definition the_bot : MatrixAPI := {| api_ptr := 0; GetMXID := "@bot:example.org" |}.

Definition ghost_intent (ghostID : networkid.UserID) : MatrixAPI :=
  {| api_ptr := 1; GetMXID := String.append "@ghost_" (String.append ghostID ":example.org") |}.

Definition ghost_of (ghostID : networkid.UserID) : Ghost :=
  {| Ghost_ID := ghostID; Ghost_Intent := ghost_intent ghostID |}.

Definition plain_text (body : string) : simple_Content :=
  mk_simple_Content body {| rel_replace := ""; rel_thread := ""; rel_reply := "" |} None None.

(** The environment in which every call succeeds and every lookup finds
    nothing. *)
Definition respond_ok (R : Type) (tr : Trace) (c : Call R) : R :=
  match c in Call R return R with
  | SendState _ _ _ _ _ _ => (Some {| RespSendEvent_EventID := "$state" |}, None)
  | SendMessage _ _ _ _ _ => (Some {| RespSendEvent_EventID := "$sent" |}, None)
  | EnsureJoined _ _ => None
  | CreateRoom _ _ => ("!created:example.org", None)
  | InviteUser _ _ _ => None
  | UserIntent _ => None
  | GetMemberInfo _ _ => (None, None)
  | GetMembers _ => ([], None)
  | ServerName => "example.org"
  | HandleMatrixMessage _ _ => (None, Some (OtherError "not supported"))
  | HandleMatrixEdit _ _ => None
  | HandleMatrixReaction _ _ => (None, None)
  | HandleMatrixMessageRemove _ _ => None
  | HandleMatrixReactionRemove _ _ => None
  | GetChatInfo _ _ =>
      (Some {| PortalInfo_Name := None; PortalInfo_Topic := None;
               PortalInfo_Avatar := None; PortalInfo_Members := [];
               PortalInfo_IsDirectChat := Some false;
               PortalInfo_IsSpace := Some false |}, None)
  | IsThisUser _ _ => false
  | DB_Message_GetPartByMXID _ => (None, None)
  | DB_Message_GetFirstPartByID _ => (None, None)
  | DB_Message_GetFirstOrSpecificPartByID _ => (None, None)
  | DB_Message_GetAllPartsByID _ => (None, None)
  | DB_Message_Insert _ => None
  | DB_Message_Update _ => None
  | DB_Message_Delete _ => None
  | DB_Reaction_GetByMXID _ => (None, None)
  | DB_Reaction_Upsert _ => None
  | DB_Portal_Update _ => None
  | DB_User_FindLoginsByPortalID _ _ => ([], None)
  | GetGhostByID ghostID => (Some (ghost_of ghostID), None)
  | GetCachedUserLoginByID _ => None
  | GetUserLoginsInPortal _ => ([], None)
  | GetUserByMXID _ => (None, None)
  | UpdateInfoIfNecessary _ _ => tt
  | ConvertMessage _ _ _ => (None, Some (OtherError "not supported"))
  | ConvertEdit _ _ _ _ => (None, Some (OtherError "not supported"))
  | Reupload _ _ h => ("", h, None)
  | time_Now => 0%Z
  | Log _ _ => tt
  end.

(** Ghosts may not send state; the bot may. *)
Definition respond_forbidden (R : Type) (tr : Trace) (c : Call R) : R :=
  match c in Call R return R with
  | SendState intent _ _ _ _ _ =>
      if MatrixAPI_eqb intent the_bot
      then (Some {| RespSendEvent_EventID := "$state" |}, None)
      else (None, Some MForbidden)
  | c' => respond_ok tr c'
  end.

Definition env_forbidden : Env := {|
  respond := respond_forbidden;
  Bot := the_bot;
  IntentFor := fun g _ => Ghost_Intent g
|}.

Definition env_ok : Env := {|
  respond := respond_ok;
  Bot := the_bot;
  IntentFor := fun g _ => Ghost_Intent g
|}.

(** *** Portals and worlds *)

Definition row_of (mxid : id.RoomID) : database_Portal :=
  {| Portal_BridgeID := "bridge"; Portal_ID := "chat1"; Portal_MXID := mxid;
     Portal_ParentID := ""; Portal_Name := "Chat"; Portal_Topic := "";
     Portal_AvatarID := ""; Portal_AvatarHash := zeroHash;
     Portal_AvatarMXC := ""; Portal_NameSet := true;
     Portal_TopicSet := true; Portal_AvatarSet := true |}.

Definition portal_of (mxid : id.RoomID) : Portal :=
  {| Portal_row := row_of mxid; Portal_Parent := None; Portal_Relay := None;
     Portal_currentlyTyping := [] |}.

Definition world_of (mxid : id.RoomID) : World :=
  {| portal := portal_of mxid; portalsByMXID := []; trace := [] |}.

(** A portal with a room, and one without. *)
Definition world_room : World := world_of "!room:example.org".

Definition world_new : World := world_of "".

Definition alice_login : UserLogin :=
  {| UserLogin_ID := "login1"; UserLogin_UserMXID := "@alice:example.org";
     UserLogin_Client := Some 7 |}.

(** *** Matrix events *)

Definition stored_message (rowID : Z) (msgID : networkid.MessageID) (mxid : id.EventID)
  : database_Message :=
  {| Message_RowID := rowID; Message_ID := msgID; Message_PartID := "";
     Message_MXID := mxid; Message_RoomID := "chat1"; Message_SenderID := "bob";
     Message_Timestamp := 1%Z; Message_RelatesToRowID := 0%Z;
     Message_Metadata := Some [("sender_mxid", AnyString "@ghost_bob:example.org")] |}.

Definition matrix_event (t : event.Type_) (redacts : id.EventID) (c : Parsed) : Event :=
  {| Event_ID := "$evt"; Event_Sender := "@alice:example.org"; Event_Type := t;
     Event_StateKey := None; Event_Redacts := redacts;
     Event_Content := {| Content_Parsed := Some c; Content_Raw := None |};
     Event_EventSource := 0%Z |}.

(** The store holds one message, bridged as [$b]. *)
Definition respond_stored (R : Type) (tr : Trace) (c : Call R) : R :=
  match c in Call R return R with
  | DB_Message_GetPartByMXID mxid =>
      if String.eqb mxid "$b" then (Some (stored_message 3 "r3" "$b"), None)
      else (None, None)
  | c' => respond_ok tr c'
  end.

Definition env_stored : Env := {|
  respond := respond_stored;
  Bot := the_bot;
  IntentFor := fun g _ => Ghost_Intent g
|}.




(** A redaction of [$b], named in both places. *)
Definition redaction_of_b : Event :=
  matrix_event event.EventRedaction "$b" (ParsedRedaction {| event.Redacts := "$b" |}).




(** *** Remote events *)

Definition remote_message (msgID : networkid.MessageID) : RemoteEvent :=
  {| GetType := RemoteEventMessage; GetID := msgID;
     GetSender := {| IsFromMe := false; SenderLogin := ""; Sender := "bob" |};
     GetTargetMessage := ""; ShouldCreatePortal := true;
     Implements := fun t => RemoteEventType_eqb t RemoteEventMessage |}.

Definition text_part (partID : networkid.PartID) (body : string) : ConvertedMessagePart :=
  {| Part_ID := partID; Part_Type := event.EventMessage;
     Part_Content := plain_text body; Part_Extra := None; Part_DBMetadata := None |}.

Definition ref_to (msgID : networkid.MessageID) : MessageOptionalPartID :=
  {| MessageID := msgID; PartID := None |}.

(** The message [r1] is already bridged. *)
Definition respond_duplicate (R : Type) (tr : Trace) (c : Call R) : R :=
  match c in Call R return R with
  | DB_Message_GetFirstPartByID msgID =>
      if String.eqb msgID "r1" then (Some (stored_message 1 "r1" "$m1"), None)
      else (None, None)
  | c' => respond_ok tr c'
  end.

Definition env_duplicate : Env := {|
  respond := respond_duplicate;
  Bot := the_bot;
  IntentFor := fun g _ => Ghost_Intent g
|}.

(** The message [r1] is already bridged, and the duplicate check returns the
    row together with an error; the message converts to one part. *)
Definition respond_check_error (R : Type) (tr : Trace) (c : Call R) : R :=
  match c in Call R return R with
  | DB_Message_GetFirstPartByID msgID =>
      (Some (stored_message 1 "r1" "$m1"), Some (OtherError "database is locked"))
  | ConvertMessage _ _ _ =>
      (Some {| ConvertedMessage_ReplyTo := None; ConvertedMessage_ThreadRoot := None;
               ConvertedMessage_Timestamp := 5%Z;
               ConvertedMessage_Parts := [text_part "" "hello"] |}, None)
  | c' => respond_ok tr c'
  end.

Definition env_check_error : Env := {|
  respond := respond_check_error;
  Bot := the_bot;
  IntentFor := fun g _ => Ghost_Intent g
|}.

(** The message converts to two parts, a reply to [r5] inside the thread of
    [r7]; both are stored, with row ids 5 and 7. *)
Definition respond_thread (R : Type) (tr : Trace) (c : Call R) : R :=
  match c in Call R return R with
  | ConvertMessage _ _ _ =>
      (Some {| ConvertedMessage_ReplyTo := Some (ref_to "r5");
               ConvertedMessage_ThreadRoot := Some (ref_to "r7");
               ConvertedMessage_Timestamp := 5%Z;
               ConvertedMessage_Parts := [text_part "1" "one"; text_part "2" "two"] |},
       None)
  | DB_Message_GetFirstOrSpecificPartByID ref =>
      if String.eqb (MessageID ref) "r5" then (Some (stored_message 5 "r5" "$m5"), None)
      else if String.eqb (MessageID ref) "r7" then (Some (stored_message 7 "r7" "$m7"), None)
      else (None, None)
  | c' => respond_ok tr c'
  end.

Definition env_thread : Env := {|
  respond := respond_thread;
  Bot := the_bot;
  IntentFor := fun g _ => Ghost_Intent g
|}.

(** The message converts to a reply to [r0], which the store does not have. *)
Definition respond_reply_unknown (R : Type) (tr : Trace) (c : Call R) : R :=
  match c in Call R return R with
  | ConvertMessage _ _ _ =>
      (Some {| ConvertedMessage_ReplyTo := Some (ref_to "r0");
               ConvertedMessage_ThreadRoot := None;
               ConvertedMessage_Timestamp := 5%Z;
               ConvertedMessage_Parts := [text_part "" "hello"] |}, None)
  | c' => respond_ok tr c'
  end.

Definition env_reply_unknown : Env := {|
  respond := respond_reply_unknown;
  Bot := the_bot;
  IntentFor := fun g _ => Ghost_Intent g
|}.

(** *** Avatars and room creation *)

Definition new_avatar : Avatar := {| Avatar_ID := "avatar2"; Avatar_Remove := false |}.

Definition other_hash : Hash := repeat x01 32.

(** The avatar re-uploads to a new hash. *)
Definition respond_new_hash (R : Type) (tr : Trace) (c : Call R) : R :=
  match c in Call R return R with
  | Reupload _ _ _ => ("mxc://example.org/new", other_hash, None)
  | c' => respond_ok tr c'
  end.

Definition env_new_hash : Env := {|
  respond := respond_new_hash;
  Bot := the_bot;
  IntentFor := fun g _ => Ghost_Intent g
|}.

(** The portal row cannot be saved. *)
Definition respond_update_fails (R : Type) (tr : Trace) (c : Call R) : R :=
  match c in Call R return R with
  | DB_Portal_Update _ => Some (OtherError "database is locked")
  | c' => respond_ok tr c'
  end.

Definition env_update_fails : Env := {|
  respond := respond_update_fails;
  Bot := the_bot;
  IntentFor := fun g _ => Ghost_Intent g
|}.

(** The ids given to the duplicate check. *)
Definition duplicate_checks (tr : Trace) : list networkid.MessageID :=
  flat_map (fun e =>
    match e with
    | Called c _ =>
        match c with
        | DB_Message_GetFirstPartByID k => [k]
        | _ => []
        end
    end) tr.

End Scenarios.

(** ** More concrete inputs *)

Section MoreScenarios.

#[local] Existing Instance simpleEvents.

(** *** Users and portals *)

Definition alice : User :=
  {| User_MXID := "@alice:example.org"; User_logins := [("login1", alice_login)] |}.

(** A Matrix user without login. *)
Definition carol : User :=
  {| User_MXID := "@carol:example.org"; User_logins := [] |}.

(** The portal with a room, relayed through the login of alice. *)
Definition world_relay : World :=
  {| portal := {| Portal_row := row_of "!room:example.org";
                  Portal_Parent := None;
                  Portal_Relay := Some alice_login;
                  Portal_currentlyTyping := [] |};
     portalsByMXID := [];
     trace := [] |}.

(** *** Matrix events *)

Definition name_event : Event :=
  matrix_event event.StateRoomName "" (ParsedRoomName "Renamed").

Definition reaction_to_b : Event :=
  matrix_event event.EventReaction ""
    (ParsedReaction {| Reaction_RelatesTo_EventID := "$b" |}).

Definition hello_event : Event :=
  matrix_event event.EventMessage "" (ParsedMessage (plain_text "hello")).

Definition ephemeral_event (t : event.Type_) (c : Parsed) : Event :=
  {| Event_ID := ""; Event_Sender := ""; Event_Type := t;
     Event_StateKey := None; Event_Redacts := "";
     Event_Content := {| Content_Parsed := Some c; Content_Raw := None |};
     Event_EventSource := 128%Z |}.

Definition typing_event : Event :=
  ephemeral_event event.EphemeralEventTyping
    (ParsedTyping ["@carol:example.org"; "@alice:example.org"]).

(** The row the network client returns for a message it has sent. *)
Definition sent_row : database_Message :=
  {| Message_RowID := 0%Z; Message_ID := "r10"; Message_PartID := "";
     Message_MXID := "$evt"; Message_RoomID := "chat1"; Message_SenderID := "alice";
     Message_Timestamp := 8%Z; Message_RelatesToRowID := 0%Z;
     Message_Metadata := None |}.

Definition thumbs_up : database_Reaction :=
  {| Reaction_MessageID := "r3"; Reaction_MessagePartID := "";
     Reaction_SenderID := "alice"; Reaction_EmojiID := "+1";
     Reaction_MXID := "$evt" |}.

(** The store holds the message [$b]; the network client accepts messages
    and reactions. *)
Definition respond_client (R : Type) (tr : Trace) (c : Call R) : R :=
  match c in Call R return R with
  | HandleMatrixMessage _ _ => (Some sent_row, None)
  | HandleMatrixReaction _ _ => (Some thumbs_up, None)
  | c' => respond_stored tr c'
  end.

Definition env_client : Env := {|
  respond := respond_client;
  Bot := the_bot;
  IntentFor := fun g _ => Ghost_Intent g
|}.

(** *** Remote events *)

Definition remote_edit (target : networkid.MessageID) : RemoteEvent :=
  {| GetType := RemoteEventEdit; GetID := "r20";
     GetSender := {| IsFromMe := false; SenderLogin := ""; Sender := "bob" |};
     GetTargetMessage := target; ShouldCreatePortal := false;
     Implements := fun t => RemoteEventType_eqb t RemoteEventEdit |}.

Definition edited_part : ConvertedEditPart :=
  {| EditPart_Part := stored_message 3 "r3" "$m3";
     EditPart_Type := event.EventMessage;
     EditPart_Content := plain_text "edited";
     EditPart_Extra := None;
     EditPart_TopLevelExtra := None |}.

Definition the_edit : ConvertedEdit :=
  {| ConvertedEdit_ModifiedParts := [edited_part];
     ConvertedEdit_DeletedParts := [stored_message 4 "r3" "$m4"];
     ConvertedEdit_Timestamp := 6%Z |}.

(** The message [r3] has two parts; the edit changes the first and deletes
    the second; Matrix rejects every message. *)
Definition respond_edit (R : Type) (tr : Trace) (c : Call R) : R :=
  match c in Call R return R with
  | DB_Message_GetAllPartsByID _ =>
      (Some [stored_message 3 "r3" "$m3"; stored_message 4 "r3" "$m4"], None)
  | ConvertEdit _ _ _ _ => (Some the_edit, None)
  | SendMessage _ _ _ _ _ => (None, Some (OtherError "room is gone"))
  | c' => respond_ok tr c'
  end.

Definition env_edit : Env := {|
  respond := respond_edit;
  Bot := the_bot;
  IntentFor := fun g _ => Ghost_Intent g
|}.

Definition two_parts : ConvertedMessage :=
  {| ConvertedMessage_ReplyTo := None;
     ConvertedMessage_ThreadRoot := None;
     ConvertedMessage_Timestamp := 5%Z;
     ConvertedMessage_Parts := [text_part "1" "one"; text_part "2" "two"] |}.

(** The message converts to two parts; Matrix accepts the first message it
    is sent and rejects the later ones. *)
Definition respond_second_fails (R : Type) (tr : Trace) (c : Call R) : R :=
  match c in Call R return R with
  | ConvertMessage _ _ _ => (Some two_parts, None)
  | SendMessage _ _ _ _ _ =>
      if existsb is_SendMessage tr
      then (None, Some (OtherError "rate limited"))
      else (Some {| RespSendEvent_EventID := "$sent1" |}, None)
  | c' => respond_ok tr c'
  end.

Definition env_second_fails : Env := {|
  respond := respond_second_fails;
  Bot := the_bot;
  IntentFor := fun g _ => Ghost_Intent g
|}.

(** *** Membership *)

Definition joined (name : string) : event.MemberEventContent :=
  {| event.Membership_ := event.MembershipJoin; event.AvatarURL := "";
     event.Displayname := name; event.Reason := "" |}.

(** The room has the ghost of bob and mallory as members. *)
Definition respond_members (R : Type) (tr : Trace) (c : Call R) : R :=
  match c in Call R return R with
  | GetMembers _ =>
      ([("@ghost_bob:example.org", joined "Bob");
        ("@mallory:example.org", joined "Mallory")], None)
  | c' => respond_ok tr c'
  end.

Definition env_members : Env := {|
  respond := respond_members;
  Bot := the_bot;
  IntentFor := fun g _ => Ghost_Intent g
|}.

(** *** Avatars and names *)

Definition removed_avatar : Avatar := {| Avatar_ID := "avatar3"; Avatar_Remove := true |}.

Definition renamed : PortalInfo :=
  {| PortalInfo_Name := Some "Renamed"; PortalInfo_Topic := Some "A topic";
     PortalInfo_Avatar := None; PortalInfo_Members := [];
     PortalInfo_IsDirectChat := Some false; PortalInfo_IsSpace := Some false |}.

(** *** Stores and bridges *)

Definition bridge_empty : Bridge :=
  {| Bridge_ID := "bridge"; heap := []; Bridge_portalsByID := [];
     Bridge_portalsByMXID := []; asked := [] |}.

(** The store has no portal, and accepts inserts. *)
Definition store_missing : Store := {|
  answer := fun R qs q =>
    match q in Query R return R with
    | Portal_GetByID _ => (None, None)
    | Portal_GetByMXID _ => (None, None)
    | Portal_Insert _ => None
    end
|}.

Definition row_with_parent (id parent : networkid.PortalID) : database_Portal :=
  {| Portal_BridgeID := "bridge"; Portal_ID := id; Portal_MXID := "";
     Portal_ParentID := parent; Portal_Name := "Chat"; Portal_Topic := "";
     Portal_AvatarID := ""; Portal_AvatarHash := zeroHash;
     Portal_AvatarMXC := ""; Portal_NameSet := false;
     Portal_TopicSet := false; Portal_AvatarSet := false |}.

(** The store has the portal [chat1], whose parent is [space1], and fails on
    every other query. *)
Definition store_broken_parent : Store := {|
  answer := fun R qs q =>
    match q in Query R return R with
    | Portal_GetByID id =>
        if String.eqb id "chat1" then (Some (row_with_parent "chat1" "space1"), None)
        else (None, Some (OtherError "connection lost"))
    | Portal_GetByMXID _ => (None, Some (OtherError "connection lost"))
    | Portal_Insert _ => Some (OtherError "connection lost")
    end
|}.

(** The store has the portal [loop], whose parent is [loop]. *)
Definition store_self_parent : Store := {|
  answer := fun R qs q =>
    match q in Query R return R with
    | Portal_GetByID id => (Some (row_with_parent "loop" "loop"), None)
    | Portal_GetByMXID _ => (None, None)
    | Portal_Insert _ => None
    end
|}.

(** The store has the portal of the room [!room:example.org]. *)
Definition store_room : Store := {|
  answer := fun R qs q =>
    match q in Query R return R with
    | Portal_GetByID _ => (None, None)
    | Portal_GetByMXID mxid =>
        if String.eqb mxid "!room:example.org"
        then (Some (row_of "!room:example.org"), None)
        else (None, None)
    | Portal_Insert _ => None
    end
|}.

(** *** Queues *)

Definition queued (msgID : networkid.MessageID) : portalEvent :=
  portalRemoteEvent (remote_message msgID) alice_login.

End MoreScenarios.

(** * Properties *)

Section Properties.

Context {L : EventLib} {E : Env}.

(** ** Worlds and traces *)

Lemma skipn_length_app {A} (l x : list A) : skipn (length l) (l ++ x) = x.
Proof. induction l; simpl; auto. Qed.

Lemma new_entries_extend w tr : new_entries w (extend tr w) = tr.
Proof. unfold new_entries, extend; simpl. apply skipn_length_app. Qed.

Lemma extend_nil w : extend [] w = w.
Proof. destruct w; unfold extend; simpl. now rewrite app_nil_r. Qed.

Lemma extend_extend a b w : extend b (extend a w) = extend (a ++ b) w.
Proof. unfold extend; simpl. now rewrite app_assoc. Qed.

Lemma record_extend e w : record e w = extend [e] w.
Proof. reflexivity. Qed.

Lemma portal_extend tr w : portal (extend tr w) = portal w.
Proof. reflexivity. Qed.

Lemma trace_extend tr w : trace (extend tr w) = trace w ++ tr.
Proof. reflexivity. Qed.

Ltac solve_trace := simpl; rewrite <- ?app_assoc; simpl; reflexivity.

Ltac tidy := simpl; rewrite ?record_extend, ?extend_extend; simpl.

(** ** Computations whose entries all satisfy a test *)

Lemma stepped_refl {T} P (f : Portal -> T) w : stepped P f w w.
Proof. split; auto. exists []. now rewrite app_nil_r. Qed.

Lemma stepped_trans {T} P (f : Portal -> T) w1 w2 w3 :
  stepped P f w1 w2 -> stepped P f w2 w3 -> stepped P f w1 w3.
Proof.
  intros (H1 & t1 & E1 & F1) (H2 & t2 & E2 & F2). split; [congruence|].
  exists (t1 ++ t2). rewrite E2, E1, app_assoc, forallb_app, F1, F2. auto.
Qed.

Lemma stepped_weaken {T} (P Q : Entry -> bool) (f : Portal -> T) w w' :
  (forall e, P e = true -> Q e = true) -> stepped P f w w' -> stepped Q f w w'.
Proof.
  intros H (H1 & t & E1 & F1). split; auto. exists t; split; auto.
  rewrite forallb_forall in *. auto.
Qed.

Lemma respects_weaken {T A} (P Q : Entry -> bool) (f : Portal -> T) (m : M A) :
  (forall e, P e = true -> Q e = true) -> respects P f m -> respects Q f m.
Proof. intros H Hm w. eapply stepped_weaken; eauto. Qed.

Lemma respects_ret {T A} P (f : Portal -> T) (a : A) : respects P f (ret a).
Proof. intros w. apply stepped_refl. Qed.

Lemma respects_panic {T A} P (f : Portal -> T) r : respects P f (@panic _ A r).
Proof. intros w. apply stepped_refl. Qed.

Lemma respects_deref {T A} P (f : Portal -> T) (p : option A) : respects P f (deref p).
Proof. destruct p; [apply respects_ret | apply respects_panic]. Qed.

Lemma respects_get_portal {T} P (f : Portal -> T) : respects P f get_portal.
Proof. intros w. apply stepped_refl. Qed.

Lemma respects_bind {T A B} P (f : Portal -> T) (m : M A) (k : A -> M B) :
  respects P f m -> (forall a, respects P f (k a)) -> respects P f (bind m k).
Proof.
  intros Hm Hk w. unfold bind. specialize (Hm w).
  destruct (m w) as [a w1|r w1]; simpl in *; auto.
  eapply stepped_trans; eauto. apply Hk.
Qed.

Lemma respects_call {T R} (P : Entry -> bool) (f : Portal -> T) (c : Call R) :
  (forall r, P (Called c r) = true) -> respects P f (call c).
Proof.
  intros H w. unfold call; simpl. split; auto.
  eexists; split; [reflexivity|]. simpl. now rewrite H.
Qed.

Lemma respects_assign {T} P (f : Portal -> T) g :
  (forall p, f (with_row g p) = f p) -> respects P f (assign g).
Proof.
  intros H w. unfold assign, bind, get_portal, set_portal; simpl.
  split; [simpl; apply H|].
  exists []. simpl. now rewrite app_nil_r.
Qed.

Lemma respects_register {T} P (f : Portal -> T) r p :
  respects P f (register_portalsByMXID r p).
Proof.
  intros w. unfold register_portalsByMXID; simpl.
  split; [reflexivity|].
  exists []. simpl. now rewrite app_nil_r.
Qed.

Create HintDb respects_db.

Ltac respects_step :=
  match goal with
  | |- respects _ _ (ret _) => apply respects_ret
  | |- respects _ _ (panic _) => apply respects_panic
  | |- respects _ _ (deref _) => apply respects_deref
  | |- respects _ _ get_portal => apply respects_get_portal
  | |- respects _ _ (bind _ _) => apply respects_bind; [ | intros ]
  | |- respects _ _ (call _) => apply respects_call; intros; reflexivity
  | |- respects _ _ (log _ _) => apply respects_call; intros; reflexivity
  | |- respects _ _ (assign _) => apply respects_assign; intros; reflexivity
  | |- respects _ _ (register_portalsByMXID _ _) => apply respects_register
  | |- respects _ _ (match ?x with _ => _ end) => destruct x
  | |- respects _ _ (let _ := _ in _) => cbv zeta
  | |- respects _ _ _ => solve [eauto with respects_db]
  end.

Ltac respects_auto := repeat respects_step.

(** From a test on all entries to the answers read off the trace. *)
Lemma forallb_flat_map_nil {A B} (P : A -> bool) (g : A -> list B) l :
  (forall a, P a = true -> g a = []) -> forallb P l = true -> flat_map g l = [].
Proof.
  intros H. induction l; simpl; auto.
  intros Hl. apply andb_prop in Hl as [Ha Hl]. rewrite (H _ Ha). auto.
Qed.

Lemma forallb_filter_nil {A} (P Q : A -> bool) l :
  (forall a, P a = true -> Q a = false) -> forallb P l = true -> filter Q l = [].
Proof.
  intros H. induction l; simpl; auto.
  intros Hl. apply andb_prop in Hl as [Ha Hl]. rewrite (H _ Ha). auto.
Qed.

(** ** sendRoomMeta *)

(** What [sendRoomMeta] does: nothing without a room; otherwise one
    [SendState] of the requested type as the sender, and, when that is
    forbidden and the sender is not the bot, a second one as the bot, which
    the code sends as [StateRoomName] with an empty state key. *)
Lemma sendRoomMeta_run sender ts ty key content w :
  exists b tr,
    sendRoomMeta sender ts ty key content w = Done b (extend tr w) /\
    (String.eqb (MXID (portal w)) "" = true -> tr = [] /\ b = false) /\
    (String.eqb (MXID (portal w)) "" = false ->
     forall t, t ty = true -> t event.StateRoomName = false ->
       length (filter (is_SendState_of t) tr) = 1).
Proof.
  unfold sendRoomMeta, bind, get_portal, call, log, ret.
  destruct (String.eqb (MXID (portal w)) "") eqn:Hm.
  - exists false, []. rewrite extend_nil. repeat split; auto; discriminate.
  - set (intent := match sender with Some g => IntentFor g (portal w) | None => Bot end).
    rewrite !record_extend.
    destruct (respond _ (SendState intent _ ty key _ ts)) as [rsp err] eqn:Hr.
    destruct (is_MForbidden err && negb (MatrixAPI_eqb intent Bot)) eqn:Hf.
    + rewrite !record_extend, !extend_extend.
      destruct (respond _ (SendState Bot _ event.StateRoomName "" _ ts)) as [rsp2 err2] eqn:Hr2.
      destruct err2; tidy;
        eexists; eexists; (split; [reflexivity|]); (split; [discriminate|]);
        intros _ t Ht Hn; simpl; rewrite Ht, Hn; reflexivity.
    + destruct err; tidy;
        eexists; eexists; (split; [reflexivity|]); (split; [discriminate|]);
        intros _ t Ht Hn; simpl; rewrite Ht; reflexivity.
Qed.

Lemma new_entries_trace w w' tr :
  trace w' = trace w ++ tr -> new_entries w w' = tr.
Proof. unfold new_entries; intros ->. apply skipn_length_app. Qed.

Lemma Hash_eqb_eq a b : Hash_eqb a b = true <-> a = b.
Proof.
  unfold Hash_eqb. destruct (list_eq_dec byte_eq_dec a b); split; congruence.
Qed.

(** The retry of [sendRoomMeta]: when the sender is a ghost whose intent is
    not the bot's and its [SendState] is forbidden, there is exactly one
    more [SendState], as the bot, with the content annotated with the
    ghost's MXID; the code sends it with the event type [StateRoomName] and
    the empty state key, whatever type and key were asked for. *)
Lemma sendRoomMeta_forbidden_retry g ts ty key content w rsp :
  MXID (portal w) <> "" ->
  MatrixAPI_eqb (IntentFor g (portal w)) Bot = false ->
  respond (trace w)
    (SendState (IntentFor g (portal w)) (MXID (portal w)) ty key
       {| Content_Parsed := Some content; Content_Raw := None |} ts)
  = (rsp, Some MForbidden) ->
  exists r tail,
    new_entries w (final (sendRoomMeta (Some g) ts ty key content w)) =
      Called (SendState (IntentFor g (portal w)) (MXID (portal w)) ty key
                {| Content_Parsed := Some content; Content_Raw := None |} ts)
             (rsp, Some MForbidden)
      :: Called (SendState Bot (MXID (portal w)) event.StateRoomName ""
                   {| Content_Parsed := Some content;
                      Content_Raw :=
                        Some [("fi.mau.bridge.set_by",
                               AnyUserID (GetMXID (IntentFor g (portal w))))] |}
                   ts) r
      :: tail /\
    filter is_matrix_send tail = [].
Proof.
  intros Hm Hb Hr. apply String.eqb_neq in Hm.
  remember (sendRoomMeta (Some g) ts ty key content w) as o eqn:Ho.
  unfold sendRoomMeta, bind, get_portal, call, log, ret in Ho.
  rewrite Hm, Hr in Ho. simpl in Ho. rewrite Hb in Ho. simpl in Ho.
  destruct (respond _ (SendState Bot _ _ _ _ _)) as [rsp2 [e|]]; simpl in Ho;
    subst o; simpl; erewrite new_entries_trace by solve_trace;
    do 2 eexists; split; reflexivity.
Qed.

(** ** UpdateAvatar *)

(** C9. [UpdateAvatar] on a portal with a room and an avatar that is not a
    removal: when [Reupload] is answered without error and with the stored
    hash, no state event at all is sent and [AvatarSet] keeps its value;
    when it is answered with another hash, exactly one [m.room.avatar] state
    event is sent. *)
Theorem UpdateAvatar_hash_short_circuit avatar sender ts w newMXC newHash :
  MXID (portal w) <> "" ->
  Avatar_Remove avatar = false ->
  let w' := final (UpdateAvatar avatar sender ts w) in
  let tr := new_entries w w' in
  answers_Reupload tr = [(newMXC, newHash, None)] ->
  (newHash = Portal_AvatarHash (Portal_row (portal w)) ->
     filter is_matrix_send tr = [] /\
     Portal_AvatarSet (Portal_row (portal w')) = Portal_AvatarSet (Portal_row (portal w)))
  /\
  (newHash <> Portal_AvatarHash (Portal_row (portal w)) ->
     length (filter (is_SendState_of is_StateRoomAvatar) tr) = 1).
Proof.
  intros Hm Hrem w' tr. subst tr w'.
  remember (UpdateAvatar avatar sender ts w) as o eqn:Ho.
  unfold UpdateAvatar in Ho.
  unfold bind at 1 in Ho. unfold get_portal at 1 in Ho.
  destruct (_ && _) eqn:Hguard in Ho.
  - subst o. simpl. unfold new_entries. rewrite skipn_all. discriminate.
  - rewrite Hrem in Ho.
    unfold bind, get_portal, assign, set_portal, call, log, ret in Ho. simpl in Ho.
    destruct (respond (trace w) (Reupload _ _ _)) as [[mxc h] err].
    destruct err as [e|].
    + subst o. simpl. erewrite new_entries_trace by solve_trace.
      simpl. discriminate.
    + destruct (Hash_eqb h _) eqn:Hh.
      * subst o. simpl. erewrite !new_entries_trace by solve_trace.
        simpl. intros H; inversion H; subst. split.
        -- intros _. split; reflexivity.
        -- intros Hne. apply Hash_eqb_eq in Hh. congruence.
      * match type of Ho with
        | context [sendRoomMeta ?a ?b ?c ?d ?e ?w0] =>
            destruct (sendRoomMeta_run a b c d e w0) as (b0 & tr & Hrun & _ & H1);
            rewrite Hrun in Ho
        end.
        subst o. simpl. erewrite !new_entries_trace by solve_trace.
        simpl. intros H; inversion H; subst. split.
        -- intros Heq. rewrite Heq in Hh.
           assert (Hash_eqb (Portal_AvatarHash (Portal_row (portal w)))
                            (Portal_AvatarHash (Portal_row (portal w))) = true)
             by (apply Hash_eqb_eq; reflexivity).
           congruence.
        -- intros _. apply H1; auto.
           simpl. apply String.eqb_neq. exact Hm.
Qed.

(** ** Matrix edits *)


(** ** Matrix redactions *)

Ltac destruct_responses Ho :=
  repeat match type of Ho with
         | context [match respond ?t ?c with _ => _ end] =>
             destruct (respond t c); simpl in Ho
         | context [let (_, _) := respond ?t ?c in _] =>
             destruct (respond t c); simpl in Ho
         | context [match ?x with Some _ => _ | None => _ end] =>
             is_var x; destruct x; simpl in Ho
         end.

Ltac destruct_units :=
  repeat match goal with
         | |- context [respond ?t (Log ?l ?m)] => destruct (respond t (Log l m))
         end.

Ltac invert_lists :=
  repeat match goal with
         | H : _ :: _ = _ :: _ |- _ => inversion H; clear H; subst
         | H : [] = _ :: _ |- _ => discriminate H
         | H : _ :: _ = [] |- _ => discriminate H
         | H : Some _ = Some _ |- _ => inversion H; clear H; subst
         | H : Some _ = None |- _ => discriminate H
         | H : None = Some _ |- _ => discriminate H
         end.

(** [handleMatrixRedaction] never writes to the store, whatever the event
    and whatever the collaborators answer: the rows of a redacted message or
    reaction stay. *)
Lemma handleMatrixRedaction_no_write sender origSender evt w :
  db_writes (new_entries w (final (handleMatrixRedaction sender origSender evt w))) = [].
Proof.
  remember (handleMatrixRedaction sender origSender evt w) as o eqn:Ho.
  unfold handleMatrixRedaction in Ho.
  destruct (Content_Parsed (Event_Content evt)) as [[]|];
    unfold bind, get_portal, call, log, ret, deref, panic in Ho; simpl in Ho.
  all: destruct_responses Ho.
  all: try (destruct (UserLogin_Client sender); simpl in Ho; destruct_responses Ho).
  all: subst o; simpl; erewrite !new_entries_trace by solve_trace; reflexivity.
Qed.


(** ** Duplicate remote messages *)

(** C7. When the duplicate check finds a row (and reports no error),
    [handleRemoteMessage] returns after logging: nothing is sent to Matrix
    and nothing is written to the store. *)
Theorem handleRemoteMessage_duplicate source evt w existing :
  respond (trace w) (DB_Message_GetFirstPartByID (GetID evt)) = (Some existing, None) ->
  exists w',
    handleRemoteMessage source evt w = Done tt w' /\
    new_entries w w' =
      [Called (DB_Message_GetFirstPartByID (GetID evt)) (Some existing, None);
       Called (Log DebugLevel "Ignoring duplicate message") tt] /\
    filter is_matrix_send (new_entries w w') = [] /\
    db_writes (new_entries w w') = [] /\
    portal w' = portal w.
Proof.
  intros Hr.
  unfold handleRemoteMessage, bind, call, log, ret. rewrite Hr. simpl.
  destruct (respond _ (Log DebugLevel _)).
  eexists. split; [reflexivity|].
  erewrite !new_entries_trace by solve_trace. simpl. auto.
Qed.

(** ** Remote messages *)

Lemma stepped_new_entries {T} P (f : Portal -> T) w w' :
  stepped P f w w' ->
  f (portal w') = f (portal w) /\
  trace w' = trace w ++ new_entries w w' /\
  forallb P (new_entries w w') = true.
Proof.
  intros (H & t & Ht & Hf). erewrite new_entries_trace by exact Ht. auto.
Qed.

Lemma getIntentFor_respects sender source :
  respects intent_entry (fun p => p) (getIntentFor sender source).
Proof. unfold getIntentFor. respects_auto. Qed.

Lemma handleRemoteMessage_parts_respects evt intent ts rid replyTo threadRoot parts :
  forall prev,
    respects (part_entry rid) (fun p => p)
      (handleRemoteMessage_parts evt intent ts rid replyTo threadRoot prev parts).
Proof.
  induction parts as [|part rest IH]; intros prev; simpl.
  - respects_auto.
  - respects_auto; apply respects_call; intros; simpl; apply Z.eqb_refl.
Qed.

(** ** Stepping through a computation *)

Lemma post_bind {A B} (m : M A) (k : A -> M B) w Q :
  post m w (fun o => match o with
                     | Done a w' => post (k a) w' Q
                     | Panicked r w' => Q (Panicked r w')
                     end) ->
  post (bind m k) w Q.
Proof. unfold post, bind. destruct (m w); auto. Qed.

Lemma post_call {R A} (c : Call R) (k : R -> M A) w Q :
  post (k (respond (trace w) c)) (record (Called c (respond (trace w) c)) w) Q ->
  post (bind (call c) k) w Q.
Proof. auto. Qed.

Lemma post_log {A} l msg (k : unit -> M A) w Q :
  post (k tt) (record (Called (Log l msg) tt) w) Q ->
  post (bind (log l msg) k) w Q.
Proof.
  unfold post, bind, log, call. destruct (respond (trace w) (Log l msg)). auto.
Qed.

Lemma post_log_last l msg w (Q : Outcome unit -> Prop) :
  Q (Done tt (record (Called (Log l msg) tt) w)) ->
  post (log l msg) w Q.
Proof.
  unfold post, log, call. destruct (respond (trace w) (Log l msg)). auto.
Qed.

Lemma post_ret {A B} (a : A) (k : A -> M B) w Q :
  post (k a) w Q -> post (bind (ret a) k) w Q.
Proof. auto. Qed.

Lemma post_get_portal {A} (k : Portal -> M A) w Q :
  post (k (portal w)) w Q -> post (bind get_portal k) w Q.
Proof. auto. Qed.

Lemma post_assign {A} f (k : unit -> M A) w Q :
  post (k tt) {| portal := with_row f (portal w);
                 portalsByMXID := portalsByMXID w;
                 trace := trace w |} Q ->
  post (bind (assign f) k) w Q.
Proof. auto. Qed.

Lemma post_register {A} r p (k : unit -> M A) w Q :
  post (k tt) {| portal := portal w;
                 portalsByMXID := map_set r p (portalsByMXID w);
                 trace := trace w |} Q ->
  post (bind (register_portalsByMXID r p) k) w Q.
Proof. auto. Qed.

Lemma post_assoc {A B C} (m : M A) (k1 : A -> M B) (k2 : B -> M C) w Q :
  post (bind m (fun a => bind (k1 a) k2)) w Q -> post (bind (bind m k1) k2) w Q.
Proof. unfold post, bind. destruct (m w); auto. Qed.

Lemma post_deref {A B} (p : option A) (k : A -> M B) w Q :
  match p with
  | Some a => post (k a) w Q
  | None => Q (Panicked "nil pointer dereference" w)
  end ->
  post (bind (deref p) k) w Q.
Proof. destruct p; auto. Qed.

Lemma post_respects {T A B} P (f : Portal -> T) (m : M A) (k : A -> M B) w Q :
  respects P f m ->
  (forall o, m w = o -> stepped P f w (final o) ->
     match o with
     | Done a w' => post (k a) w' Q
     | Panicked r w' => Q (Panicked r w')
     end) ->
  post (bind m k) w Q.
Proof.
  intros Hm H. apply post_bind. unfold post at 1.
  apply (H (m w) eq_refl). apply Hm.
Qed.

Lemma post_respects_last {T A} P (f : Portal -> T) (m : M A) w (Q : Outcome A -> Prop) :
  respects P f m ->
  (forall o, m w = o -> stepped P f w (final o) -> Q o) ->
  post m w Q.
Proof. intros Hm H. apply (H (m w) eq_refl). apply Hm. Qed.

Ltac post_step :=
  match goal with
  | |- post (bind (bind _ _) _) _ _ => apply post_assoc
  | |- post (bind (call _) _) _ _ => apply post_call
  | |- post (bind (log _ _) _) _ _ => apply post_log
  | |- post (bind (ret _) _) _ _ => apply post_ret
  | |- post (bind get_portal _) _ _ => apply post_get_portal
  | |- post (bind (assign _) _) _ _ => apply post_assign
  | |- post (bind (register_portalsByMXID _ _) _) _ _ => apply post_register
  | |- post (bind (deref ?p) _) _ _ => apply post_deref; destruct p
  | |- post (log _ _) _ _ => apply post_log_last
  | |- post (bind (match ?x with _ => _ end) _) _ _ => destruct x eqn:?
  | |- post (match ?x with _ => _ end) _ _ => destruct x eqn:?
  | |- post (let _ := _ in _) _ _ => cbv zeta
  | |- post (ret _) _ _ => unfold post, ret
  | |- post (panic _) _ _ => unfold post, panic
  end.

#[local] Hint Resolve getIntentFor_respects handleRemoteMessage_parts_respects
  : respects_db.

Ltac post_sub :=
  match goal with
  | |- post (bind _ _) _ _ =>
      eapply post_respects;
      [ solve [eauto with respects_db]
      | let o := fresh "o" in
        let Hrun := fresh "Hrun" in
        let Hp := fresh "Hportal" in
        let t := fresh "t" in
        let Ht := fresh "Ht" in
        let Hf := fresh "Hf" in
        intros o Hrun (Hp & t & Ht & Hf); destruct o; simpl in Hp, Ht ]
  | |- post _ _ _ =>
      eapply post_respects_last;
      [ solve [eauto with respects_db]
      | let o := fresh "o" in
        let Hrun := fresh "Hrun" in
        let Hp := fresh "Hportal" in
        let t := fresh "t" in
        let Ht := fresh "Ht" in
        let Hf := fresh "Hf" in
        intros o Hrun (Hp & t & Ht & Hf); destruct o; simpl in Hp, Ht ]
  end.

Ltac post_auto := repeat first [post_step | post_sub].

(** The trace of the final world, as the initial trace and what was added. *)
Ltac trace_eq :=
  simpl;
  repeat match goal with
         | H : trace ?x = _ |- context [trace ?x] => rewrite H; simpl
         end;
  rewrite <- ?app_assoc; simpl; reflexivity.

Ltac unfold_answers :=
  unfold answers_ConvertMessage, answers_GetFirstOrSpecificPartByID,
    lookups_GetFirstOrSpecificPartByID,
    answers_GetFirstPartByID, answers_GetPartByMXID, answers_CreateRoom,
    inserted, db_writes in *;
  repeat (progress (rewrite ?flat_map_app in *; simpl in *)).

Lemma intent_entries_silent t :
  forallb intent_entry t = true ->
  answers_ConvertMessage t = [] /\
  lookups_GetFirstOrSpecificPartByID t = [] /\
  answers_GetFirstOrSpecificPartByID t = [] /\
  db_writes t = [] /\
  filter is_SendMessage t = [].
Proof.
  intros H. repeat split;
    (eapply forallb_flat_map_nil || eapply forallb_filter_nil); try exact H;
    intros [R c r]; destruct c; simpl; auto; discriminate.
Qed.

Lemma part_entries_related rid t :
  forallb (part_entry rid) t = true ->
  answers_ConvertMessage t = [] /\
  lookups_GetFirstOrSpecificPartByID t = [] /\
  answers_GetFirstOrSpecificPartByID t = [] /\
  Forall (fun m => Message_RelatesToRowID m = rid) (inserted t).
Proof.
  intros H. repeat split;
    try (eapply forallb_flat_map_nil; [|exact H];
         intros [R c r]; destruct c; simpl; auto; discriminate).
  induction t as [|[R c r] t IH]; simpl in *; [constructor|].
  apply andb_prop in H as [He H]. specialize (IH H).
  unfold inserted, db_writes in *. simpl. rewrite flat_map_app.
  destruct c; simpl in *; auto; try discriminate.
  constructor; auto. now apply Z.eqb_eq.
Qed.

Ltac use_silence :=
  repeat match goal with
         | H : forallb intent_entry ?t = true |- _ =>
             destruct (intent_entries_silent _ H) as (? & ? & ? & ? & ?); clear H
         | H : forallb (part_entry ?rid) ?t = true |- _ =>
             destruct (part_entries_related _ _ H) as (? & ? & ? & ?); clear H
         end.

Ltac rewrite_silence :=
  repeat match goal with
         | H : flat_map _ ?t = [] |- _ => try rewrite H in *; clear H
         | H : filter _ ?t = [] |- _ => try rewrite H in *; clear H
         end;
  simpl in *; rewrite ?app_nil_r in *.

(** C8. When the converted message has both a reply target and a thread
    root, and both resolve to stored rows (every lookup of the reply
    reference finds the reply row, every lookup of the thread root reference
    finds the root row), [handleRemoteMessage] looks up the reply reference
    and then the thread root reference, and every row it inserts is related
    to the row found for the thread root. *)
Theorem handleRemoteMessage_thread_over_reply source evt w
    converted replyRef rootRef replyRow rootRow :
  let tr := new_entries w (final (handleRemoteMessage source evt w)) in
  answers_ConvertMessage tr = [(Some converted, None)] ->
  ConvertedMessage_ReplyTo converted = Some replyRef ->
  ConvertedMessage_ThreadRoot converted = Some rootRef ->
  resolves_to tr replyRef replyRow ->
  resolves_to tr rootRef rootRow ->
  map fst (lookups_GetFirstOrSpecificPartByID tr) = [replyRef; rootRef] /\
  Forall (fun m => Message_RelatesToRowID m = Message_RowID rootRow) (inserted tr).
Proof.
  intros tr. subst tr.
  change (post (handleRemoteMessage source evt) w
            (fun o =>
               answers_ConvertMessage (new_entries w (final o)) = [(Some converted, None)] ->
               ConvertedMessage_ReplyTo converted = Some replyRef ->
               ConvertedMessage_ThreadRoot converted = Some rootRef ->
               resolves_to (new_entries w (final o)) replyRef replyRow ->
               resolves_to (new_entries w (final o)) rootRef rootRow ->
               map fst (lookups_GetFirstOrSpecificPartByID (new_entries w (final o)))
                 = [replyRef; rootRef] /\
               Forall (fun m => Message_RelatesToRowID m = Message_RowID rootRow)
                      (inserted (new_entries w (final o))))).
  unfold handleRemoteMessage.
  post_auto.
  all: simpl final; erewrite !new_entries_trace by trace_eq.
  all: intros H1 H2 H3 H4 H5; use_silence; unfold resolves_to in *; unfold_answers;
       rewrite_silence.
  all: try discriminate.
  all: invert_lists.
  all: repeat match goal with
       | Ha : ?x = Some _, Hb : ?x = Some _ |- _ =>
           rewrite Ha in Hb; inversion Hb; subst; clear Hb
       end.
  all: try congruence.
  all: try (pose proof (H4 _ (or_introl eq_refl)) as Hreply; inversion Hreply; subst).
  all: try (pose proof (H5 _ (or_intror (or_introl eq_refl))) as Hroot;
            inversion Hroot; subst).
  all: try (split; [reflexivity | assumption]).
Qed.

Lemma new_entries_split w w1 w' a t :
  trace w1 = trace w ++ a ->
  trace w' = trace w1 ++ t ->
  new_entries w w' = a ++ new_entries w1 w'.
Proof.
  intros H1 H2. rewrite (new_entries_trace w1 w' t H2).
  apply new_entries_trace. rewrite H2, H1. now rewrite app_assoc.
Qed.

(** The loop over the parts sends every part, if it comes to its end. *)
Lemma handleRemoteMessage_parts_sends evt intent ts rid replyTo threadRoot parts :
  forall prev w w',
    handleRemoteMessage_parts evt intent ts rid replyTo threadRoot prev parts w
      = Done tt w' ->
    length (filter is_SendMessage (new_entries w w')) = length parts.
Proof.
  induction parts as [|part rest IH]; intros prev w w' H; simpl in H.
  - inversion H; subst. unfold new_entries. now rewrite skipn_all.
  - unfold bind, get_portal, call, log, ret, deref, panic in H. simpl in H.
    destruct (respond (trace w) (SendMessage _ _ _ _ _)) as [resp [e|]].
    + match type of H with
      | handleRemoteMessage_parts _ _ _ _ _ _ ?pv _ ?w1 = _ =>
          pose proof (handleRemoteMessage_parts_respects evt intent ts rid
                        replyTo threadRoot rest pv w1) as (_ & t & Ht & _);
          rewrite H in Ht; simpl in Ht;
          erewrite (new_entries_split w w1); [| trace_eq | exact Ht];
          rewrite filter_app, length_app, (IH _ _ _ H)
      end.
      reflexivity.
    + destruct resp as [resp|]; simpl in H; [|discriminate].
      destruct (respond _ (DB_Message_Insert _)) as [e|]; simpl in H.
      all: match type of H with
      | handleRemoteMessage_parts _ _ _ _ _ _ ?pv _ ?w1 = _ =>
          pose proof (handleRemoteMessage_parts_respects evt intent ts rid
                        replyTo threadRoot rest pv w1) as (_ & t & Ht & _);
          rewrite H in Ht; simpl in Ht;
          erewrite (new_entries_split w w1); [| trace_eq | exact Ht];
          rewrite filter_app, length_app, (IH _ _ _ H)
      end.
      all: reflexivity.
Qed.

(** C10. When the duplicate check itself fails, [handleRemoteMessage] logs
    the error and goes on, whether or not a row came back with the error:
    it resolves the sender's intent; if that yields an intent it converts
    the message; and if the conversion succeeds and the handler comes to its
    end, every part has been sent to Matrix. *)
Theorem handleRemoteMessage_check_error source evt w existing err :
  respond (trace w) (DB_Message_GetFirstPartByID (GetID evt)) = (existing, Some err) ->
  let o := handleRemoteMessage source evt w in
  let tr := new_entries w (final o) in
  let w1 :=
    record (Called (Log ErrorLevel "Failed to check if message is a duplicate") tt)
      (record (Called (DB_Message_GetFirstPartByID (GetID evt)) (existing, Some err)) w) in
  (exists rest,
     tr = Called (DB_Message_GetFirstPartByID (GetID evt)) (existing, Some err)
          :: Called (Log ErrorLevel "Failed to check if message is a duplicate") tt
          :: rest) /\
  (forall intent w2,
     getIntentFor (GetSender evt) source w1 = Done (Some intent) w2 ->
     exists r rest,
       new_entries w2 (final o) =
         Called (ConvertMessage evt (portal w2) intent) r :: rest) /\
  (forall converted w',
     answers_ConvertMessage tr = [(Some converted, None)] ->
     o = Done tt w' ->
     length (filter is_SendMessage tr) = length (ConvertedMessage_Parts converted)).
Proof.
  intros Hr o tr w1. subst tr o w1.
  change (post (handleRemoteMessage source evt) w
    (fun o =>
  (exists rest,
     new_entries w (final o)
     = Called (DB_Message_GetFirstPartByID (GetID evt)) (existing, Some err)
          :: Called (Log ErrorLevel "Failed to check if message is a duplicate") tt
          :: rest) /\
  (forall intent w2,
     getIntentFor (GetSender evt) source
       (record (Called (Log ErrorLevel "Failed to check if message is a duplicate") tt)
         (record (Called (DB_Message_GetFirstPartByID (GetID evt)) (existing, Some err)) w))
     = Done (Some intent) w2 ->
     exists r rest,
       new_entries w2 (final o) =
         Called (ConvertMessage evt (portal w2) intent) r :: rest) /\
  (forall converted w',
     answers_ConvertMessage (new_entries w (final o)) = [(Some converted, None)] ->
     o = Done tt w' ->
     length (filter is_SendMessage (new_entries w (final o)))
     = length (ConvertedMessage_Parts converted)))).
  unfold handleRemoteMessage.
  apply post_call. rewrite Hr.
  post_auto.
  all: simpl final.
  all: split; [ erewrite new_entries_trace by trace_eq; eexists; reflexivity |].
  all: split.
  all: try (intros intent w2 Hi; rewrite Hrun in Hi; inversion Hi; subst;
            erewrite new_entries_trace by trace_eq; do 2 eexists; reflexivity).
  all: try (intros intent w2 Hi; rewrite Hrun in Hi; discriminate Hi).
  all: intros converted w' Hconv Hdone; try discriminate Hdone.
  all: erewrite new_entries_trace in Hconv by trace_eq;
       erewrite new_entries_trace by trace_eq.
  all: use_silence; unfold_answers; rewrite ?filter_app; simpl;
       rewrite_silence; invert_lists; try discriminate.
  all: match goal with
       | H : handleRemoteMessage_parts _ _ _ _ _ _ _ _ ?W = Done ?a ?w1,
         Ht : trace ?w1 = _ ++ ?t0 |- _ =>
           destruct a;
           pose proof (handleRemoteMessage_parts_sends _ _ _ _ _ _ _ _ _ H) as Hc;
           rewrite (new_entries_trace W w1 t0 Ht) in Hc; exact Hc
       end.
Qed.

(** ** Room creation *)

Lemma sendRoomMeta_keeps_MXID sender ts ty key content :
  respects no_room_created MXID (sendRoomMeta sender ts ty key content).
Proof. unfold sendRoomMeta. respects_auto. Qed.

#[local] Hint Resolve sendRoomMeta_keeps_MXID : respects_db.

Lemma UpdateName_keeps_MXID name sender ts :
  respects no_room_created MXID (UpdateName name sender ts).
Proof. unfold UpdateName. respects_auto. Qed.

Lemma UpdateTopic_keeps_MXID topic sender ts :
  respects no_room_created MXID (UpdateTopic topic sender ts).
Proof. unfold UpdateTopic. respects_auto. Qed.

Lemma UpdateAvatar_keeps_MXID avatar sender ts :
  respects no_room_created MXID (UpdateAvatar avatar sender ts).
Proof. unfold UpdateAvatar. respects_auto. Qed.

Lemma UpdateBridgeInfo_keeps_MXID :
  respects no_room_created MXID UpdateBridgeInfo.
Proof. unfold UpdateBridgeInfo. respects_auto. Qed.

#[local] Hint Resolve UpdateName_keeps_MXID UpdateTopic_keeps_MXID
  UpdateAvatar_keeps_MXID UpdateBridgeInfo_keeps_MXID : respects_db.

Lemma UpdateInfo_keeps_MXID info sender ts :
  respects no_room_created MXID (UpdateInfo info sender ts).
Proof. unfold UpdateInfo. respects_auto. Qed.

Lemma SyncParticipants_findLogin_keeps_MXID member logins :
  respects no_room_created MXID (SyncParticipants_findLogin member logins).
Proof. induction logins; simpl; respects_auto. Qed.

#[local] Hint Resolve SyncParticipants_findLogin_keeps_MXID : respects_db.

Lemma SyncParticipants_plan_keeps_MXID members logins source :
  forall ids extra intents,
    respects no_room_created MXID
      (SyncParticipants_plan members logins source ids extra intents).
Proof. induction members; intros; simpl; respects_auto. Qed.

Lemma SyncParticipants_join_keeps_MXID room intents :
  forall current,
    respects no_room_created MXID (SyncParticipants_join room intents current).
Proof. induction intents; intros; simpl; respects_auto. Qed.

Lemma SyncParticipants_invite_keeps_MXID room extra :
  forall current,
    respects no_room_created MXID (SyncParticipants_invite room extra current).
Proof. induction extra; intros; simpl; respects_auto. Qed.

Lemma SyncParticipants_remove_keeps_MXID room current :
  respects no_room_created MXID (SyncParticipants_remove room current).
Proof. induction current as [|[m c] rest IH]; simpl; respects_auto. Qed.

#[local] Hint Resolve SyncParticipants_plan_keeps_MXID
  SyncParticipants_join_keeps_MXID SyncParticipants_invite_keeps_MXID
  SyncParticipants_remove_keeps_MXID : respects_db.

Lemma SyncParticipants_keeps_MXID members source :
  respects no_room_created MXID (SyncParticipants members source).
Proof. unfold SyncParticipants. respects_auto. Qed.

#[local] Hint Resolve UpdateInfo_keeps_MXID SyncParticipants_keeps_MXID : respects_db.

Lemma no_room_created_answers t :
  forallb no_room_created t = true -> answers_CreateRoom t = [].
Proof.
  intros H. eapply forallb_flat_map_nil; [|exact H].
  intros [R c r]; destruct c; simpl; auto; discriminate.
Qed.

(** C4, as the code has it. When [CreateMatrixRoom], called on a portal
    without a room, returns an error, then either no room was created (no
    [CreateRoom] call, or one that failed with that error) and the portal
    still has no room; or [CreateRoom] succeeded, the portal has the new
    room id, and the error is the one of the update of the portal row that
    follows. *)
Theorem CreateMatrixRoom_error source w e w' :
  MXID (portal w) = "" ->
  CreateMatrixRoom source w = Done (Some e) w' ->
  let tr := new_entries w w' in
  (MXID (portal w') = "" /\
   (answers_CreateRoom tr = [] \/
    exists roomID, answers_CreateRoom tr = [(roomID, Some e)]))
  \/
  (exists roomID tr0,
     answers_CreateRoom tr = [(roomID, None)] /\
     MXID (portal w') = roomID /\
     tr = tr0 ++
          [Called (DB_Portal_Update (Portal_row (portal w'))) (Some e);
           Called (Log ErrorLevel
                     "Failed to save portal to database after creating Matrix room") tt]).
Proof.
  intros Hm Hrun tr. subst tr. revert e w' Hrun.
  change (post (CreateMatrixRoom source) w
    (fun o => forall e w', o = Done (Some e) w' ->
  (MXID (portal w') = "" /\
   (answers_CreateRoom (new_entries w w') = [] \/
    exists roomID, answers_CreateRoom (new_entries w w') = [(roomID, Some e)]))
  \/
  (exists roomID tr0,
     answers_CreateRoom (new_entries w w') = [(roomID, None)] /\
     MXID (portal w') = roomID /\
     new_entries w w' = tr0 ++
          [Called (DB_Portal_Update (Portal_row (portal w'))) (Some e);
           Called (Log ErrorLevel
                     "Failed to save portal to database after creating Matrix room") tt]))).
  unfold CreateMatrixRoom.
  apply post_get_portal. rewrite Hm. simpl negb. cbv iota.
  post_auto.
  all: intros e' w' Hdone; inversion Hdone; subst; clear Hdone.
  all: repeat match goal with
       | H : forallb no_room_created ?t = true |- _ =>
           apply no_room_created_answers in H
       end.
  all: try solve
    [ left; split;
      [ simpl; congruence
      | erewrite !new_entries_trace by trace_eq;
        unfold_answers; rewrite_silence; eauto ] ].
  all: right.
  all: match goal with
       | |- context [record (Called (Log _ _) _)
                       (record (Called (DB_Portal_Update _) _) ?W0)] =>
           assert (exists tr0, trace W0 = trace w ++ tr0) as [tr0 H0]
             by (eexists; trace_eq);
           eexists; exists tr0
       end.
  all: split; [| split; [reflexivity |] ].
  all: try (apply new_entries_trace; simpl in *; rewrite H0, <- !app_assoc; reflexivity).
  all: erewrite !new_entries_trace by trace_eq;
       unfold_answers; rewrite_silence; reflexivity.
Qed.

(** ** The pump *)

Lemma eventLoop_app pre rest w :
  eventLoop (pre ++ rest) w =
  match eventLoop pre w with
  | Done _ w1 => eventLoop rest w1
  | Panicked reason w1 => Panicked reason w1
  end.
Proof.
  revert w. induction pre as [|rawEvt pre IH]; intros w; simpl; auto.
  unfold bind.
  destruct rawEvt as [evt sender|evt source|];
    [ destruct (handleMatrixEvent sender evt w)
    | destruct (handleRemoteEvent source evt w)
    | unfold panic ]; auto.
Qed.

(** C3, as the code has it. [eventLoop] has no recovery boundary: when the
    handler of a dequeued event panics, the loop ends with that panic, in
    the world the handler left (nothing is logged), and the events queued
    behind it are not processed. When the handler returns, the loop goes on
    with the rest of the queue. *)
Theorem eventLoop_handler_panic pre rawEvt rest w w1 :
  eventLoop pre w = Done tt w1 ->
  let handled :=
    match rawEvt with
    | portalMatrixEvent evt sender => handleMatrixEvent sender evt w1
    | portalRemoteEvent evt source => handleRemoteEvent source evt w1
    | portalIllegalEvent => panic "illegal type in eventLoop" w1
    end in
  (forall reason w2,
     handled = Panicked reason w2 ->
     eventLoop (pre ++ rawEvt :: rest) w = Panicked reason w2) /\
  (forall w2,
     handled = Done tt w2 ->
     eventLoop (pre ++ rawEvt :: rest) w = eventLoop rest w2).
Proof.
  intros Hpre handled. subst handled.
  split; intros; rewrite eventLoop_app, Hpre; simpl; unfold bind;
    destruct rawEvt; rewrite H; reflexivity.
Qed.


(** * Further properties of the portal code *)

(** ** Info updater *)

Lemma MatrixAPI_eqb_refl a : MatrixAPI_eqb a a = true.
Proof. unfold MatrixAPI_eqb. now rewrite Nat.eqb_refl, String.eqb_refl. Qed.

(** X1. For a portal whose chain of parents ends, as that of every
    [Portal] of this model does (on a portal that is its own ancestor the
    source does not come back from [getBridgeInfo]: see X5).
    [UpdateBridgeInfo] does nothing for a portal without a room. Otherwise
    it sends exactly two state events, both as the bot, both with the
    bridge id as state key and with the same bridge info as content: first
    [StateBridge], then [StateHalfShotBridge]. It never changes the
    portal. *)
Theorem UpdateBridgeInfo_publishes_twice w :
  let p := portal w in
  let w' := final (UpdateBridgeInfo w) in
  let tr := new_entries w w' in
  let content :=
    {| Content_Parsed := Some (ParsedBridge (snd (getBridgeInfo p)));
       Content_Raw := None |} in
  portal w' = p /\
  (MXID p = "" -> tr = []) /\
  (MXID p <> "" ->
   exists ts1 r1 ts2 r2,
     filter is_matrix_send tr =
       [Called (SendState Bot (MXID p) event.StateBridge
                  (Portal_BridgeID (Portal_row p)) content ts1) r1;
        Called (SendState Bot (MXID p) event.StateHalfShotBridge
                  (Portal_BridgeID (Portal_row p)) content ts2) r2]).
Proof.
  intros p w' tr content. subst p w' tr content.
  remember (UpdateBridgeInfo w) as o eqn:Ho.
  unfold UpdateBridgeInfo, sendRoomMeta, bind, get_portal, call, log, ret in Ho.
  simpl in Ho.
  destruct (String.eqb (MXID (portal w)) "") eqn:Hm.
  - subst o. simpl. unfold new_entries. rewrite skipn_all.
    repeat split; auto. intros Hne. apply String.eqb_eq in Hm. contradiction.
  - repeat first
      [ rewrite Hm in Ho
      | rewrite MatrixAPI_eqb_refl in Ho
      | rewrite andb_false_r in Ho
      | progress simpl in Ho
      | match type of Ho with
        | context [let (_, _) := respond ?t ?c in _] =>
            destruct (respond t c) as [? ?]
        | context [match ?x with Some _ => _ | None => _ end] =>
            is_var x; destruct x
        end ].
    all: subst o; simpl; erewrite !new_entries_trace by solve_trace; simpl.
    all: split; [reflexivity|]; split;
      [intros Heq; apply String.eqb_neq in Hm; contradiction|].
    all: intros _; do 4 eexists; reflexivity.
Qed.

Lemma sendRoomMeta_accepted sender ts ty key content w :
  exists b tr,
    sendRoomMeta sender ts ty key content w = Done b (extend tr w) /\
    b = last_send_accepted tr /\
    (String.eqb (MXID (portal w)) "" = true -> tr = []).
Proof.
  unfold sendRoomMeta, bind, get_portal, call, log, ret.
  destruct (String.eqb (MXID (portal w)) "") eqn:Hm.
  - exists false, []. rewrite extend_nil. auto.
  - set (intent := match sender with Some g => IntentFor g (portal w) | None => Bot end).
    rewrite !record_extend.
    destruct (respond _ (SendState intent _ ty key _ ts)) as [rsp err] eqn:Hr.
    destruct (is_MForbidden err && negb (MatrixAPI_eqb intent Bot)) eqn:Hf.
    + rewrite !record_extend, !extend_extend.
      destruct (respond _ (SendState Bot _ event.StateRoomName "" _ ts)) as [rsp2 err2] eqn:Hr2.
      destruct err2; tidy; eexists; eexists;
        (split; [reflexivity|]); (split; [reflexivity|discriminate]).
    + destruct err; tidy; eexists; eexists;
        (split; [reflexivity|]); (split; [reflexivity|discriminate]).
Qed.

Lemma UpdateName_run name sender ts w :
  let unchanged :=
    String.eqb (Portal_Name (Portal_row (portal w))) name
    && (Portal_NameSet (Portal_row (portal w)) || String.eqb (MXID (portal w)) "") in
  exists w',
    UpdateName name sender ts w = Done (negb unchanged) w' /\
    Portal_Name (Portal_row (portal w')) = name /\
    MXID (portal w') = MXID (portal w) /\
    (unchanged = true -> w' = w) /\
    (unchanged = false ->
     Portal_NameSet (Portal_row (portal w')) = last_send_accepted (new_entries w w')) /\
    (unchanged = false -> MXID (portal w) = "" ->
     Portal_NameSet (Portal_row (portal w')) = false).
Proof.
  intros unchanged. subst unchanged.
  unfold UpdateName. unfold bind at 1. unfold get_portal at 1.
  destruct (_ && _) eqn:Hg.
  - exists w. simpl. repeat split; auto; try discriminate.
    apply andb_prop in Hg as [Hn _]. now apply String.eqb_eq in Hn.
  - unfold bind at 1. unfold assign at 1, bind at 1, get_portal at 1, set_portal at 1.
    unfold bind at 1.
    match goal with
    | |- context [sendRoomMeta ?a ?b ?c ?d ?e ?w0] =>
        destruct (sendRoomMeta_accepted a b c d e w0) as (b0 & tr & Hrun & Hb & Hnil);
        rewrite Hrun
    end.
    unfold bind, assign, get_portal, set_portal, ret. simpl.
    eexists. split; [reflexivity|]. simpl.
    split; [reflexivity|]. split; [reflexivity|]. split; [discriminate|].
    split.
    + intros _. erewrite new_entries_trace by solve_trace. exact Hb.
    + intros _ Hempty. rewrite Hb, Hnil; [reflexivity|].
      simpl. apply String.eqb_eq. exact Hempty.
Qed.

(** X2. [UpdateName] returns false and leaves everything as it is when the
    portal already has this name and the name is published or there is no
    room. Otherwise it returns true with the name stored, and [NameSet] is
    true exactly when a state event was sent and the last one was accepted;
    in particular it is false for a portal without a room. *)
Theorem UpdateName_flag name sender ts w :
  let unchanged :=
    String.eqb (Portal_Name (Portal_row (portal w))) name
    && (Portal_NameSet (Portal_row (portal w)) || String.eqb (MXID (portal w)) "") in
  exists w',
    UpdateName name sender ts w = Done (negb unchanged) w' /\
    Portal_Name (Portal_row (portal w')) = name /\
    (unchanged = true -> w' = w) /\
    (unchanged = false ->
     Portal_NameSet (Portal_row (portal w')) = last_send_accepted (new_entries w w') /\
     (MXID (portal w) = "" -> Portal_NameSet (Portal_row (portal w')) = false)).
Proof.
  intros unchanged.
  destruct (UpdateName_run name sender ts w) as (w' & Hrun & Hn & Hm & Hu & Hc & He).
  exists w'. split; [exact Hrun|]. split; [exact Hn|]. split; [exact Hu|].
  intros Hf. split; [exact (Hc Hf) | exact (He Hf)].
Qed.

(** X3. A second [UpdateName] with the same name is a no-op once the name
    is published, or while the portal has no room: it returns false, makes
    no call and leaves the world as it is. *)
Theorem UpdateName_twice name sender1 ts1 sender2 ts2 w b w1 :
  UpdateName name sender1 ts1 w = Done b w1 ->
  Portal_NameSet (Portal_row (portal w1)) = true \/ MXID (portal w1) = "" ->
  UpdateName name sender2 ts2 w1 = Done false w1.
Proof.
  intros Hrun Hset.
  destruct (UpdateName_run name sender1 ts1 w) as (w' & Hrun' & Hn & _).
  rewrite Hrun in Hrun'. inversion Hrun'; subst w'. clear Hrun'.
  destruct (UpdateName_run name sender2 ts2 w1) as (w2 & Hrun2 & _ & _ & Hu & _).
  assert (Hg : String.eqb (Portal_Name (Portal_row (portal w1))) name
               && (Portal_NameSet (Portal_row (portal w1))
                   || String.eqb (MXID (portal w1)) "") = true).
  { rewrite Hn, String.eqb_refl. simpl.
    destruct Hset as [-> | ->]; auto. now rewrite String.eqb_refl, orb_true_r. }
  rewrite Hg in *. simpl in Hrun2. rewrite (Hu eq_refl) in Hrun2. exact Hrun2.
Qed.

(** ** Computations that keep a condition on the portal *)

Lemma keeps_ret {A} I P (a : A) : keeps I P (ret a).
Proof. intros w H. split; auto. exists []. simpl. now rewrite app_nil_r. Qed.

Lemma keeps_panic {A} I P r : keeps I P (@panic _ A r).
Proof. intros w H. split; auto. exists []. simpl. now rewrite app_nil_r. Qed.

Lemma keeps_deref {A} I P (p : option A) : keeps I P (deref p).
Proof. destruct p; [apply keeps_ret | apply keeps_panic]. Qed.

Lemma keeps_bind {A B} I P (m : M A) (k : A -> M B) :
  keeps I P m -> (forall a, keeps I P (k a)) -> keeps I P (bind m k).
Proof.
  intros Hm Hk w HI. unfold bind. destruct (Hm w HI) as (H1 & t1 & E1 & F1).
  destruct (m w) as [a w1|r w1]; simpl in *; eauto.
  destruct (Hk a w1 H1) as (H2 & t2 & E2 & F2). split; auto.
  exists (t1 ++ t2). rewrite E2, E1, app_assoc, forallb_app, F1, F2. auto.
Qed.

Lemma keeps_get_portal {A} (I : Portal -> Prop) P (k : Portal -> M A) :
  (forall p, I p -> keeps I P (k p)) -> keeps I P (bind get_portal k).
Proof. intros H w HI. exact (H (portal w) HI w HI). Qed.

Lemma keeps_call {R} (I : Portal -> Prop) (P : Entry -> bool) (c : Call R) :
  (forall r, P (Called c r) = true) -> keeps I P (call c).
Proof.
  intros H w HI. unfold call; simpl. split; auto.
  eexists; split; [reflexivity|]. simpl. now rewrite H.
Qed.

Lemma keeps_assign (I : Portal -> Prop) P g :
  (forall p, I p -> I (with_row g p)) -> keeps I P (assign g).
Proof.
  intros H w HI. unfold assign, bind, get_portal, set_portal; simpl.
  split; [apply H; exact HI|]. exists []. now rewrite app_nil_r.
Qed.

Lemma keeps_set_portal (I : Portal -> Prop) P p :
  I p -> keeps I P (set_portal p).
Proof.
  intros H w HI. unfold set_portal; simpl.
  split; [exact H|]. exists []. now rewrite app_nil_r.
Qed.

Lemma keeps_weaken {A} (I : Portal -> Prop) (P Q : Entry -> bool) (m : M A) :
  (forall e, P e = true -> Q e = true) -> keeps I P m -> keeps I Q m.
Proof.
  intros H Hm w HI. destruct (Hm w HI) as (H1 & t & E1 & F1). split; auto.
  exists t. split; auto. rewrite forallb_forall in *. auto.
Qed.

(** What [respects] gives for the identity carries every condition. *)
Lemma keeps_of_respects {A} (I : Portal -> Prop) P (m : M A) :
  respects P (fun p => p) m -> keeps I P m.
Proof.
  intros H w HI. destruct (H w) as (Hp & t & Ht & Hf). simpl in Hp.
  rewrite Hp. eauto.
Qed.

Create HintDb keeps_db.

Ltac keeps_step :=
  match goal with
  | |- keeps _ _ (ret _) => apply keeps_ret
  | |- keeps _ _ (panic _) => apply keeps_panic
  | |- keeps _ _ (deref _) => apply keeps_deref
  | |- keeps _ _ (bind get_portal _) =>
      apply keeps_get_portal;
      let p := fresh "p" in
      let Hp := fresh "Hp" in
      intros p Hp; cbv beta in Hp; try rewrite Hp; simpl
  | |- keeps _ _ (bind _ _) => apply keeps_bind; [ | intros ]
  | |- keeps _ _ (call _) => apply keeps_call; intros; reflexivity
  | |- keeps _ _ (log _ _) => apply keeps_call; intros; reflexivity
  | |- keeps _ _ (assign _) => apply keeps_assign; intros; assumption
  | |- keeps _ _ (match ?x with _ => _ end) => destruct x
  | |- keeps _ _ (let _ := _ in _) => cbv zeta
  | |- keeps _ _ _ => solve [eauto with keeps_db]
  end.

Ltac keeps_auto := repeat keeps_step.

Lemma sendRoomMeta_no_room sender ts ty key content :
  keeps no_room not_matrix_send (sendRoomMeta sender ts ty key content).
Proof. unfold sendRoomMeta. keeps_auto. Qed.

#[local] Hint Resolve sendRoomMeta_no_room : keeps_db.

Lemma UpdateName_no_room name sender ts :
  keeps no_room not_matrix_send (UpdateName name sender ts).
Proof. unfold UpdateName. keeps_auto. Qed.

Lemma UpdateTopic_no_room topic sender ts :
  keeps no_room not_matrix_send (UpdateTopic topic sender ts).
Proof. unfold UpdateTopic. keeps_auto. Qed.

Lemma UpdateAvatar_no_room avatar sender ts :
  keeps no_room not_matrix_send (UpdateAvatar avatar sender ts).
Proof. unfold UpdateAvatar. keeps_auto. Qed.

Lemma UpdateBridgeInfo_no_room :
  keeps no_room not_matrix_send UpdateBridgeInfo.
Proof. unfold UpdateBridgeInfo. keeps_auto. Qed.

#[local] Hint Resolve UpdateName_no_room UpdateTopic_no_room UpdateAvatar_no_room
  UpdateBridgeInfo_no_room : keeps_db.

Lemma UpdateInfo_no_room info sender ts :
  keeps no_room not_matrix_send (UpdateInfo info sender ts).
Proof. unfold UpdateInfo. keeps_auto. Qed.

(** ** Computations that always return *)

Lemma returns_ret {A} (a : A) : returns (ret a).
Proof. intros w. do 2 eexists. reflexivity. Qed.

Lemma returns_bind {A B} (m : M A) (k : A -> M B) :
  returns m -> (forall a, returns (k a)) -> returns (bind m k).
Proof.
  intros Hm Hk w. unfold bind. destruct (Hm w) as (a & w1 & ->). apply Hk.
Qed.

Lemma returns_call {R} (c : Call R) : returns (call c).
Proof. intros w. do 2 eexists. reflexivity. Qed.

Lemma returns_get_portal : returns get_portal.
Proof. intros w. do 2 eexists. reflexivity. Qed.

Lemma returns_set_portal p : returns (set_portal p).
Proof. intros w. do 2 eexists. reflexivity. Qed.

Lemma returns_assign g : returns (assign g).
Proof. intros w. do 2 eexists. reflexivity. Qed.

Create HintDb returns_db.

Ltac returns_step :=
  match goal with
  | |- returns (ret _) => apply returns_ret
  | |- returns get_portal => apply returns_get_portal
  | |- returns (bind _ _) => apply returns_bind; [ | intros ]
  | |- returns (call _) => apply returns_call
  | |- returns (log _ _) => apply returns_call
  | |- returns (assign _) => apply returns_assign
  | |- returns (set_portal _) => apply returns_set_portal
  | |- returns (match ?x with _ => _ end) => destruct x
  | |- returns (let _ := _ in _) => cbv zeta
  | |- returns _ => solve [eauto with returns_db]
  end.

Ltac returns_auto := repeat returns_step.

Lemma sendRoomMeta_returns sender ts ty key content :
  returns (sendRoomMeta sender ts ty key content).
Proof. unfold sendRoomMeta. returns_auto. Qed.

#[local] Hint Resolve sendRoomMeta_returns : returns_db.

Lemma UpdateName_returns name sender ts : returns (UpdateName name sender ts).
Proof. unfold UpdateName. returns_auto. Qed.

Lemma UpdateTopic_returns topic sender ts : returns (UpdateTopic topic sender ts).
Proof. unfold UpdateTopic. returns_auto. Qed.

Lemma UpdateAvatar_returns avatar sender ts : returns (UpdateAvatar avatar sender ts).
Proof. unfold UpdateAvatar. returns_auto. Qed.

Lemma UpdateBridgeInfo_returns : returns UpdateBridgeInfo.
Proof. unfold UpdateBridgeInfo. returns_auto. Qed.

#[local] Hint Resolve UpdateName_returns UpdateTopic_returns UpdateAvatar_returns
  UpdateBridgeInfo_returns : returns_db.

Lemma UpdateInfo_returns info sender ts : returns (UpdateInfo info sender ts).
Proof. unfold UpdateInfo. returns_auto. Qed.

Lemma not_matrix_send_filter t :
  forallb not_matrix_send t = true -> filter is_matrix_send t = [].
Proof.
  apply forallb_filter_nil. intros e. unfold not_matrix_send.
  now destruct (is_matrix_send e).
Qed.

(** X4. On a portal without a room, [UpdateInfo] returns, sends nothing to
    Matrix (no state event, no message), and the portal still has no room:
    the info is only stored. *)
Theorem UpdateInfo_without_room info sender ts w :
  MXID (portal w) = "" ->
  exists w',
    UpdateInfo info sender ts w = Done tt w' /\
    MXID (portal w') = "" /\
    filter is_matrix_send (new_entries w w') = [].
Proof.
  intros Hm.
  destruct (UpdateInfo_returns info sender ts w) as ([] & w' & Hrun).
  exists w'. split; [exact Hrun|].
  assert (Hn : no_room (portal w)) by (unfold no_room; rewrite Hm; reflexivity).
  destruct (UpdateInfo_no_room info sender ts w Hn) as (H1 & t & Ht & Hf).
  rewrite Hrun in H1, Ht. simpl in H1, Ht. split.
  - now apply String.eqb_eq.
  - erewrite new_entries_trace by exact Ht. now apply not_matrix_send_filter.
Qed.

(** ** Matrix events *)

Lemma map_get_In {V} k (m : list (string * V)) v :
  map_get k m = Some v -> In v (map snd m).
Proof.
  induction m as [|[k' v'] m IH]; simpl; [discriminate|].
  destruct (String.eqb k k'); intros H; [inversion H|]; auto.
Qed.

Lemma FindPreferredLogin_usable_some user logins l :
  FindPreferredLogin_usable user logins = Some l ->
  In l (map snd (User_logins user)) /\ UserLogin_Client l <> None.
Proof.
  induction logins as [|loginID rest IH]; simpl; [discriminate|].
  destruct (map_get loginID (User_logins user)) as [login|] eqn:Hg; auto.
  destruct (UserLogin_Client login) eqn:Hc; auto.
  intros H; inversion H; subst. split; [eapply map_get_In; eauto | congruence].
Qed.

Lemma FindPreferredLogin_run user w :
  exists login err w',
    FindPreferredLogin user w = Done (login, err) w' /\
    portal w' = portal w /\
    (exists tr, trace w' = trace w ++ tr /\ forallb login_entry tr = true /\
       match login, err with
       | Some l, None =>
           In l (map snd (User_logins user)) /\
           (UserLogin_Client l = None -> Portal_Relay (portal w) = None)
       | None, None => Portal_Relay (portal w) <> None
       | None, Some e =>
           (exists logins, answers_FindLoginsByPortalID tr = [(logins, Some e)]) \/
           (e = ErrNotLoggedIn /\ User_logins user = [] /\
            Portal_Relay (portal w) = None)
       | Some _, Some _ => False
       end).
Proof.
  unfold FindPreferredLogin, bind, get_portal, call, log, ret.
  destruct (respond (trace w) (DB_User_FindLoginsByPortalID _ _)) as [logins [e|]].
  - do 3 eexists. split; [reflexivity|]. split; [reflexivity|].
    eexists. split; [reflexivity|]. split; [reflexivity|]. left.
    eexists. reflexivity.
  - destruct (FindPreferredLogin_usable user logins) as [l|] eqn:Hu.
    + apply FindPreferredLogin_usable_some in Hu as [Hin Hc].
      do 3 eexists. split; [reflexivity|]. split; [reflexivity|].
      eexists. split; [reflexivity|]. split; [reflexivity|]. split; auto.
      intros; contradiction.
    + simpl. destruct (Portal_Relay (portal w)) as [relay|] eqn:Hr.
      * do 3 eexists. split; [reflexivity|]. split; [reflexivity|].
        eexists. split; [reflexivity|]. split; [reflexivity|]. discriminate.
      * destruct (User_logins user) as [|[k first] rest] eqn:Hl.
        -- do 3 eexists. split; [reflexivity|]. split; [reflexivity|].
           eexists. split; [reflexivity|]. split; [reflexivity|]. right. auto.
        -- simpl. do 3 eexists. split; [reflexivity|]. split; [reflexivity|].
           eexists. split; [simpl; rewrite <- app_assoc; reflexivity|].
           split; [reflexivity|]. simpl. auto.
Qed.

(** X6. [FindPreferredLogin] always returns, after one store lookup and at
    most a warning, without touching the portal. A login it returns is one
    of the user's logins, and a login without a client is only returned
    when the portal has no relay; [(nil, nil)] is only returned when the
    portal has a relay; an error is the error of the lookup, or
    [ErrNotLoggedIn] for a user without logins on a portal without relay. *)
Theorem FindPreferredLogin_outcomes user w :
  exists login err w',
    FindPreferredLogin user w = Done (login, err) w' /\
    portal w' = portal w /\
    forallb login_entry (new_entries w w') = true /\
    match login, err with
    | Some l, None =>
        In l (map snd (User_logins user)) /\
        (UserLogin_Client l = None -> Portal_Relay (portal w) = None)
    | None, None => Portal_Relay (portal w) <> None
    | None, Some e =>
        (exists logins,
           answers_FindLoginsByPortalID (new_entries w w') = [(logins, Some e)]) \/
        (e = ErrNotLoggedIn /\ User_logins user = [] /\
         Portal_Relay (portal w) = None)
    | Some _, Some _ => False
    end.
Proof.
  destruct (FindPreferredLogin_run user w)
    as (login & err & w' & Hrun & Hp & tr & Ht & Hf & Hc).
  exists login, err, w'. rewrite (new_entries_trace w w' tr Ht). auto.
Qed.

Lemma post_FindPreferredLogin {A} user (k : option UserLogin * option error -> M A) w Q :
  (forall login err w' tr,
     FindPreferredLogin user w = Done (login, err) w' ->
     portal w' = portal w ->
     trace w' = trace w ++ tr ->
     forallb login_entry tr = true ->
     (login = None -> err = None -> Portal_Relay (portal w) <> None) ->
     post (k (login, err)) w' Q) ->
  post (bind (FindPreferredLogin user) k) w Q.
Proof.
  intros H. apply post_bind. unfold post at 1.
  destruct (FindPreferredLogin_run user w)
    as (login & err & w' & Hrun & Hp & tr & Ht & Hf & Hc).
  rewrite Hrun. eapply H; eauto.
  intros -> ->. exact Hc.
Qed.

Lemma login_entries_quiet t :
  forallb login_entry t = true -> forallb quiet_entry t = true.
Proof.
  rewrite !forallb_forall. intros H e He. specialize (H e He).
  destruct e as [R c r]; destruct c; simpl in *; auto; discriminate.
Qed.

(** X10. A Matrix event that is not ephemeral and whose type is none of
    message, sticker, reaction and redaction (room name, topic, avatar,
    encryption, anything else) is accepted and ignored: [handleMatrixEvent]
    returns without calling a network client, writing to the store or
    sending to Matrix. *)
Theorem handleMatrixEvent_not_dispatched sender evt w :
  Z.land (Event_EventSource evt) SourceEphemeral = 0%Z ->
  dispatched_type (Event_Type evt) = false ->
  exists w',
    handleMatrixEvent sender evt w = Done tt w' /\
    portal w' = portal w /\
    forallb quiet_entry (new_entries w w') = true.
Proof.
  intros Hsrc Hty.
  change (post (handleMatrixEvent sender evt) w
            (fun o => exists w', o = Done tt w' /\ portal w' = portal w /\
                        forallb quiet_entry (new_entries w w') = true)).
  unfold handleMatrixEvent. rewrite Hsrc. simpl.
  apply post_FindPreferredLogin. intros login err w1 tr Hrun Hp Ht Hf Hrelay.
  apply login_entries_quiet in Hf.
  destruct err as [e|].
  - apply post_log_last. eexists. split; [reflexivity|]. split; [exact Hp|].
    erewrite new_entries_trace by trace_eq. rewrite forallb_app, Hf. reflexivity.
  - destruct login as [login|].
    + simpl. destruct (Event_Type evt); try discriminate Hty;
        unfold post, bind, ret; simpl;
        (eexists; split; [reflexivity|]; split; [exact Hp|];
         erewrite new_entries_trace by exact Ht; exact Hf).
    + specialize (Hrelay eq_refl eq_refl). rewrite <- Hp in Hrelay.
      destruct (Portal_Relay (portal w1)) as [relay|] eqn:Hr; [|congruence].
      destruct (Event_Type evt); try discriminate Hty;
        unfold post, bind, get_portal, call, log, ret; simpl;
        destruct (respond _ (GetMemberInfo _ _)) as [info [e|]]; simpl;
        rewrite ?Hr; simpl;
        (eexists; split; [reflexivity|]; split; [exact Hp|];
         erewrite new_entries_trace by trace_eq;
         rewrite forallb_app, Hf; reflexivity).
Qed.

Lemma snoc2 {A} (l : list A) a c : l ++ [a; c] = (l ++ [a]) ++ [c].
Proof. now rewrite <- app_assoc. Qed.

Lemma snoc3 {A} (l : list A) a b c : l ++ [a; b; c] = (l ++ [a; b]) ++ [c].
Proof. now rewrite <- app_assoc. Qed.

(** X9. Reactions are never relayed. When the sender has no usable login
    and the portal has a relay ([FindPreferredLogin] gives [(nil, nil)]), a
    reaction event is dropped: after fetching the member info,
    [handleMatrixEvent] logs at debug level and returns, without calling a
    network client or writing to the store. *)
Theorem handleMatrixEvent_relayed_reaction sender evt w w1 :
  Z.land (Event_EventSource evt) SourceEphemeral = 0%Z ->
  Event_Type evt = event.EventReaction ->
  FindPreferredLogin sender w = Done (None, None) w1 ->
  exists w' before,
    handleMatrixEvent sender evt w = Done tt w' /\
    new_entries w w' =
      before ++ [Called (Log DebugLevel "Ignoring reaction event from relayed user") tt] /\
    forallb quiet_entry (new_entries w w') = true.
Proof.
  intros Hsrc Hty Hlogin.
  change (post (handleMatrixEvent sender evt) w
            (fun o => exists w' before, o = Done tt w' /\
               new_entries w w' =
                 before ++ [Called (Log DebugLevel
                                      "Ignoring reaction event from relayed user") tt] /\
               forallb quiet_entry (new_entries w w') = true)).
  unfold handleMatrixEvent. rewrite Hsrc, Hty. simpl.
  apply post_FindPreferredLogin. intros login err w2 tr Hrun Hp Ht Hf Hrelay.
  rewrite Hlogin in Hrun. inversion Hrun; subst login err w2. clear Hrun.
  apply login_entries_quiet in Hf.
  specialize (Hrelay eq_refl eq_refl). rewrite <- Hp in Hrelay.
  destruct (Portal_Relay (portal w1)) as [relay|] eqn:Hr; [|congruence].
  apply post_assoc, post_get_portal. rewrite Hr.
  post_auto.
  all: try (exfalso; apply Hrelay; reflexivity).
  all: do 2 eexists; (split; [reflexivity|]);
    erewrite !new_entries_trace by trace_eq;
    (split; [| rewrite forallb_app, Hf; reflexivity]).
  all: first [ apply snoc2 | apply snoc3 ].
Qed.

Ltac exists_prefix :=
  match goal with
  | |- exists before, ?l = before ++ _ =>
      first [ exists (firstn 0 l); reflexivity
            | exists (firstn 1 l); reflexivity
            | exists (firstn 2 l); reflexivity
            | exists (firstn 3 l); reflexivity
            | exists (firstn 4 l); reflexivity
            | exists (firstn 5 l); reflexivity ]
  end.

(** X11. A Matrix message that is not an edit, from a login with a client,
    is handed to the client exactly once. When the client answers with an
    error, no message, reaction or portal row is written and no ghost is
    looked up. When it answers with a row, the handler first looks up the
    ghost of the row's sender with [GetGhostByID] (which creates the ghost
    row when there is none) and then inserts exactly that row, with the
    Matrix sender's id stored under [sender_mxid] in its metadata; these
    are its only ghost call and its only write to the message, reaction and
    portal tables. When it answers with neither a row nor an error, the
    handler panics on the nil row, before either. *)
Theorem handleMatrixMessage_saves_stamped sender origSender evt content client w :
  Content_Parsed (Event_Content evt) = Some (ParsedMessage content) ->
  GetReplaceID (MessageEventContent_RelatesTo content) = "" ->
  UserLogin_Client sender = Some client ->
  let o := handleMatrixMessage sender origSender evt w in
  let tr := new_entries w (final o) in
  exists answer,
    answers_HandleMatrixMessage tr = [answer] /\
    match snd answer, fst answer with
    | Some _, _ =>
        db_writes tr = [] /\ ghost_calls tr = [] /\ exists w', o = Done tt w'
    | None, Some msg =>
        db_writes tr = [WriteMessageInsert (stamped (Event_Sender evt) msg)] /\
        ghost_calls tr = [GhostLookup (Message_SenderID msg)] /\
        (exists r e before,
           tr = before ++ [Called (GetGhostByID (Message_SenderID msg)) r;
                           Called (DB_Message_Insert (stamped (Event_Sender evt) msg)) e]
                ++ match e with
                   | Some _ =>
                       [Called (Log ErrorLevel "Failed to save message to database") tt]
                   | None => []
                   end) /\
        exists w', o = Done tt w'
    | None, None =>
        db_writes tr = [] /\ ghost_calls tr = [] /\
        exists w', o = Panicked "nil pointer dereference" w'
    end.
Proof.
  intros Hc Hr Hcl o tr. subst tr o.
  remember (handleMatrixMessage sender origSender evt w) as o eqn:Ho.
  unfold handleMatrixMessage in Ho. rewrite Hc, Hr, Hcl in Ho. simpl in Ho.
  unfold bind, get_portal, call, log, ret, deref, panic in Ho. simpl in Ho.
  destruct (negb (String.eqb (GetThreadParent _) "")); simpl in Ho;
    destruct (negb (String.eqb (GetNonFallbackReplyTo _) "")); simpl in Ho.
  all: destruct_responses Ho.
  all: subst o; simpl; destruct_units; erewrite !new_entries_trace by solve_trace.
  all: eexists; (split; [reflexivity|]); simpl; split; [reflexivity|].
  all: split; [reflexivity|].
  all: try (split;
            [ match goal with
              | |- exists r e before, ?l = _ =>
                  match l with
                  | context [Called (GetGhostByID _) ?r0
                             :: Called (DB_Message_Insert _) ?e0 :: _] =>
                      exists r0, e0
                  end
              end; exists_prefix |]).
  all: unfold call; simpl; destruct_units; eexists; reflexivity.
Qed.

(** X12. A Matrix reaction, from a login with a client. Unless the lookup
    of the target message gives a row without error, no client is called
    and nothing is written. Otherwise the client is called exactly once,
    and the only write is the upsert of the reaction it returned; when it
    returns an error, or no reaction, nothing is written. The handler
    always returns. *)
Theorem handleMatrixReaction_upserts sender evt content client w :
  Content_Parsed (Event_Content evt) = Some (ParsedReaction content) ->
  UserLogin_Client sender = Some client ->
  exists w',
    handleMatrixReaction sender evt w = Done tt w' /\
    let tr := new_entries w w' in
    match answers_GetPartByMXID tr with
    | [(Some target, None)] =>
        exists answer,
          answers_HandleMatrixReaction tr = [answer] /\
          db_writes tr =
            match snd answer, fst answer with
            | None, Some r => [WriteReactionUpsert r]
            | _, _ => []
            end
    | _ => filter is_client_call tr = [] /\ db_writes tr = []
    end.
Proof.
  intros Hc Hcl.
  remember (handleMatrixReaction sender evt w) as o eqn:Ho.
  unfold handleMatrixReaction in Ho. rewrite Hc in Ho.
  unfold bind, get_portal, call, log, ret, deref, panic in Ho. simpl in Ho.
  destruct (respond (trace w) (DB_Message_GetPartByMXID _)) as [[target|] [e|]];
    simpl in Ho; rewrite ?Hcl in Ho; simpl in Ho.
  all: destruct_responses Ho.
  all: subst o; unfold log, call; destruct_units; eexists; (split; [reflexivity|]); simpl;
    erewrite !new_entries_trace by solve_trace; simpl.
  all: try (split; reflexivity).
  all: eexists; split; reflexivity.
Qed.

(** ** Remote events *)

Ltac destruct_unit_answers :=
  repeat match goal with
         | |- context [respond ?t ?c] =>
             match type of (respond t c) with
             | unit => destruct (respond t c)
             end
         end.

(** X13. What [getIntentFor] gives. An intent it returns is the answer of
    its last [UserIntent] call, or the intent of the ghost of the event's
    sender, looked up and refreshed just before. It returns nil only when
    the lookup of that ghost fails, after logging the failure. It panics
    only when that lookup gives neither a ghost nor an error. *)
Theorem getIntentFor_outcomes sender source w :
  let o := getIntentFor sender source w in
  let tr := new_entries w (final o) in
  match o with
  | Done (Some i) _ =>
      (exists user before, tr = before ++ [Called (UserIntent user) (Some i)]) \/
      (exists ghost, i = Ghost_Intent ghost /\
         exists before,
           tr = before ++ [Called (GetGhostByID (Sender sender)) (Some ghost, None);
                           Called (UpdateInfoIfNecessary ghost source) tt])
  | Done None _ =>
      exists ghost e before,
        tr = before ++
             [Called (GetGhostByID (Sender sender)) (ghost, Some e);
              Called (Log ErrorLevel "Failed to get ghost for message sender") tt]
  | Panicked _ _ =>
      exists before,
        tr = before ++ [Called (GetGhostByID (Sender sender)) (None, None)]
  end.
Proof.
  intros o tr. subst tr o.
  remember (getIntentFor sender source w) as o eqn:Ho.
  unfold getIntentFor, bind, call, log, ret, deref, panic in Ho.
  destruct (IsFromMe sender); simpl in Ho.
  all: destruct (negb (String.eqb (SenderLogin sender) "")); simpl in Ho.
  all: destruct_responses Ho.
  all: subst o; unfold log, call; destruct_unit_answers; simpl;
    erewrite !new_entries_trace by solve_trace.
  all: try solve [left; eexists; exists_prefix].
  all: try solve [right; eexists; split; [reflexivity | exists_prefix]].
  all: try solve [do 2 eexists; exists_prefix].
  all: exists_prefix.
Qed.

Lemma handleRemoteEdit_modified_run intent ts parts :
  forall w, exists tr,
    handleRemoteEdit_modified intent ts parts w = Done tt (extend tr w) /\
    db_writes tr = map (fun part => WriteMessageUpdate (EditPart_Part part)) parts /\
    sent_messages tr =
      map (fun part => (MXID (portal w), EditPart_Type part, sent_edit part)) parts /\
    answers_ConvertEdit tr = [] /\
    ghost_calls tr = [].
Proof.
  induction parts as [|part rest IH]; intros w; simpl.
  - exists []. rewrite extend_nil. auto.
  - unfold bind, get_portal, log, call, ret. simpl.
    destruct (respond (trace w) (SendMessage _ _ _ _ _)) as [rsp [e|]]; simpl;
      destruct_unit_answers;
      (destruct (respond _ (DB_Message_Update _)) as [e'|]; simpl; destruct_unit_answers);
      rewrite ?record_extend, ?extend_extend;
      match goal with
      | |- context [handleRemoteEdit_modified _ _ _ (extend ?t w)] =>
          destruct (IH (extend t w)) as (tr & Hrun & Hw & Hs & Hc & Hg); rewrite Hrun;
          exists (t ++ tr); rewrite extend_extend
      end;
      (split; [reflexivity|]);
      unfold db_writes, sent_messages, answers_ConvertEdit, ghost_calls in *;
      rewrite !flat_map_app, Hw, Hs, Hc, Hg; simpl; auto.
Qed.

Lemma handleRemoteEdit_deleted_run intent ts parts :
  forall w, exists tr,
    handleRemoteEdit_deleted intent ts parts w = Done tt (extend tr w) /\
    db_writes tr = map (fun part => WriteMessageDelete (Message_RowID part)) parts /\
    sent_messages tr =
      map (fun part => (MXID (portal w), event.EventRedaction, sent_redaction part)) parts /\
    answers_ConvertEdit tr = [] /\
    ghost_calls tr = [].
Proof.
  induction parts as [|part rest IH]; intros w; simpl.
  - exists []. rewrite extend_nil. auto.
  - unfold bind, get_portal, log, call, ret. simpl.
    destruct (respond (trace w) (SendMessage _ _ _ _ _)) as [rsp [e|]]; simpl;
      destruct_unit_answers;
      (destruct (respond _ (DB_Message_Delete _)) as [e'|]; simpl; destruct_unit_answers);
      rewrite ?record_extend, ?extend_extend;
      match goal with
      | |- context [handleRemoteEdit_deleted _ _ _ (extend ?t w)] =>
          destruct (IH (extend t w)) as (tr & Hrun & Hw & Hs & Hc & Hg); rewrite Hrun;
          exists (t ++ tr); rewrite extend_extend
      end;
      (split; [reflexivity|]);
      unfold db_writes, sent_messages, answers_ConvertEdit, ghost_calls in *;
      rewrite !flat_map_app, Hw, Hs, Hc, Hg; simpl; auto.
Qed.

Lemma intent_entries_calm t :
  forallb intent_entry t = true ->
  answers_ConvertEdit t = [] /\ db_writes t = [] /\ sent_messages t = [].
Proof.
  intros H. repeat split;
    (eapply forallb_flat_map_nil; [|exact H]);
    intros [R c r]; destruct c; simpl; auto; discriminate.
Qed.

Lemma intent_entries_send_nothing t :
  forallb intent_entry t = true ->
  answers_ConvertMessage t = [] /\ send_answers t = [] /\ inserted t = [] /\
  sent_by t = [] /\ conversion_intents t = [] /\
  lookups_GetFirstOrSpecificPartByID t = [].
Proof.
  intros H. assert (Hw : db_writes t = []) by now apply intent_entries_calm.
  unfold inserted. rewrite Hw. repeat split;
    (eapply forallb_flat_map_nil; [|exact H]);
    intros [R c r]; destruct c; simpl; auto; discriminate.
Qed.

Lemma part_entries_convert_nothing rid t :
  forallb (part_entry rid) t = true ->
  conversion_intents t = [] /\ lookups_GetFirstOrSpecificPartByID t = [].
Proof.
  intros H. split;
    (eapply forallb_flat_map_nil; [|exact H]);
    intros [R c r]; destruct c; simpl; auto; discriminate.
Qed.

Lemma sent_by_app a b : sent_by (a ++ b) = sent_by a ++ sent_by b.
Proof. apply flat_map_app. Qed.

Lemma getIntentFor_ghost_calls sender source w i w' t :
  getIntentFor sender source w = Done (Some i) w' ->
  trace w' = trace w ++ t ->
  ghost_calls t = [] \/
  exists ghost, ghost_calls t = [GhostLookup (Sender sender); GhostRefresh ghost].
Proof.
  intros Hrun Ht. rewrite <- (new_entries_trace w w' t Ht). clear Ht.
  unfold getIntentFor, bind, call, log, ret, deref, panic in Hrun.
  destruct (IsFromMe sender); simpl in Hrun.
  all: destruct (negb (String.eqb (SenderLogin sender) "")); simpl in Hrun.
  all: destruct_responses Hrun.
  all: try discriminate Hrun.
  all: inversion Hrun; subst; clear Hrun.
  all: erewrite !new_entries_trace by solve_trace.
  all: first [left; reflexivity | right; eexists; reflexivity].
Qed.

(** X14. A remote edit whose conversion succeeds is carried out part by
    part, and the handler returns: every modified part is sent to the
    portal's room as an edit of its Matrix event and then its row is
    updated; every deleted part is redacted in the room and then its row is
    deleted. These are all its writes to the message, reaction and portal
    tables, and a row is written whether or not the event for it could be
    sent. Ghost rows are touched only by [getIntentFor] before the
    conversion: either not at all, or the ghost of the event's sender is
    looked up with [GetGhostByID] and refreshed with
    [UpdateInfoIfNecessary]. *)
Theorem handleRemoteEdit_writes source evt w converted :
  let o := handleRemoteEdit source evt w in
  let tr := new_entries w (final o) in
  answers_ConvertEdit tr = [(Some converted, None)] ->
  (exists w', o = Done tt w') /\
  db_writes tr =
    map (fun part => WriteMessageUpdate (EditPart_Part part))
        (ConvertedEdit_ModifiedParts converted)
    ++ map (fun part => WriteMessageDelete (Message_RowID part))
           (ConvertedEdit_DeletedParts converted) /\
  sent_messages tr =
    map (fun part => (MXID (portal w), EditPart_Type part, sent_edit part))
        (ConvertedEdit_ModifiedParts converted)
    ++ map (fun part => (MXID (portal w), event.EventRedaction, sent_redaction part))
           (ConvertedEdit_DeletedParts converted) /\
  (ghost_calls tr = [] \/
   exists ghost,
     ghost_calls tr = [GhostLookup (Sender (GetSender evt)); GhostRefresh ghost]).
Proof.
  intros o tr. subst tr o.
  change (post (handleRemoteEdit source evt) w
    (fun o =>
       answers_ConvertEdit (new_entries w (final o)) = [(Some converted, None)] ->
       (exists w', o = Done tt w') /\
       db_writes (new_entries w (final o)) =
         map (fun part => WriteMessageUpdate (EditPart_Part part))
             (ConvertedEdit_ModifiedParts converted)
         ++ map (fun part => WriteMessageDelete (Message_RowID part))
                (ConvertedEdit_DeletedParts converted) /\
       sent_messages (new_entries w (final o)) =
         map (fun part => (MXID (portal w), EditPart_Type part, sent_edit part))
             (ConvertedEdit_ModifiedParts converted)
         ++ map (fun part => (MXID (portal w), event.EventRedaction, sent_redaction part))
                (ConvertedEdit_DeletedParts converted) /\
       (ghost_calls (new_entries w (final o)) = [] \/
        exists ghost,
          ghost_calls (new_entries w (final o))
          = [GhostLookup (Sender (GetSender evt)); GhostRefresh ghost]))).
  unfold handleRemoteEdit.
  post_auto.
  all: try match goal with
       | |- post (bind (handleRemoteEdit_modified ?i ?ts ?ps) _) ?W _ =>
           unfold post, bind;
           destruct (handleRemoteEdit_modified_run i ts ps W)
             as (t1 & Hrun1 & Hw1 & Hs1 & Hc1 & Hg1);
           rewrite Hrun1;
           match goal with
           | |- context [handleRemoteEdit_deleted ?i ?ts ?ds ?W1] =>
               destruct (handleRemoteEdit_deleted_run i ts ds W1)
                 as (t2 & Hrun2 & Hw2 & Hs2 & Hc2 & Hg2);
               rewrite Hrun2
           end
       end.
  all: simpl final; erewrite !new_entries_trace by trace_eq.
  all: repeat match goal with
       | Hi : getIntentFor _ _ _ = Done (Some _) ?w0, Ht : trace ?w0 = _ ++ ?t |- _ =>
           pose proof (@getIntentFor_ghost_calls _ _ _ _ _ _ Hi Ht) as Hghost;
           clear Hi
       end.
  all: repeat match goal with
       | H : forallb intent_entry ?t = true |- _ =>
           destruct (intent_entries_calm _ H) as (? & ? & ?); clear H
       end.
  all: intros Hconv.
  all: unfold answers_ConvertEdit, db_writes, sent_messages in *;
       repeat (progress (rewrite ?flat_map_app in *; simpl in * ));
       rewrite_silence.
  all: try discriminate Hconv.
  all: inversion Hconv; subst.
  all: split; [eexists; reflexivity|].
  all: simpl in *; rewrite ?Hportal in *.
  all: rewrite Hw1, Hw2, Hs1, Hs2.
  all: split; [reflexivity|]. 
  all: split; [reflexivity|].
  all: unfold ghost_calls in *;
       repeat (progress (rewrite ?flat_map_app in *; simpl in * ));
       rewrite ?Hg1, ?Hg2, ?app_nil_r; exact Hghost.
Qed.

Lemma new_entries_refl w : new_entries w w = [].
Proof. unfold new_entries. now rewrite skipn_all. Qed.

Lemma send_answers_app a b : send_answers (a ++ b) = send_answers a ++ send_answers b.
Proof. apply flat_map_app. Qed.

Lemma db_writes_app a b : db_writes (a ++ b) = db_writes a ++ db_writes b.
Proof. apply flat_map_app. Qed.

Lemma inserted_app a b : inserted (a ++ b) = inserted a ++ inserted b.
Proof. unfold inserted. now rewrite db_writes_app, flat_map_app. Qed.

(** The loop over the parts, when it comes to its end: one message per
    part, sent through the intent, and one row per accepted part. *)
Lemma handleRemoteMessage_parts_rows evt intent ts rid replyTo threadRoot parts :
  forall prev w w',
    handleRemoteMessage_parts evt intent ts rid replyTo threadRoot prev parts w
      = Done tt w' ->
    length (send_answers (new_entries w w')) = length parts /\
    sent_by (new_entries w w') = map (fun _ => intent) parts /\
    inserted (new_entries w w') =
      saved_parts evt intent (Portal_ID (Portal_row (portal w))) ts rid parts
        (send_answers (new_entries w w')).
Proof.
  induction parts as [|part rest IH]; intros prev w w' H; simpl in H.
  - inversion H; subst. rewrite new_entries_refl. auto.
  - unfold bind, get_portal, log, call, ret, deref, panic in H. simpl in H.
    destruct (respond (trace w) (SendMessage _ _ _ _ _)) as [[resp|] [e|]];
      simpl in H; try discriminate H.
    all: try match type of H with
      | context [respond ?t (DB_Message_Insert ?m)] =>
          destruct (respond t (DB_Message_Insert m)) as [e'|]; simpl in H
      end.
    all: match type of H with
      | handleRemoteMessage_parts _ _ _ _ _ _ ?pv _ ?w1 = _ =>
          pose proof (handleRemoteMessage_parts_respects evt intent ts rid
                        replyTo threadRoot rest pv w1) as (_ & t & Ht & _);
          rewrite H in Ht; simpl in Ht;
          erewrite (new_entries_split w w1); [| trace_eq | exact Ht];
          destruct (IH _ _ _ H) as (Hl & Hb & Hi); simpl portal in Hi;
          remember (new_entries w1 w') as X
      end.
    all: rewrite send_answers_app, inserted_app, sent_by_app.
    all: remember (send_answers X) as answers.
    all: simpl; rewrite Hl, Hb, Hi; repeat split; reflexivity.
Qed.

(** X17. A remote message whose conversion succeeds, when the handler
    comes to its end. The references looked up are the reply target and
    then the thread root of the converted message, those it has. One
    message was sent for every part, in order, each through the intent that
    was handed to the conversion. The rows inserted are exactly those of the
    parts that Matrix accepted, in order; a part whose message failed leaves
    no row. Each row carries the remote message id and sender, the part id,
    the id of the Matrix event, the portal id, the timestamp of the
    conversion, the MXID of that intent under [sender_mxid], and as related
    row the one found for the thread root, or else the one found for the
    reply target, or else 0. *)
Theorem handleRemoteMessage_rows source evt w w' converted :
  handleRemoteMessage source evt w = Done tt w' ->
  let tr := new_entries w w' in
  answers_ConvertMessage tr = [(Some converted, None)] ->
  length (send_answers tr) = length (ConvertedMessage_Parts converted) /\
  map fst (lookups_GetFirstOrSpecificPartByID tr) = message_refs converted /\
  exists intent,
    conversion_intents tr = [intent] /\
    sent_by tr = map (fun _ => intent) (ConvertedMessage_Parts converted) /\
    inserted tr =
      saved_parts evt intent (Portal_ID (Portal_row (portal w)))
        (ConvertedMessage_Timestamp converted)
        (related_row converted (map snd (lookups_GetFirstOrSpecificPartByID tr)))
        (ConvertedMessage_Parts converted) (send_answers tr).
Proof.
  intros Hrun tr. subst tr. revert w' Hrun.
  change (post (handleRemoteMessage source evt) w
    (fun o => forall w', o = Done tt w' ->
       answers_ConvertMessage (new_entries w w') = [(Some converted, None)] ->
       length (send_answers (new_entries w w'))
       = length (ConvertedMessage_Parts converted) /\
       map fst (lookups_GetFirstOrSpecificPartByID (new_entries w w'))
       = message_refs converted /\
       exists intent,
         conversion_intents (new_entries w w') = [intent] /\
         sent_by (new_entries w w')
         = map (fun _ => intent) (ConvertedMessage_Parts converted) /\
         inserted (new_entries w w') =
           saved_parts evt intent (Portal_ID (Portal_row (portal w)))
             (ConvertedMessage_Timestamp converted)
             (related_row converted
                (map snd (lookups_GetFirstOrSpecificPartByID (new_entries w w'))))
             (ConvertedMessage_Parts converted)
             (send_answers (new_entries w w')))).
  unfold handleRemoteMessage.
  post_auto.
  all: intros w' Hdone Hconv; try discriminate Hdone.
  all: inversion Hdone; subst; clear Hdone.
  all: erewrite new_entries_trace in Hconv by trace_eq;
       erewrite !new_entries_trace by trace_eq.
  all: repeat match goal with
       | H : forallb intent_entry ?t = true |- _ =>
           destruct (intent_entries_send_nothing _ H) as (? & ? & ? & ? & ? & ?);
           clear H
       | H : forallb (part_entry ?rid) ?t = true |- _ =>
           let H1 := fresh in
           pose proof (part_entries_related _ _ H) as (H1 & _);
           destruct (part_entries_convert_nothing _ _ H) as (? & ?); clear H
       end.
  all: try match goal with
       | H : handleRemoteMessage_parts _ _ _ _ _ _ _ _ ?W = Done tt ?w1,
         Ht : trace ?w1 = _ ++ ?t0 |- _ =>
           pose proof (handleRemoteMessage_parts_rows _ _ _ _ _ _ _ _ _ H)
             as (Hl & Hb & Hi);
           rewrite (new_entries_trace W w1 t0 Ht) in Hl, Hb, Hi; simpl portal in Hi
       end.
  all: unfold answers_ConvertMessage, send_answers, inserted, db_writes, saved_parts,
         sent_by, conversion_intents, lookups_GetFirstOrSpecificPartByID in *;
       repeat (progress (rewrite ?flat_map_app in *; simpl in * )).
  all: repeat match goal with
              | H : flat_map _ ?t = [] |- _ => rewrite ?H in *; clear H
              end; simpl in *.
  all: try discriminate Hconv.
  all: inversion Hconv; subst; clear Hconv.
  all: rewrite ?Hportal in *.
  all: unfold message_refs, related_row, found_row.
  all: repeat match goal with
              | H : ConvertedMessage_ReplyTo _ = _ |- _ => rewrite H
              | H : ConvertedMessage_ThreadRoot _ = _ |- _ => rewrite H
              end.
  all: cbn [nth_error option_map map snd fst app].
  all: split; [exact Hl|]. 
  all: split; [reflexivity|].
  all: eexists; split; [reflexivity|].
  all: split; [exact Hb | exact Hi].
Qed.

(** ** The frame of the remote handlers *)

Lemma respects_any_of_id {T A} P (f : Portal -> T) (m : M A) :
  respects P (fun p => p) m -> respects P f m.
Proof.
  intros H w. destruct (H w) as (Hp & t & Ht & Hf). split; eauto.
  simpl in Hp. now rewrite Hp.
Qed.

Lemma getIntentFor_remote sender source :
  respects remote_entry (fun p => p) (getIntentFor sender source).
Proof.
  eapply respects_weaken; [|apply getIntentFor_respects].
  intros [R c r]; destruct c; simpl; auto.
Qed.

Lemma handleRemoteMessage_parts_remote evt intent ts rid replyTo threadRoot parts prev :
  respects remote_entry (fun p => p)
    (handleRemoteMessage_parts evt intent ts rid replyTo threadRoot prev parts).
Proof.
  eapply respects_weaken; [|apply handleRemoteMessage_parts_respects].
  intros [R c r]; destruct c; simpl; auto.
Qed.

Lemma handleRemoteEdit_modified_remote intent ts parts :
  respects remote_entry (fun p => p) (handleRemoteEdit_modified intent ts parts).
Proof. induction parts as [|part rest IH]; simpl; respects_auto. Qed.

Lemma handleRemoteEdit_deleted_remote intent ts parts :
  respects remote_entry (fun p => p) (handleRemoteEdit_deleted intent ts parts).
Proof. induction parts as [|part rest IH]; simpl; respects_auto. Qed.

Create HintDb remote_db.

#[local] Hint Resolve getIntentFor_remote handleRemoteMessage_parts_remote
  handleRemoteEdit_modified_remote handleRemoteEdit_deleted_remote : remote_db.

Ltac remote_auto :=
  repeat first [ solve [eauto with remote_db] | respects_step ].

Lemma handleRemoteMessage_remote source evt :
  respects remote_entry (fun p => p) (handleRemoteMessage source evt).
Proof. unfold handleRemoteMessage. remote_auto. Qed.

Lemma handleRemoteEdit_remote source evt :
  respects remote_entry (fun p => p) (handleRemoteEdit source evt).
Proof. unfold handleRemoteEdit. remote_auto. Qed.

Lemma remote_entries_frame t :
  forallb remote_entry t = true ->
  answers_CreateRoom t = [] /\
  filter (is_SendState_of (fun _ => true)) t = [] /\
  Forall (fun wr => match wr with
                    | WriteMessageInsert _ | WriteMessageUpdate _
                    | WriteMessageDelete _ => True
                    | _ => False
                    end) (db_writes t).
Proof.
  intros H. split; [|split].
  - eapply forallb_flat_map_nil; [|exact H].
    intros [R c r]; destruct c; simpl; auto; discriminate.
  - eapply forallb_filter_nil; [|exact H].
    intros [R c r]; destruct c; simpl; auto; discriminate.
  - induction t as [|[R c r] t IH]; simpl in *; [constructor|].
    apply andb_prop in H as [He H]. specialize (IH H).
    unfold db_writes in *. simpl.
    destruct c; simpl in *; auto; try discriminate; constructor; auto.
Qed.

(** X15. A remote event for a portal that has a room never touches the
    portal or creates a room, whatever its type and whatever the
    collaborators answer, and also when the handler panics. The portal is
    left as it was, and every call made is one of [remote_entry]: a lookup
    or a write in the message table, the resolution of the intent
    ([UserIntent], [GetCachedUserLoginByID], and [GetGhostByID] and
    [UpdateInfoIfNecessary], which may create or refresh a ghost row), the
    conversion of the event, a message sent to Matrix, or a log. So no room
    is created, no state event is sent, and no reaction row and no portal
    row is written. *)
Theorem handleRemoteEvent_frame source evt w :
  MXID (portal w) <> "" ->
  let w' := final (handleRemoteEvent source evt w) in
  let tr := new_entries w w' in
  portal w' = portal w /\
  forallb remote_entry tr = true /\
  answers_CreateRoom tr = [] /\
  filter (is_SendState_of (fun _ => true)) tr = [] /\
  Forall (fun wr => match wr with
                    | WriteMessageInsert _ | WriteMessageUpdate _
                    | WriteMessageDelete _ => True
                    | _ => False
                    end) (db_writes tr).
Proof.
  intros Hm w' tr. subst tr w'.
  assert (Hs : stepped remote_entry (fun p => p) w
                 (final (handleRemoteEvent source evt w))).
  { unfold handleRemoteEvent, bind at 1, get_portal at 1.
    apply String.eqb_neq in Hm. rewrite Hm.
    change (stepped remote_entry (fun p => p) w
              (final (match GetType evt with
                      | RemoteEventUnknown => ret tt
                      | RemoteEventMessage =>
                          assert_type RemoteEventMessage evt (handleRemoteMessage source)
                      | RemoteEventEdit =>
                          assert_type RemoteEventEdit evt (handleRemoteEdit source)
                      | RemoteEventReaction =>
                          assert_type RemoteEventReaction evt (handleRemoteReaction source)
                      | RemoteEventReactionRemove =>
                          assert_type RemoteEventReactionRemove evt
                            (handleRemoteReactionRemove source)
                      | RemoteEventMessageRemove =>
                          assert_type RemoteEventMessageRemove evt
                            (handleRemoteMessageRemove source)
                      end w))).
    revert w Hm.
    cut (respects remote_entry (fun p => p)
           (match GetType evt with
            | RemoteEventUnknown => ret tt
            | RemoteEventMessage =>
                assert_type RemoteEventMessage evt (handleRemoteMessage source)
            | RemoteEventEdit =>
                assert_type RemoteEventEdit evt (handleRemoteEdit source)
            | RemoteEventReaction =>
                assert_type RemoteEventReaction evt (handleRemoteReaction source)
            | RemoteEventReactionRemove =>
                assert_type RemoteEventReactionRemove evt
                  (handleRemoteReactionRemove source)
            | RemoteEventMessageRemove =>
                assert_type RemoteEventMessageRemove evt
                  (handleRemoteMessageRemove source)
            end)).
    { intros H w _. apply H. }
    unfold assert_type, handleRemoteReaction, handleRemoteReactionRemove,
      handleRemoteMessageRemove.
    destruct (GetType evt); respects_auto;
      first [apply handleRemoteMessage_remote | apply handleRemoteEdit_remote]. }
  apply stepped_new_entries in Hs as (Hp & _ & Hf).
  split; [exact Hp|]. split; [exact Hf|]. now apply remote_entries_frame.
Qed.

(** ** The frame of room creation *)

Create HintDb creation_db.

Ltac creation_auto :=
  repeat first [ solve [eauto with creation_db] | respects_step ].

Lemma sendRoomMeta_creation sender ts ty key content :
  respects creation_entry (fun _ : Portal => tt) (sendRoomMeta sender ts ty key content).
Proof. unfold sendRoomMeta. creation_auto. Qed.

#[local] Hint Resolve sendRoomMeta_creation : creation_db.

Lemma UpdateName_creation name sender ts :
  respects creation_entry (fun _ : Portal => tt) (UpdateName name sender ts).
Proof. unfold UpdateName. creation_auto. Qed.

Lemma UpdateTopic_creation topic sender ts :
  respects creation_entry (fun _ : Portal => tt) (UpdateTopic topic sender ts).
Proof. unfold UpdateTopic. creation_auto. Qed.

Lemma UpdateAvatar_creation avatar sender ts :
  respects creation_entry (fun _ : Portal => tt) (UpdateAvatar avatar sender ts).
Proof. unfold UpdateAvatar. creation_auto. Qed.

Lemma UpdateBridgeInfo_creation :
  respects creation_entry (fun _ : Portal => tt) UpdateBridgeInfo.
Proof. unfold UpdateBridgeInfo. creation_auto. Qed.

#[local] Hint Resolve UpdateName_creation UpdateTopic_creation UpdateAvatar_creation
  UpdateBridgeInfo_creation : creation_db.

Lemma UpdateInfo_creation info sender ts :
  respects creation_entry (fun _ : Portal => tt) (UpdateInfo info sender ts).
Proof. unfold UpdateInfo. creation_auto. Qed.

Lemma SyncParticipants_findLogin_creation member logins :
  respects creation_entry (fun _ : Portal => tt) (SyncParticipants_findLogin member logins).
Proof. induction logins; simpl; creation_auto. Qed.

#[local] Hint Resolve SyncParticipants_findLogin_creation : creation_db.

Lemma SyncParticipants_plan_creation members logins source :
  forall ids extra intents,
    respects creation_entry (fun _ : Portal => tt)
      (SyncParticipants_plan members logins source ids extra intents).
Proof. induction members; intros; simpl; creation_auto. Qed.

Lemma SyncParticipants_join_creation room intents :
  forall current,
    respects creation_entry (fun _ : Portal => tt)
      (SyncParticipants_join room intents current).
Proof. induction intents; intros; simpl; creation_auto. Qed.

Lemma SyncParticipants_invite_creation room extra :
  forall current,
    respects creation_entry (fun _ : Portal => tt)
      (SyncParticipants_invite room extra current).
Proof. induction extra; intros; simpl; creation_auto. Qed.

Lemma SyncParticipants_remove_creation room current :
  respects creation_entry (fun _ : Portal => tt) (SyncParticipants_remove room current).
Proof. induction current as [|[m c] rest IH]; simpl; creation_auto. Qed.

#[local] Hint Resolve SyncParticipants_plan_creation
  SyncParticipants_join_creation SyncParticipants_invite_creation
  SyncParticipants_remove_creation : creation_db.

Lemma SyncParticipants_creation members source :
  respects creation_entry (fun _ : Portal => tt) (SyncParticipants members source).
Proof. unfold SyncParticipants. creation_auto. Qed.

#[local] Hint Resolve UpdateInfo_creation SyncParticipants_creation : creation_db.

Lemma CreateMatrixRoom_creation source :
  respects creation_entry (fun _ : Portal => tt) (CreateMatrixRoom source).
Proof. unfold CreateMatrixRoom. creation_auto. Qed.

Lemma creation_entries_frame t :
  forallb creation_entry t = true ->
  send_answers t = [] /\ forallb is_portal_write (db_writes t) = true.
Proof.
  intros H. split.
  - eapply forallb_flat_map_nil; [|exact H].
    intros [R c r]; destruct c; simpl; auto; discriminate.
  - induction t as [|[R c r] t IH]; simpl in *; [reflexivity|].
    apply andb_prop in H as [He H]. specialize (IH H).
    unfold db_writes in *. simpl.
    destruct c; simpl in *; auto; discriminate.
Qed.

(** X16. A remote event for a portal without a room is dropped when it
    does not ask for the room to be created (then nothing at all happens),
    and when the creation of the room fails (then the failure is logged):
    the handler returns, and every call made is one of [creation_entry],
    the calls of room creation, among them [GetGhostByID] and
    [UpdateInfoIfNecessary] for the members of the chat, which may create
    or refresh ghost rows. So no message is sent to Matrix, and no message
    row and no reaction row is written: of the message, reaction and portal
    tables only the portal's is written. *)
Theorem handleRemoteEvent_dropped source evt w :
  MXID (portal w) = "" ->
  ShouldCreatePortal evt = false \/
  (exists e w1, CreateMatrixRoom source w = Done (Some e) w1) ->
  exists w',
    handleRemoteEvent source evt w = Done tt w' /\
    (ShouldCreatePortal evt = false -> w' = w) /\
    forallb creation_entry (new_entries w w') = true /\
    send_answers (new_entries w w') = [] /\
    forallb is_portal_write (db_writes (new_entries w w')) = true.
Proof.
  intros Hm Hc. unfold handleRemoteEvent, bind at 1, get_portal at 1.
  rewrite Hm. simpl String.eqb. cbv iota.
  destruct (ShouldCreatePortal evt) eqn:Hs; simpl.
  - destruct Hc as [Hc | (e & w1 & Hrun)]; [discriminate|].
    pose proof (CreateMatrixRoom_creation source w) as Hstep.
    unfold bind, log, call, ret. rewrite Hrun in *. simpl in *.
    destruct_unit_answers.
    destruct Hstep as (_ & t & Ht & Hf).
    eexists. split; [reflexivity|]. split; [discriminate|].
    erewrite new_entries_trace by (simpl; rewrite Ht, <- app_assoc; reflexivity).
    assert (Hall : forallb creation_entry
                     (t ++ [Called (Log ErrorLevel
                                      "Failed to create portal to handle event") tt])
                   = true)
      by (rewrite forallb_app, Hf; reflexivity).
    split; [exact Hall|]. now apply creation_entries_frame.
  - exists w. unfold bind, ret. simpl. rewrite new_entries_refl. auto.
Qed.

(** ** Membership *)

Lemma map_delete_keys {V} k x (m : list (string * V)) :
  In k (map fst (map_delete x m)) -> In k (map fst m) /\ k <> x.
Proof.
  induction m as [|[k' v] m IH]; simpl; [tauto|].
  destruct (String.eqb x k') eqn:He.
  - intros H. destruct (IH H). auto.
  - simpl. intros [H|H].
    + subst k'. split; auto. intros ->. rewrite String.eqb_refl in He. discriminate.
    + destruct (IH H). auto.
Qed.

Lemma SyncParticipants_findLogin_plans member logins :
  respects plan_entry (fun p => p) (SyncParticipants_findLogin member logins).
Proof. induction logins; simpl; respects_auto. Qed.

Lemma SyncParticipants_plan_plans members logins source :
  forall ids extra intents,
    respects plan_entry (fun p => p)
      (SyncParticipants_plan members logins source ids extra intents).
Proof.
  pose proof SyncParticipants_findLogin_plans.
  induction members; intros; simpl; respects_auto; auto.
Qed.

Lemma SyncParticipants_join_syncs room intents :
  forall current,
    respects sync_entry (fun p => p) (SyncParticipants_join room intents current).
Proof. induction intents; intros; simpl; respects_auto; auto. Qed.

Lemma SyncParticipants_invite_syncs room extra :
  forall current,
    respects sync_entry (fun p => p) (SyncParticipants_invite room extra current).
Proof. induction extra; intros; simpl; respects_auto; auto. Qed.

(** What the first loop hands on: every expected user is the user of one of
    the intents, or one of the users to invite. *)
Lemma SyncParticipants_plan_expected members logins source :
  forall ids extra intents w ids' extra' intents' w',
    incl ids (map GetMXID intents ++ extra) ->
    SyncParticipants_plan members logins source ids extra intents w
      = Done (inr (ids', extra', intents')) w' ->
    incl ids' (map GetMXID intents' ++ extra').
Proof.
  induction members as [|member rest IH];
    intros ids extra intents w ids' extra' intents' w' Hi H; simpl in H.
  - inversion H; subst. auto.
  - unfold bind at 1 in H.
    destruct (SyncParticipants_findLogin member logins w) as [[userIntent ex] w1|];
      [|discriminate].
    unfold bind, call, ret, deref, panic in H. simpl in H.
    destruct (respond (trace w1) (GetGhostByID member)) as [[ghost|] [e|]];
      simpl in H; try discriminate.
    eapply IH; try exact H.
    intros k Hk. rewrite map_app. rewrite !in_app_iff in *. simpl in *.
    destruct Hk as [[Hk|Hk]|[Hk|[]]]; auto.
    apply Hi in Hk. rewrite in_app_iff in Hk. tauto.
Qed.

(** The members left over by the second loop are none of the intents'. *)
Lemma SyncParticipants_join_keys room intents :
  forall current w current' w',
    SyncParticipants_join room intents current w = Done current' w' ->
    forall k, In k (map fst current') ->
      In k (map fst current) /\ ~ In k (map GetMXID intents).
Proof.
  induction intents as [|intent rest IH]; intros current w current' w' H k Hk;
    simpl in H.
  - inversion H; subst. auto.
  - unfold bind at 1 in H.
    match type of H with
    | match ?b w with _ => _ end = _ => destruct (b w) as [[] w1|]; [|discriminate]
    end.
    destruct (IH _ _ _ _ H k Hk) as [H1 H2].
    apply map_delete_keys in H1 as [H1 H3]. split; auto.
    simpl. intros [Heq|Hin]; [congruence | auto].
Qed.

(** The members left over by the third loop are none of the invited. *)
Lemma SyncParticipants_invite_keys room extra :
  forall current w current' w',
    SyncParticipants_invite room extra current w = Done current' w' ->
    forall k, In k (map fst current') ->
      In k (map fst current) /\ ~ In k extra.
Proof.
  induction extra as [|mxid rest IH]; intros current w current' w' H k Hk;
    simpl in H.
  - inversion H; subst. auto.
  - unfold bind at 1 in H.
    match type of H with
    | match ?b w with _ => _ end = _ => destruct (b w) as [[] w1|]; [|discriminate]
    end.
    destruct (IH _ _ _ _ H k Hk) as [H1 H2].
    apply map_delete_keys in H1 as [H1 H3]. split; auto.
    simpl. intros [Heq|Hin]; [congruence | auto].
Qed.

Lemma state_keys_app a b : state_keys (a ++ b) = state_keys a ++ state_keys b.
Proof. apply flat_map_app. Qed.

(** The last loop sends state events for the members it is given only. *)
Lemma SyncParticipants_remove_keys room current :
  forall w, exists tr,
    SyncParticipants_remove room current w = Done tt (extend tr w) /\
    incl (state_keys tr) (map fst current).
Proof.
  induction current as [|[extraMember memberEvt] rest IH]; intros w; simpl.
  - exists []. rewrite extend_nil. split; [reflexivity|]. intros k [].
  - unfold bind, log, call, ret. simpl.
    destruct (_ || _); simpl.
    + destruct (IH w) as (tr & Hrun & Hk). exists tr. split; [exact Hrun|].
      intros k Hin. right. auto.
    + destruct (respond _ (SendState _ _ _ _ _ _)) as [rsp [e|]]; simpl;
        destruct_unit_answers; rewrite ?record_extend, ?extend_extend;
        match goal with
        | |- context [SyncParticipants_remove _ _ (extend ?t w)] =>
            destruct (IH (extend t w)) as (tr & Hrun & Hk); rewrite Hrun;
            exists (t ++ tr); rewrite extend_extend
        end;
        (split; [reflexivity|]);
        rewrite state_keys_app; simpl;
        (intros k [Hin|Hin]; [left; exact Hin | right; auto]).
Qed.

Lemma sync_entries_no_state t :
  forallb sync_entry t = true -> state_keys t = [].
Proof.
  intros H. eapply forallb_flat_map_nil; [|exact H].
  intros [R c r]; destruct c; simpl; auto; discriminate.
Qed.

Lemma plan_entries_sync t :
  forallb plan_entry t = true -> forallb sync_entry t = true.
Proof.
  rewrite !forallb_forall. intros H e He. unfold sync_entry.
  now rewrite (H e He).
Qed.

Ltac keys_norm :=
  unfold state_keys in *;
  repeat (progress (rewrite ?flat_map_app in *; simpl in * ));
  repeat match goal with
         | H : flat_map _ ?t = [] |- _ => rewrite ?H in *; clear H
         end;
  simpl in *.

Ltac post_with lemma :=
  eapply post_respects;
  [ apply lemma
  | let o := fresh "o" in
    let Hrun := fresh "Hrun" in
    let Hp := fresh "Hportal" in
    let t := fresh "t" in
    let Ht := fresh "Ht" in
    let Hf := fresh "Hf" in
    intros o Hrun (Hp & t & Ht & Hf); destruct o; simpl in Hp, Ht ].

(** X18. [SyncParticipants] never removes a user it expects. When it
    returns the list of expected users, every state event it sent (the
    leave events of the last loop) has a state key that is not in that
    list; and it sends none at all when the portal has no room or has a
    relay. *)
Theorem SyncParticipants_spares_expected members source w ids w' :
  SyncParticipants members source w = Done (ids, None) w' ->
  let tr := new_entries w w' in
  (forall k, In k (state_keys tr) -> ~ In k ids) /\
  (MXID (portal w) = "" \/ Portal_Relay (portal w) <> None -> state_keys tr = []).
Proof.
  intros Hrun tr. subst tr. revert ids w' Hrun.
  change (post (SyncParticipants members source) w
    (fun o => forall ids w', o = Done (ids, None) w' ->
       (forall k, In k (state_keys (new_entries w w')) -> ~ In k ids) /\
       (MXID (portal w) = "" \/ Portal_Relay (portal w) <> None ->
        state_keys (new_entries w w') = []))).
  unfold SyncParticipants.
  apply post_get_portal, post_call.
  destruct (respond (trace w) (GetUserLoginsInPortal _)) as [logins [e|]].
  { unfold post, ret. intros ids w' H. discriminate H. }
  post_with SyncParticipants_plan_plans;
    [|intros ids w' H; discriminate H].
  destruct a as [e|[[ids0 extra0] intents0]].
  { unfold post, ret. intros ids w' H. discriminate H. }
  assert (Hi : incl ids0 (map GetMXID intents0 ++ extra0)).
  { eapply SyncParticipants_plan_expected; [|exact Hrun]. intros k []. }
  apply plan_entries_sync, sync_entries_no_state in Hf.
  apply post_get_portal. rewrite Hportal. simpl portal.
  destruct (String.eqb (MXID (portal w)) "") eqn:Hm.
  { unfold post, ret. intros ids w' H. inversion H; subst.
    erewrite new_entries_trace by trace_eq.
    keys_norm. split; [intros k []|auto]. }
  apply post_call.
  destruct (respond _ (GetMembers _)) as [current err].
  post_with SyncParticipants_join_syncs;
    [|intros ids w' H; discriminate H].
  post_with SyncParticipants_invite_syncs;
    [|intros ids w' H; discriminate H].
  apply sync_entries_no_state in Hf0, Hf1.
  destruct (Portal_Relay (portal w)) as [relay|] eqn:Hr.
  - unfold post, bind, ret. intros ids w' H. inversion H; subst.
    erewrite new_entries_trace by trace_eq.
    keys_norm. split; [intros k []|auto].
  - unfold post, bind, ret.
    match goal with
    | |- context [SyncParticipants_remove ?r ?c ?W] =>
        destruct (SyncParticipants_remove_keys r c W) as (tr & Hrm & Hk);
        rewrite Hrm
    end.
    intros ids w' H. inversion H; subst.
    erewrite new_entries_trace by trace_eq.
    assert (Hk' : forall k, In k (state_keys tr) -> In k (map fst a0)) by exact Hk.
    clear Hk. keys_norm. split.
    + intros k Hin Hids. apply Hk' in Hin.
      destruct (SyncParticipants_invite_keys _ _ _ _ Hrun1 k Hin) as [H1 H2].
      destruct (SyncParticipants_join_keys _ _ _ _ Hrun0 k H1) as [H3 H4].
      apply Hi in Hids. rewrite in_app_iff in Hids. tauto.
    + intros [Hn|Hn]; [apply String.eqb_neq in Hm|]; contradiction.
Qed.

(** ** Room creation, when it succeeds *)

Lemma no_room_created_requests t :
  forallb no_room_created t = true -> requests_CreateRoom t = [].
Proof.
  intros H. eapply forallb_flat_map_nil; [|exact H].
  intros [R c r]; destruct c; simpl; auto; discriminate.
Qed.

Lemma map_get_set {V} k (v : V) m : map_get k (map_set k v m) = Some v.
Proof. unfold map_set. simpl. now rewrite String.eqb_refl. Qed.

(** What a run of [CreateMatrixRoom] on a portal without a room leaves. *)
Lemma CreateMatrixRoom_run source w :
  MXID (portal w) = "" ->
  forall o w', CreateMatrixRoom source w = o -> final o = w' ->
  let tr := new_entries w w' in
  (requests_CreateRoom tr = [] \/
   exists req, requests_CreateRoom tr = [req] /\ room_request_of (portal w') req) /\
  (o = Done None w' ->
     exists roomID before,
       answers_CreateRoom tr = [(roomID, None)] /\
       MXID (portal w') = roomID /\
       map_get roomID (portalsByMXID w') = Some (Portal_ID (Portal_row (portal w'))) /\
       Portal_NameSet (Portal_row (portal w')) = true /\
       Portal_TopicSet (Portal_row (portal w')) = true /\
       Portal_AvatarSet (Portal_row (portal w')) = true /\
       tr = before ++ [Called (DB_Portal_Update (Portal_row (portal w'))) None]).
Proof.
  intros Hm o w' Hrun. subst o. revert w'.
  change (post (CreateMatrixRoom source) w
    (fun o => forall w', final o = w' ->
       (requests_CreateRoom (new_entries w w') = [] \/
        exists req, requests_CreateRoom (new_entries w w') = [req] /\
                    room_request_of (portal w') req) /\
       (o = Done None w' ->
          exists roomID before,
            answers_CreateRoom (new_entries w w') = [(roomID, None)] /\
            MXID (portal w') = roomID /\
            map_get roomID (portalsByMXID w')
              = Some (Portal_ID (Portal_row (portal w'))) /\
            Portal_NameSet (Portal_row (portal w')) = true /\
            Portal_TopicSet (Portal_row (portal w')) = true /\
            Portal_AvatarSet (Portal_row (portal w')) = true /\
            new_entries w w'
              = before ++ [Called (DB_Portal_Update (Portal_row (portal w'))) None]))).
  unfold CreateMatrixRoom.
  apply post_get_portal. rewrite Hm. simpl negb. cbv iota.
  post_auto.
  all: intros w' Hw; simpl final in Hw.
  all: match goal with
       | |- context [new_entries ?W0 ?W] =>
           let L := fresh "L" in
           evar (L : Trace);
           assert (HL : trace W = trace W0 ++ L) by (subst W L; trace_eq);
           rewrite (new_entries_trace W0 W L HL); subst L
       end.
  all: repeat match goal with
       | H : forallb no_room_created ?t = true |- _ =>
           pose proof (no_room_created_requests _ H);
           apply no_room_created_answers in H
       end.
  all: split.
  (* the requests made *)
  all: try solve
    [ unfold requests_CreateRoom in *;
      repeat (progress (rewrite ?flat_map_app; simpl));
      repeat match goal with
             | H : flat_map _ ?t = [] |- _ => rewrite ?H; clear H
             end;
      first
        [ left; reflexivity
        | right; eexists; split; [reflexivity|];
          subst; unfold room_request_of, initial_state_types; simpl;
          repeat match goal with
                 | H : Portal_Parent _ = _ |- _ => rewrite H
                 end;
          repeat match goal with
                 | H : respond _ _ = _ |- _ => clear H
                 end;
          repeat match goal with
                 | |- context [String.eqb ?a ""] => destruct (String.eqb a "")
                 end;
          simpl; repeat split; repeat constructor; discriminate ] ].
  (* the successful run *)
  all: intros Hdone; try discriminate Hdone.
  all: clear Hdone.
  all: match goal with
       | Hw : record (Called (DB_Portal_Update _) _) ?W0 = _ |- _ =>
           assert (exists tr0, trace W0 = trace w ++ tr0) as [tr0 Htr0]
             by (eexists; trace_eq);
           eexists; exists tr0
       end.
  all: split;
    [ unfold answers_CreateRoom in *;
      repeat (progress (rewrite ?flat_map_app; simpl));
      repeat match goal with
             | H : flat_map _ ?t = [] |- _ => rewrite ?H; clear H
             end;
      reflexivity |].
  all: split; [subst; reflexivity|].
  all: split; [subst; simpl; apply map_get_set|].
  all: do 3 (split; [subst; reflexivity|]).
  all: apply (app_inv_head (trace w)); rewrite <- HL; subst; simpl;
       simpl in Htr0; rewrite Htr0, <- !app_assoc; reflexivity.
Qed.

(** X19. When [CreateMatrixRoom], called on a portal without a room,
    returns without error, exactly one room was created, and the portal is
    left consistent with it: it has the id of the new room, it is
    registered under that id in the bridge's room index, name, topic and
    avatar count as published, and the last thing done was to save the
    portal's row in this final state. *)
Theorem CreateMatrixRoom_success source w w' :
  MXID (portal w) = "" ->
  CreateMatrixRoom source w = Done None w' ->
  let tr := new_entries w w' in
  exists roomID before,
    answers_CreateRoom tr = [(roomID, None)] /\
    MXID (portal w') = roomID /\
    map_get roomID (portalsByMXID w') = Some (Portal_ID (Portal_row (portal w'))) /\
    Portal_NameSet (Portal_row (portal w')) = true /\
    Portal_TopicSet (Portal_row (portal w')) = true /\
    Portal_AvatarSet (Portal_row (portal w')) = true /\
    tr = before ++ [Called (DB_Portal_Update (Portal_row (portal w'))) None].
Proof.
  intros Hm Hrun tr. subst tr.
  destruct (@CreateMatrixRoom_run source w Hm (Done None w') w' Hrun eq_refl)
    as [_ H].
  exact (H eq_refl).
Qed.

(** X20. The room that [CreateMatrixRoom] asks for. On a portal without a
    room it makes at most one [CreateRoom] request, and that request is
    private, with the preset [private_chat], carries the name and topic the
    portal has in the end, invites exactly the initial members with
    auto-join, gives the bot power level 9001, and has as initial state, in
    this order: the functional members, an empty topic event if the portal
    has no topic, the avatar if the portal has one, and the parent space if
    the portal has a parent; all of them state events. *)
Theorem CreateMatrixRoom_request source w :
  MXID (portal w) = "" ->
  let w' := final (CreateMatrixRoom source w) in
  let tr := new_entries w w' in
  requests_CreateRoom tr = [] \/
  exists req, requests_CreateRoom tr = [req] /\ room_request_of (portal w') req.
Proof.
  intros Hm w' tr. subst tr w'.
  exact (proj1 (@CreateMatrixRoom_run source w Hm _ _ eq_refl eq_refl)).
Qed.

(** ** Ephemeral events *)

Lemma error_only_last_app a b :
  no_error a = true -> error_only_last (a ++ b) = error_only_last b.
Proof.
  induction a as [|[e|] a IH]; simpl; auto. discriminate.
Qed.

Lemma no_error_app a b : no_error (a ++ b) = no_error a && no_error b.
Proof. apply forallb_app. Qed.

Lemma lookup_errors_app a b : lookup_errors (a ++ b) = lookup_errors a ++ lookup_errors b.
Proof. apply flat_map_app. Qed.

Lemma no_error_only_last a : no_error a = true -> error_only_last a = true.
Proof. induction a as [|[e|] a IH]; simpl; auto. discriminate. Qed.

(** The inner loop: one lookup per receipt until one fails. *)
Lemma handleMatrixReceipts_users_run evtID readReceipts :
  forall w, exists b tr,
    handleMatrixReceipts_users evtID readReceipts w = Done b (extend tr w) /\
    forallb is_GetUserByMXID tr = true /\
    length tr <= length readReceipts /\
    no_error (lookup_errors tr) = b /\
    error_only_last (lookup_errors tr) = true.
Proof.
  induction readReceipts as [|[userID receipt] rest IH]; intros w; simpl.
  - exists true, []. rewrite extend_nil. auto.
  - unfold bind, call, ret, handleMatrixReadReceipt. simpl.
    destruct (respond (trace w) (GetUserByMXID userID)) as [sender [e|]]; simpl.
    + exists false. eexists. rewrite record_extend.
      split; [reflexivity|]. simpl. repeat split; auto. lia.
    + rewrite record_extend.
      destruct (IH (extend [Called (GetUserByMXID userID) (sender, None)] w))
        as (b & tr & Hrun & Hf & Hl & Hb & He).
      rewrite Hrun. exists b. eexists. rewrite extend_extend.
      split; [reflexivity|]. simpl. repeat split; auto. lia.
Qed.

(** The outer loop: nothing more is looked up once a lookup has failed. *)
Lemma handleMatrixReceipts_events_run content :
  forall w, exists tr,
    handleMatrixReceipts_events content w = Done tt (extend tr w) /\
    forallb is_GetUserByMXID tr = true /\
    length tr <= read_receipts content /\
    error_only_last (lookup_errors tr) = true.
Proof.
  induction content as [|[evtID receipts] rest IH]; intros w; simpl.
  - exists []. rewrite extend_nil. auto.
  - unfold read_receipts in *. simpl.
    destruct (ReceiptType_get receipts) as [readReceipts|].
    + unfold bind.
      destruct (handleMatrixReceipts_users_run evtID readReceipts w)
        as (b & tr & Hrun & Hf & Hl & Hb & He).
      rewrite Hrun. destruct b.
      * destruct (IH (extend tr w)) as (tr' & Hrun' & Hf' & Hl' & He').
        rewrite Hrun'. exists (tr ++ tr'). rewrite extend_extend.
        split; [reflexivity|]. rewrite forallb_app, Hf, Hf', length_app.
        repeat split; auto; [lia|].
        rewrite lookup_errors_app, error_only_last_app; auto.
      * exists tr. unfold ret. repeat split; auto. lia.
    + destruct (IH w) as (tr' & Hrun' & Hf' & Hl' & He'). exists tr'. auto.
Qed.

(** X7. An ephemeral event never reaches the message handlers: it is
    handled without looking for a login, and [handleMatrixEvent] returns.
    The only calls are lookups of users by MXID, at most one for each read
    receipt of the event, and none after a lookup that failed; the portal's
    row, parent and relay are left as they are. *)
Theorem handleMatrixEvent_ephemeral sender evt w :
  Z.land (Event_EventSource evt) SourceEphemeral <> 0%Z ->
  exists w',
    handleMatrixEvent sender evt w = Done tt w' /\
    let tr := new_entries w w' in
    forallb is_GetUserByMXID tr = true /\
    error_only_last (lookup_errors tr) = true /\
    match Content_Parsed (Event_Content evt) with
    | Some (ParsedReceipt content) => length tr <= read_receipts content
    | _ => tr = []
    end /\
    Portal_row (portal w') = Portal_row (portal w) /\
    Portal_Parent (portal w') = Portal_Parent (portal w) /\
    Portal_Relay (portal w') = Portal_Relay (portal w).
Proof.
  intros Hsrc. unfold handleMatrixEvent.
  apply Z.eqb_neq in Hsrc. rewrite Hsrc.
  change (negb false) with true. cbv iota.
  assert (Hnone : exists w', ret tt w = Done tt w' /\
            let tr := new_entries w w' in
            forallb is_GetUserByMXID tr = true /\
            error_only_last (lookup_errors tr) = true /\
            match Content_Parsed (Event_Content evt) with
            | Some (ParsedReceipt content) => length tr <= read_receipts content
            | _ => tr = []
            end /\
            Portal_row (portal w') = Portal_row (portal w) /\
            Portal_Parent (portal w') = Portal_Parent (portal w) /\
            Portal_Relay (portal w') = Portal_Relay (portal w)).
  { exists w. split; [reflexivity|]. simpl. rewrite new_entries_refl.
    repeat split; auto. destruct (Content_Parsed _) as [[]|]; simpl; auto. lia. }
  destruct (Event_Type evt); try exact Hnone;
    unfold handleMatrixReceipts, handleMatrixTyping;
    (destruct (Content_Parsed (Event_Content evt)) as [[]|]; try exact Hnone);
    cbv beta iota.
  - (* receipts *)
    match goal with
    | |- context [handleMatrixReceipts_events ?content w] =>
        destruct (handleMatrixReceipts_events_run content w)
          as (tr & Hrun & Hf & Hl & He)
    end.
    rewrite Hrun. eexists. split; [reflexivity|]. simpl.
    rewrite new_entries_extend. repeat split; auto.
  - (* typing *)
    unfold bind, get_portal, set_portal. eexists. split; [reflexivity|]. simpl.
    unfold new_entries; simpl. rewrite skipn_all. repeat split; auto.
Qed.

Lemma sort_insert_Permutation x l : Permutation (x :: l) (sort_insert x l).
Proof.
  induction l as [|y l IH]; simpl; auto.
  destruct (String.leb x y); auto.
  eapply perm_trans; [apply perm_swap|]. auto.
Qed.

Lemma slices_Sort_Permutation l : Permutation l (slices_Sort l).
Proof.
  induction l as [|x l IH]; simpl; auto.
  eapply perm_trans; [|apply sort_insert_Permutation]. auto.
Qed.

Lemma sort_insert_Sorted x l :
  Sorted (fun a b => String.leb a b = true) l ->
  Sorted (fun a b => String.leb a b = true) (sort_insert x l).
Proof.
  induction l as [|y l IH]; simpl; intros Hs.
  - repeat constructor.
  - destruct (String.leb x y) eqn:Hxy.
    + constructor; auto.
    + inversion Hs as [|? ? Hs' Hhd]; subst. constructor; auto.
      destruct l as [|z l]; simpl in *.
      * constructor. destruct (String.leb_total x y); congruence.
      * destruct (String.leb x z).
        -- constructor. destruct (String.leb_total x y); congruence.
        -- inversion Hhd; subst. constructor. auto.
Qed.

Lemma slices_Sort_Sorted l :
  Sorted (fun a b => String.leb a b = true) (slices_Sort l).
Proof.
  induction l as [|x l IH]; simpl; [constructor|]. now apply sort_insert_Sorted.
Qed.

(** X8. A typing event leaves [currentlyTyping] sorted: after
    [handleMatrixTyping] the field holds exactly the users of the event,
    each as often as in the event, in ascending order. Nothing is called,
    and nothing else of the portal changes. *)
Theorem handleMatrixTyping_sorted evt ids w :
  Content_Parsed (Event_Content evt) = Some (ParsedTyping ids) ->
  exists w',
    handleMatrixTyping evt w = Done tt w' /\
    trace w' = trace w /\
    Portal_row (portal w') = Portal_row (portal w) /\
    Permutation ids (Portal_currentlyTyping (portal w')) /\
    Sorted (fun a b => String.leb a b = true) (Portal_currentlyTyping (portal w')).
Proof.
  intros Hc. unfold handleMatrixTyping. rewrite Hc.
  unfold bind, get_portal, set_portal. eexists. split; [reflexivity|]. simpl.
  repeat split; auto using slices_Sort_Permutation, slices_Sort_Sorted.
Qed.

(** ** The avatar *)

(** X27. Removing the avatar. When the avatar info asks for removal and
    is not the one already published, [UpdateAvatar] returns true, stores
    the avatar id, clears the avatar's URI and hash without asking for an
    upload, and, if the portal has a room, first sends a room avatar event
    with the empty URI as the sender; [AvatarSet] is true exactly when a
    state event was sent and the last one was accepted. *)
Theorem UpdateAvatar_remove avatar sender ts w :
  Avatar_Remove avatar = true ->
  String.eqb (Portal_AvatarID (Portal_row (portal w))) (Avatar_ID avatar)
  && (Portal_AvatarSet (Portal_row (portal w)) || String.eqb (MXID (portal w)) "")
  = false ->
  exists w',
    UpdateAvatar avatar sender ts w = Done true w' /\
    let tr := new_entries w w' in
    Portal_AvatarID (Portal_row (portal w')) = Avatar_ID avatar /\
    Portal_AvatarMXC (Portal_row (portal w')) = "" /\
    Portal_AvatarHash (Portal_row (portal w')) = zeroHash /\
    answers_Reupload tr = [] /\
    Portal_AvatarSet (Portal_row (portal w')) = last_send_accepted tr /\
    match tr with
    | [] => MXID (portal w) = ""
    | first :: _ =>
        exists intent r,
          first = Called (SendState intent (MXID (portal w)) event.StateRoomAvatar ""
                            {| Content_Parsed := Some (ParsedRoomAvatar "");
                               Content_Raw := None |} ts) r /\
          intent = match sender with
                   | Some g =>
                       IntentFor g
                         (with_row (set_AvatarHash zeroHash)
                            (with_row (set_AvatarMXC "")
                               (with_row (set_AvatarID (Avatar_ID avatar))
                                  (portal w))))
                   | None => Bot
                   end
    end.
Proof.
  intros Hrm Hch.
  remember (UpdateAvatar avatar sender ts w) as o eqn:Ho.
  unfold UpdateAvatar in Ho. unfold bind at 1, get_portal at 1 in Ho.
  rewrite Hch, Hrm in Ho.
  unfold sendRoomMeta, assign, bind, get_portal, set_portal, log, call, ret in Ho.
  unfold MXID in *. simpl in Ho.
  destruct (String.eqb (Portal_MXID (Portal_row (portal w))) "") eqn:Hm; simpl in Ho.
  - subst o. eexists. split; [reflexivity|]. simpl.
    rewrite new_entries_trace with (tr := []) by (simpl; now rewrite app_nil_r).
    repeat split; auto. now apply String.eqb_eq.
  - repeat first
      [ rewrite Hm in Ho
      | progress simpl in Ho
      | match type of Ho with
        | context [let (_, _) := respond ?t ?c in _] =>
            destruct (respond t c) as [? ?]
        | context [if ?b then _ else _] => destruct b eqn:?
        | context [match ?x with Some _ => _ | None => _ end] =>
            is_var x; destruct x
        end ].
    all: subst o; unfold log, call; destruct_unit_answers.
    all: eexists; (split; [reflexivity|]); simpl.
    all: erewrite !new_entries_trace by solve_trace; simpl.
    all: repeat split; auto.
    all: do 2 eexists; split; reflexivity.
Qed.

(** ** The event queue *)

Lemma firstn_succ_sub {A} n len (a : A) l :
  len < n -> firstn (n - len) (a :: l) = a :: firstn (n - S len) l.
Proof.
  intros H. replace (n - len) with (S (n - S len)) by lia. reflexivity.
Qed.

Lemma queue_all_run evts :
  forall events w,
    length events <= PortalEventBuffer ->
    queue_all evts events w
      = Done (events ++ firstn (PortalEventBuffer - length events) evts)
             (extend
                (repeat (Called (Log ErrorLevel "Portal event channel is full") tt)
                        (length evts - (PortalEventBuffer - length events)))
                w).
Proof.
  induction evts as [|evt rest IH]; intros events w Hlen.
  - simpl. now rewrite firstn_nil, app_nil_r, extend_nil.
  - simpl queue_all. unfold bind at 1, queueEvent.
    destruct (Nat.ltb (length events) PortalEventBuffer) eqn:Hlt.
    + apply Nat.ltb_lt in Hlt. unfold ret at 1.
      rewrite IH by (rewrite length_app; simpl; lia).
      rewrite length_app. cbn [length]. rewrite Nat.add_1_r.
      rewrite (firstn_succ_sub evt rest Hlt), <- app_assoc. cbn [app].
      do 3 f_equal. lia.
    + apply Nat.ltb_ge in Hlt.
      unfold bind, log, call, ret.
      destruct (respond (trace w) (Log ErrorLevel "Portal event channel is full")).
      rewrite record_extend, IH by exact Hlen. rewrite extend_extend.
      replace (PortalEventBuffer - length events) with 0 by lia.
      rewrite !Nat.sub_0_r. reflexivity.
Qed.

(** X26. The event queue is bounded and keeps its order. Queueing never
    blocks and never fails: starting from a channel within its capacity of
    64 events, with nothing received in between, the events are appended
    in order until the channel holds 64; every later event is dropped, with
    one error log each, and the channel and the portal stay as they are. *)
Theorem queueEvent_bounded evts events w :
  length events <= PortalEventBuffer ->
  exists w',
    queue_all evts events w
      = Done (events ++ firstn (PortalEventBuffer - length events) evts) w' /\
    length (events ++ firstn (PortalEventBuffer - length events) evts)
      <= PortalEventBuffer /\
    portal w' = portal w /\
    new_entries w w'
      = repeat (Called (Log ErrorLevel "Portal event channel is full") tt)
               (length evts - (PortalEventBuffer - length events)).
Proof.
  intros Hlen. eexists. split; [apply queue_all_run; exact Hlen|].
  split.
  - rewrite length_app, length_firstn. lia.
  - split; [reflexivity|]. apply new_entries_extend.
Qed.


(** ** The registry *)

Section RegistryProperties.

Context {store : Store}.

Lemma nth_error_heap_update p f h q :
  nth_error (heap_update p f h) q =
  if Nat.eqb p q then option_map f (nth_error h q) else nth_error h q.
Proof.
  revert p q. induction h as [|o h IH]; intros [|p] [|q]; simpl; auto.
  now destruct (Nat.eqb p q).
Qed.

Lemma same_rows_refl h : same_rows h h.
Proof. intros p o Ho. eauto. Qed.

Lemma same_rows_trans a b c : same_rows a b -> same_rows b c -> same_rows a c.
Proof.
  intros H1 H2 p o Ho. destruct (H1 p o Ho) as (o1 & Ho1 & Hr1).
  destruct (H2 p o1 Ho1) as (o2 & Ho2 & Hr2). exists o2. split; congruence.
Qed.

Lemma nth_error_snoc {A} (h : list A) o :
  nth_error (h ++ [o]) (length h) = Some o.
Proof. rewrite nth_error_app2, Nat.sub_diag; auto. Qed.

Lemma nth_error_old {A} (h : list A) o p x :
  nth_error h p = Some x -> nth_error (h ++ [o]) p = Some x.
Proof.
  intros H. rewrite nth_error_app1; auto. apply nth_error_Some. congruence.
Qed.

Lemma same_rows_snoc h o : same_rows h (h ++ [o]).
Proof. intros p x Hx. exists x. split; auto. now apply nth_error_old. Qed.

Lemma same_rows_update h p f :
  (forall o, Object_row (f o) = Object_row o) ->
  same_rows h (heap_update p f h).
Proof.
  intros Hf q o Ho. rewrite nth_error_heap_update, Ho.
  destruct (Nat.eqb p q); simpl; eauto.
Qed.

Lemma heap_update_new h o f :
  heap_update (length h) f (h ++ [o]) = h ++ [f o].
Proof. induction h as [|x h IH]; simpl; auto. now rewrite IH. Qed.

Lemma set_Parent_row parent o : Object_row (set_Parent parent o) = Object_row o.
Proof. reflexivity. Qed.

Lemma start_eventLoop_row o : Object_row (start_eventLoop o) = Object_row o.
Proof. reflexivity. Qed.

Ltac rows :=
  lazymatch goal with
  | |- same_rows ?h ?h => apply same_rows_refl
  | |- same_rows ?h (heap_update ?p ?f ?h') =>
      apply same_rows_trans with h';
      [ rows
      | apply same_rows_update;
        first [apply set_Parent_row | apply start_eventLoop_row] ]
  | |- same_rows ?h (?h' ++ [_]) =>
      apply same_rows_trans with h'; [rows | apply same_rows_snoc]
  | |- same_rows _ _ => eassumption
  end.

Lemma extends_heap_refl br : extends_heap br br.
Proof. split; auto using same_rows_refl. Qed.

Lemma extends_heap_trans a b c :
  extends_heap a b -> extends_heap b c -> extends_heap a c.
Proof.
  intros [Hi1 H1] [Hi2 H2]. split; [congruence|]. eapply same_rows_trans; eauto.
Qed.

Lemma map_get_set_other {V} k k' (v : V) m :
  k <> k' -> map_get k (map_set k' v m) = map_get k m.
Proof.
  intros Hne. unfold map_set. simpl.
  destruct (String.eqb k k') eqn:He; [apply String.eqb_eq in He; contradiction|].
  induction m as [|[k2 v2] m IH]; simpl; auto.
  destruct (String.eqb k' k2) eqn:H2; simpl.
  - apply String.eqb_eq in H2. subst k2.
    destruct (String.eqb k k') eqn:H3; [discriminate|]. exact IH.
  - destruct (String.eqb k k2); auto.
Qed.

Lemma map_get_set_cases {V} k k' (v : V) m r :
  map_get k (map_set k' v m) = Some r ->
  (k = k' /\ r = v) \/ (k <> k' /\ map_get k m = Some r).
Proof.
  destruct (String.eqb k k') eqn:He.
  - apply String.eqb_eq in He. subst k'. rewrite map_get_set.
    intros H; inversion H. auto.
  - apply String.eqb_neq in He. rewrite map_get_set_other by exact He. auto.
Qed.

(** Consistency depends on the caches and on the rows only. *)
Lemma cache_ok_rows br br2 :
  cache_ok br -> same_rows (heap br) (heap br2) ->
  Bridge_portalsByID br2 = Bridge_portalsByID br ->
  Bridge_portalsByMXID br2 = Bridge_portalsByMXID br ->
  cache_ok br2.
Proof.
  intros [Hid Hmx] Hrows Ei Em. split; intros k p Hk.
  - rewrite Ei in Hk. destruct (Hid k p Hk) as (x & Hx & Hxk).
    destruct (Hrows p x Hx) as (y & Hy & Hyr). exists y. split; congruence.
  - rewrite Em in Hk. destruct (Hmx k p Hk) as (x & Hx & Hxk).
    destruct (Hrows p x Hx) as (y & Hy & Hyr). exists y. split; congruence.
Qed.

(** The bridge after [loadPortal] has allocated and cached the portal for
    [row]. *)
Lemma cache_ok_register br row o :
  cache_ok br -> Object_row o = row ->
  cache_ok
    {| Bridge_ID := Bridge_ID br;
       heap := heap br ++ [o];
       Bridge_portalsByID :=
         map_set (Portal_ID row) (length (heap br)) (Bridge_portalsByID br);
       Bridge_portalsByMXID :=
         if negb (String.eqb (Portal_MXID row) "")
         then map_set (Portal_MXID row) (length (heap br)) (Bridge_portalsByMXID br)
         else Bridge_portalsByMXID br;
       asked := asked br |}.
Proof.
  intros [Hid Hmx] Hrow. split; simpl.
  - intros k p Hk. apply map_get_set_cases in Hk as [[-> ->]|[Hne Hk]].
    + exists o. rewrite nth_error_snoc. split; congruence.
    + destruct (Hid k p Hk) as (x & Hx & Hxk). exists x. split; auto.
      now apply nth_error_old.
  - intros k p Hk. destruct (negb (String.eqb (Portal_MXID row) "")).
    + apply map_get_set_cases in Hk as [[-> ->]|[Hne Hk]].
      * exists o. rewrite nth_error_snoc. split; congruence.
      * destruct (Hmx k p Hk) as (x & Hx & Hxk). exists x. split; auto.
        now apply nth_error_old.
    + destruct (Hmx k p Hk) as (x & Hx & Hxk). exists x. split; auto.
      now apply nth_error_old.
Qed.

Lemma loadPortal_with_keeps lookup :
  (forall id onlyIfExists, lookup_keeps (lookup id onlyIfExists)) ->
  forall dbPortal queryErr id,
    lookup_keeps (loadPortal_with lookup dbPortal queryErr id).
Proof.
  intros Hlookup dbPortal queryErr id br r br' Hrun Hok.
  unfold loadPortal_with in Hrun.
  destruct queryErr as [e|].
  { inversion Hrun; subst. simpl. auto using extends_heap_refl. }
  assert (Htail : forall row br1,
    cache_ok br1 -> extends_heap br br1 ->
    reg_bind (alloc {| Object_row := row; Object_Parent := None;
                       Object_looping := false |})
      (fun portal =>
         reg_bind (cache_ID (Portal_ID row) portal)
           (fun _ =>
              reg_bind (if negb (String.eqb (Portal_MXID row) "")
                        then cache_MXID (Portal_MXID row) portal
                        else reg_ret tt)
                (fun _ =>
                   reg_bind
                     (if negb (String.eqb (Portal_ParentID row) "") then
                        reg_bind (lookup (Portal_ParentID row) false)
                          (fun x => match x with
                                    | (parent, err) =>
                                        reg_bind (update portal (set_Parent parent))
                                          (fun _ =>
                                             match err with
                                             | Some e =>
                                                 reg_ret (Some (FailedParent
                                                                  (Portal_ParentID row) e))
                                             | None => reg_ret None
                                             end)
                                    end)
                      else reg_ret None)
                     (fun err =>
                        match err with
                        | Some e => reg_ret (None, Some e)
                        | None =>
                            reg_bind (update portal start_eventLoop)
                              (fun _ => reg_ret (Some portal, None))
                        end)))) br1 = Some (r, br') ->
    cache_ok br' /\ extends_heap br br' /\ lookup_result br' r).
  { clear Hrun. intros row br1 Hok1 [Hid1 Hrows1] Hrun.
    unfold reg_bind at 1 2 3 in Hrun. unfold alloc, cache_ID in Hrun.
    set (o := {| Object_row := row; Object_Parent := None; Object_looping := false |}) in *.
    pose proof (@cache_ok_register br1 row o Hok1 eq_refl) as Hok2.
    destruct (negb (String.eqb (Portal_MXID row) "")); simpl in Hrun, Hok2;
      unfold reg_bind at 1 in Hrun;
      destruct (negb (String.eqb (Portal_ParentID row) "")); simpl in Hrun;
      cbv [reg_bind] in Hrun; simpl in Hrun;
      lazymatch type of Hrun with
      | context [lookup _ _ ?b] =>
          destruct (lookup (Portal_ParentID row) false b) as [[[parent err] br3]|] eqn:Hr;
            [|discriminate Hrun];
          destruct (Hlookup _ _ _ _ _ Hr Hok2) as (Hok3 & [Hid3 Hrows3] & Hres3);
          simpl in Hid3, Hrows3;
          destruct (Hrows3 (length (heap br1)) o (nth_error_snoc _ _)) as (x & Hx & _);
          assert (Hb3 : same_rows (heap br) (heap br3))
            by (eapply same_rows_trans; [exact Hrows1|];
                eapply same_rows_trans; [apply same_rows_snoc | exact Hrows3]);
          cbv [reg_bind update reg_ret] in Hrun; simpl in Hrun;
          destruct err as [e|]; inversion Hrun; subst; clear Hrun;
          (split; [eapply cache_ok_rows; [exact Hok3 | simpl; rows | reflexivity
                                          | reflexivity]|]);
          (split; [split; [simpl; congruence | simpl; rows]|]);
          simpl; auto;
          rewrite !nth_error_heap_update, Nat.eqb_refl, Hx; simpl; eauto
      | _ =>
          cbv [reg_bind update reg_ret] in Hrun; simpl in Hrun;
          inversion Hrun; subst; clear Hrun;
          (split; [eapply cache_ok_rows; [exact Hok2 | simpl; rows | reflexivity
                                          | reflexivity]|]);
          (split; [split; [simpl; congruence | simpl; rows]|]);
          simpl; rewrite nth_error_heap_update, Nat.eqb_refl, nth_error_snoc;
          simpl; eauto
      end. }
  unfold reg_bind at 1 in Hrun.
  destruct dbPortal as [row|].
  - simpl in Hrun. eapply Htail; eauto using extends_heap_refl.
  - destruct id as [id|].
    + unfold reg_bind at 1 2 in Hrun. unfold get_bridge, ask in Hrun.
      cbv beta iota zeta in Hrun.
      destruct (answer (asked br) (Portal_Insert _)) as [e|];
        unfold reg_ret at 1 in Hrun; cbv beta iota in Hrun.
      * inversion Hrun; subst. simpl.
        repeat split; auto; try apply Hok. apply same_rows_refl.
      * eapply Htail; [| |exact Hrun]; [exact Hok|].
        split; [reflexivity|]. apply same_rows_refl.
    + simpl in Hrun. inversion Hrun; subst. simpl.
      auto using extends_heap_refl.
Qed.

Lemma unlockedGetPortalByID_keeps fuel :
  forall id onlyIfExists, lookup_keeps (unlockedGetPortalByID fuel id onlyIfExists).
Proof.
  induction fuel as [|fuel IH]; intros id onlyIfExists br r br' Hrun Hok;
    simpl in Hrun; unfold reg_bind, get_bridge in Hrun; simpl in Hrun;
    destruct (map_get id (Bridge_portalsByID br)) as [cached|] eqn:Hc.
  - inversion Hrun; subst. split; [exact Hok|]. split; [apply extends_heap_refl|].
    simpl. destruct (proj1 Hok _ _ Hc) as (o & Ho & _). eauto.
  - discriminate Hrun.
  - inversion Hrun; subst. split; [exact Hok|]. split; [apply extends_heap_refl|].
    simpl. destruct (proj1 Hok _ _ Hc) as (o & Ho & _). eauto.
  - unfold ask in Hrun. simpl in Hrun.
    destruct (answer (asked br) (Portal_GetByID id)) as [db err].
    destruct (@loadPortal_with_keeps (unlockedGetPortalByID fuel) IH db err _ _ _ _
                Hrun Hok) as (H1 & [H2 H2'] & H3).
    split; [exact H1|]. split; [|exact H3]. split; [exact H2 | exact H2'].
Qed.

(** X21. The lookups keep the caches consistent. If every entry of
    [portalsByID] and [portalsByMXID] points to an allocated portal whose row
    has the entry's key, this still holds after [GetPortalByID],
    [GetExistingPortalByID] and [GetPortalByMXID], whatever the store
    answers and also when the lookup fails; portals are only added, the
    rows of the portals there are stay as they are; and the result is an
    allocated portal without error, or no portal. *)
Theorem lookups_keep_caches fuel id mxid :
  lookup_keeps (GetPortalByID fuel id) /\
  lookup_keeps (GetExistingPortalByID fuel id) /\
  lookup_keeps (GetPortalByMXID fuel mxid).
Proof.
  split; [apply unlockedGetPortalByID_keeps|].
  split; [apply unlockedGetPortalByID_keeps|].
  intros br r br' Hrun Hok.
  unfold GetPortalByMXID, reg_bind, get_bridge in Hrun. simpl in Hrun.
  destruct (map_get mxid (Bridge_portalsByMXID br)) as [cached|] eqn:Hc.
  - inversion Hrun; subst. split; [exact Hok|]. split; [apply extends_heap_refl|].
    simpl. destruct (proj2 Hok _ _ Hc) as (o & Ho & _). eauto.
  - unfold ask in Hrun. simpl in Hrun.
    destruct (answer (asked br) (Portal_GetByMXID mxid)) as [db err].
    unfold loadPortal in Hrun.
    destruct (@loadPortal_with_keeps (unlockedGetPortalByID fuel)
                (unlockedGetPortalByID_keeps fuel) db err _ _ _ _ Hrun Hok)
      as (H1 & [H2 H2'] & H3).
    split; [exact H1|]. split; [|exact H3]. split; [exact H2 | exact H2'].
Qed.

(** X22. A lookup by id of a portal that is neither cached nor stored.
    [GetExistingPortalByID] returns no portal and no error, after the one
    query, and leaves the bridge as it was. [GetPortalByID] inserts a row
    with the bridge's id and the portal's id and nothing else: if the
    insert fails it returns that failure and leaves heap and caches as they
    were; otherwise it returns a new portal with that row, without parent
    and with its event loop started, cached under its id and under no room
    id, and the next lookup of the id returns this portal without a query. *)
Theorem lookup_of_missing_row fuel id br :
  map_get id (Bridge_portalsByID br) = None ->
  answer (asked br) (Portal_GetByID id) = (None, None) ->
  let br1 := with_asked br [Answered (Portal_GetByID id) (None, None)] in
  let row := new_row (Bridge_ID br) id in
  GetExistingPortalByID (S fuel) id br = Some ((None, None), br1) /\
  match answer (asked br1) (Portal_Insert row) with
  | Some e =>
      GetPortalByID (S fuel) id br =
        Some ((None, Some (FailedInsert e)),
              with_asked br1 [Answered (Portal_Insert row) (Some e)])
  | None =>
      let br2 :=
        with_portal (with_asked br1 [Answered (Portal_Insert row) None])
          {| Object_row := row; Object_Parent := None; Object_looping := true |} in
      GetPortalByID (S fuel) id br = Some ((Some (length (heap br)), None), br2) /\
      forall fuel',
        GetPortalByID fuel' id br2 = Some ((Some (length (heap br)), None), br2)
  end.
Proof.
  intros Hc Ha br1 row. subst br1 row. split.
  - unfold GetExistingPortalByID. simpl.
    unfold reg_bind, get_bridge, ask. simpl. rewrite Hc. simpl. rewrite Ha.
    reflexivity.
  - destruct (answer _ (Portal_Insert _)) as [e|] eqn:Hi.
    + unfold GetPortalByID. simpl.
      unfold reg_bind, get_bridge, ask. simpl. rewrite Hc. simpl. rewrite Ha.
      unfold loadPortal_with, reg_bind, get_bridge, ask, reg_ret. simpl.
      simpl in Hi. rewrite Hi. unfold with_asked. simpl.
      rewrite <- app_assoc. reflexivity.
    + split.
      * unfold GetPortalByID. simpl.
        unfold reg_bind, get_bridge, ask. simpl. rewrite Hc. simpl. rewrite Ha.
        unfold loadPortal_with, reg_bind, get_bridge, ask, reg_ret, alloc,
          cache_ID, update. simpl.
        simpl in Hi. rewrite Hi. simpl.
        unfold with_portal, with_asked. simpl.
        rewrite heap_update_new, <- app_assoc. reflexivity.
      * intros fuel'. unfold GetPortalByID.
        destruct fuel'; simpl; unfold reg_bind, get_bridge; simpl;
          rewrite String.eqb_refl; reflexivity.
Qed.

(** X23. A portal whose parent cannot be loaded. When the row of a
    portal names a parent that is not cached and the query for the parent
    fails, [GetPortalByID] returns no portal and the failure, wrapped as
    the failure to load the parent. But the portal it had allocated stays
    in the cache, without parent and with its event loop not started, and
    the next lookup of its id returns it without error and without a
    query. *)
Theorem parent_failure_leaves_child fuel id row db e br :
  map_get id (Bridge_portalsByID br) = None ->
  answer (asked br) (Portal_GetByID id) = (Some row, None) ->
  Portal_ParentID row <> "" ->
  Portal_ParentID row <> Portal_ID row ->
  map_get (Portal_ParentID row) (Bridge_portalsByID br) = None ->
  answer (asked br ++ [Answered (Portal_GetByID id) (Some row, None)])
         (Portal_GetByID (Portal_ParentID row)) = (db, Some e) ->
  let child := {| Object_row := row; Object_Parent := None; Object_looping := false |} in
  let br' :=
    with_asked
      (with_portal
         (with_asked br [Answered (Portal_GetByID id) (Some row, None)]) child)
      [Answered (Portal_GetByID (Portal_ParentID row)) (db, Some e)] in
  GetPortalByID (S (S fuel)) id br =
    Some ((None, Some (FailedParent (Portal_ParentID row) (FailedQuery e))), br') /\
  nth_error (heap br') (length (heap br)) = Some child /\
  forall fuel',
    GetPortalByID fuel' (Portal_ID row) br' = Some ((Some (length (heap br)), None), br').
Proof.
  intros Hc Ha Hp Hself Hpc Hq child br'. subst child br'.
  apply String.eqb_neq in Hp.
  split; [|split].
  - destruct (String.eqb (Portal_MXID row) "") eqn:Hmx;
      repeat (progress
        (unfold GetPortalByID, loadPortal_with, ask, alloc, cache_ID, cache_MXID,
           update, get_bridge, reg_ret, reg_bind, with_asked, with_portal;
         cbn -[map_get map_set heap_update];
         rewrite ?Hc, ?Ha, ?Hp, ?Hmx, ?(map_get_set_other _ _ Hself), ?Hpc, ?Hq,
           ?heap_update_new));
      reflexivity.
  - unfold with_asked, with_portal. simpl. apply nth_error_snoc.
  - intros fuel'. unfold GetPortalByID.
    destruct fuel'; simpl; unfold reg_bind, get_bridge; simpl;
      rewrite String.eqb_refl; reflexivity.
Qed.

(** X24. A portal that names itself as parent. The portal is cached before
    its parent is looked up, so the lookup of the parent finds the portal
    itself: [GetPortalByID] makes no second query and returns a portal
    that is its own parent, with its event loop started. *)
Theorem self_parent_is_accepted fuel id row br :
  map_get id (Bridge_portalsByID br) = None ->
  answer (asked br) (Portal_GetByID id) = (Some row, None) ->
  Portal_ParentID row <> "" ->
  Portal_ParentID row = Portal_ID row ->
  let p := length (heap br) in
  exists br',
    GetPortalByID (S fuel) id br = Some ((Some p, None), br') /\
    nth_error (heap br') p =
      Some {| Object_row := row; Object_Parent := Some p; Object_looping := true |} /\
    asked br' = asked br ++ [Answered (Portal_GetByID id) (Some row, None)].
Proof.
  intros Hc Ha Hp Hself p. subst p.
  apply String.eqb_neq in Hp.
  assert (Hp' : String.eqb (Portal_ID row) "" = false) by (rewrite <- Hself; exact Hp).
  destruct (String.eqb (Portal_MXID row) "") eqn:Hmx; destruct fuel;
    repeat (progress
      (unfold GetPortalByID, loadPortal_with, ask, alloc, cache_ID, cache_MXID,
         update, get_bridge, reg_ret, reg_bind;
       cbn -[map_get map_set heap_update];
       rewrite ?Hc, ?Ha, ?Hp, ?Hmx, ?Hself, ?Hp', ?map_get_set, ?heap_update_new));
    (eexists; split; [reflexivity|]; split;
     [cbn -[nth_error]; apply nth_error_snoc | reflexivity]).
Qed.

(** X25. [GetPortalByMXID] for a room that is not cached. When the store
    has no row for the room, it returns no portal and no error and inserts
    nothing: a lookup by room never creates a portal. When the store has a
    row without parent, it returns a new portal with that row and with its
    event loop started, cached under the id of the row and, if the row has
    a room id, under the room id of the row. *)
Theorem GetPortalByMXID_loads fuel mxid br :
  map_get mxid (Bridge_portalsByMXID br) = None ->
  match answer (asked br) (Portal_GetByMXID mxid) with
  | (None, None) =>
      GetPortalByMXID fuel mxid br =
        Some ((None, None),
              with_asked br [Answered (Portal_GetByMXID mxid) (None, None)])
  | (Some row, None) =>
      Portal_ParentID row = "" ->
      GetPortalByMXID fuel mxid br =
        Some ((Some (length (heap br)), None),
              with_portal
                (with_asked br [Answered (Portal_GetByMXID mxid) (Some row, None)])
                {| Object_row := row; Object_Parent := None; Object_looping := true |})
  | (db, Some e) =>
      GetPortalByMXID fuel mxid br =
        Some ((None, Some (FailedQuery e)),
              with_asked br [Answered (Portal_GetByMXID mxid) (db, Some e)])
  end.
Proof.
  intros Hc.
  destruct (answer (asked br) (Portal_GetByMXID mxid)) as [[row|] [e|]] eqn:Ha;
    try intros Hp;
    try (assert (Hp' : String.eqb (Portal_ParentID row) "" = true)
           by (rewrite Hp; reflexivity));
    try destruct (String.eqb (Portal_MXID row) "") eqn:Hmx;
    repeat (progress
      (unfold GetPortalByMXID, loadPortal, loadPortal_with, ask, alloc, cache_ID,
         cache_MXID, update, get_bridge, reg_ret, reg_bind, with_asked, with_portal;
       cbn -[map_get map_set heap_update String.eqb];
       rewrite ?Hc, ?Ha, ?Hp', ?Hmx, ?heap_update_new));
    reflexivity.
Qed.

(** ** The parent chain on the heap *)

Lemma parent_in_fun h p q r : parent_in h p q -> parent_in h p r -> q = r.
Proof. intros (o & Ho & Hq) (o' & Ho' & Hr). congruence. Qed.

Lemma ancestor_snoc h n : forall p q r,
  ancestor h n p q -> parent_in h q r -> ancestor h (S n) p r.
Proof.
  induction n as [|n IH]; intros p q r Ha Hp.
  - simpl in Ha. subst q. exists r. split; [exact Hp | reflexivity].
  - destruct Ha as (x & Hx & Ha). exists x. split; [exact Hx|].
    eapply IH; eauto.
Qed.

Lemma cycle_rotate h n p q :
  ancestor h (S n) p p -> parent_in h p q -> ancestor h (S n) q q.
Proof.
  intros (r & Hr & Ha) Hq.
  assert (r = q) by (eapply parent_in_fun; eauto). subst r.
  eapply ancestor_snoc; eauto.
Qed.

Lemma GetTopLevelParent_cycle h n : forall fuel p,
  ancestor h (S n) p p -> Heap.GetTopLevelParent fuel h p = None.
Proof.
  induction fuel as [|fuel IH]; intros p Hc; [reflexivity|].
  pose proof Hc as (r & (o & Ho & Hp) & _).
  cbn [Heap.GetTopLevelParent]. rewrite Ho, Hp.
  apply IH. eapply cycle_rotate; [exact Hc|]. exists o. auto.
Qed.

Lemma GetTopLevelParent_sound h : forall fuel p r,
  Heap.GetTopLevelParent fuel h p = Some r ->
  is_root h r /\ exists n, ancestor h n p r.
Proof.
  induction fuel as [|fuel IH]; intros p r H; [discriminate H|].
  cbn [Heap.GetTopLevelParent] in H.
  destruct (nth_error h p) as [o|] eqn:Ho; [|discriminate H].
  destruct (Object_Parent o) as [parent|] eqn:Hp.
  - apply IH in H as (Hr & n & Hn). split; [exact Hr|].
    exists (S n), parent. split; [exists o; auto | exact Hn].
  - inversion H; subst r. split; [exists o; auto | exists 0; reflexivity].
Qed.

Lemma GetTopLevelParent_complete h : forall n p r,
  ancestor h n p r -> is_root h r -> Heap.GetTopLevelParent (S n) h p = Some r.
Proof.
  induction n as [|n IH]; intros p r Ha Hr.
  - simpl in Ha. subst r. destruct Hr as (o & Ho & Hp).
    cbn [Heap.GetTopLevelParent]. now rewrite Ho, Hp.
  - destruct Ha as (q & (o & Ho & Hp) & Ha).
    change (Heap.GetTopLevelParent (S (S n)) h p)
      with (match nth_error h p with
            | None => None
            | Some o =>
                match Object_Parent o with
                | None => Some p
                | Some parent => Heap.GetTopLevelParent (S n) h parent
                end
            end).
    rewrite Ho, Hp. now apply IH.
Qed.

(** X5. [GetTopLevelParent] on the portals of the bridge. It returns
    exactly when the chain of parents of the portal reaches a portal
    without parent, and then it returns that portal. On a portal that is
    its own ancestor (its own parent, as [loadPortal] makes the portal of a
    row that names itself, or a longer cycle) it never returns: no number of
    calls is enough. *)
Theorem GetTopLevelParent_on_heap h p :
  (forall r,
     (exists fuel, Heap.GetTopLevelParent fuel h p = Some r) <->
     (is_root h r /\ exists n, ancestor h n p r)) /\
  (forall n, ancestor h (S n) p p ->
     forall fuel, Heap.GetTopLevelParent fuel h p = None).
Proof.
  split.
  - intros r. split.
    + intros (fuel & H). eapply GetTopLevelParent_sound; eauto.
    + intros (Hr & n & Hn). exists (S n). now apply GetTopLevelParent_complete.
  - intros n Hc fuel. eapply GetTopLevelParent_cycle; eauto.
Qed.

End RegistryProperties.
End Properties.

(** * The code on explicit inputs *)

Section Examples.

#[local] Existing Instance simpleEvents.

(** ** sendRoomMeta *)

(** C1. A ghost sets the topic of a room in which it may not send state:
    the retry as the bot carries the annotated topic content, but as an
    [m.room.name] event; no topic event is accepted, and the function
    reports success. *)
Theorem sendRoomMeta_topic_retry_sent_as_room_name :
  sendRoomMeta (E := env_forbidden) (Some (ghost_of "bob")) 9%Z
    event.StateTopic "" (ParsedTopic "New topic") world_room
  = Done true
      (extend
         [Called (SendState (ghost_intent "bob") "!room:example.org"
                    event.StateTopic ""
                    {| Content_Parsed := Some (ParsedTopic "New topic");
                       Content_Raw := None |} 9%Z)
                 (None, Some MForbidden);
          Called (SendState the_bot "!room:example.org"
                    event.StateRoomName ""
                    {| Content_Parsed := Some (ParsedTopic "New topic");
                       Content_Raw :=
                         Some [("fi.mau.bridge.set_by",
                                AnyUserID "@ghost_bob:example.org")] |} 9%Z)
                 (Some {| RespSendEvent_EventID := "$state" |}, None)]
         world_room).
Proof. reflexivity. Qed.

(** ** Redactions *)

(** C2. The redaction of a stored message whose removal the network client
    accepts: two lookups and the client call, and no write to the store;
    the row of the message is not deleted. *)
Theorem handleMatrixRedaction_keeps_row :
  let w' := final (handleMatrixRedaction (E := env_stored) alice_login None
                     redaction_of_b world_room) in
  new_entries world_room w' =
    [Called (DB_Message_GetPartByMXID "$b") (Some (stored_message 3 "r3" "$b"), None);
     Called (DB_Reaction_GetByMXID "$b") (None, None);
     Called (HandleMatrixMessageRemove 7
               {| MatrixMessageRemove_Event := redaction_of_b;
                  MatrixMessageRemove_Content := {| event.Redacts := "$b" |};
                  MatrixMessageRemove_Portal := portal_of "!room:example.org";
                  MatrixMessageRemove_OrigSender := None;
                  MatrixMessageRemove_TargetMessage := stored_message 3 "r3" "$b" |})
            None] /\
  db_writes (new_entries world_room w') = [].
Proof. split; reflexivity. Qed.



(** ** Edits *)


(** ** Remote messages *)

(** The remote message [r1] is already bridged: it is dropped. *)
Lemma handleRemoteMessage_duplicate_witness :
  exists w',
    handleRemoteMessage (E := env_duplicate) alice_login (remote_message "r1") world_room
      = Done tt w' /\
    filter is_matrix_send (new_entries world_room w') = [] /\
    db_writes (new_entries world_room w') = [].
Proof.
  destruct (handleRemoteMessage_duplicate (E := env_duplicate) alice_login
              (remote_message "r1") world_room
              (existing := stored_message 1 "r1" "$m1") eq_refl)
    as (w' & Hrun & _ & Hsend & Hwrite & _).
  exists w'. auto.
Defined.

(** A two-part reply to row 5 inside the thread of row 7: [r5] and then
    [r7] are looked up, and both inserted rows are related to row 7. *)
Lemma handleRemoteMessage_thread_over_reply_witness :
  let tr := new_entries world_room
              (final (handleRemoteMessage (E := env_thread) alice_login
                        (remote_message "r9") world_room)) in
  map fst (lookups_GetFirstOrSpecificPartByID tr) = [ref_to "r5"; ref_to "r7"] /\
  Forall (fun m => Message_RelatesToRowID m = 7%Z) (inserted tr) /\
  map Message_PartID (inserted tr) = ["1"; "2"].
Proof.
  pose (tr := new_entries world_room
                (final (handleRemoteMessage (E := env_thread) alice_login
                          (remote_message "r9") world_room))).
  assert (Hreply : resolves_to tr (ref_to "r5") (stored_message 5 "r5" "$m5")).
  { intros a Hin. vm_compute in Hin.
    destruct Hin as [H|[H|[]]]; [injection H as <-; reflexivity | discriminate H]. }
  assert (Hroot : resolves_to tr (ref_to "r7") (stored_message 7 "r7" "$m7")).
  { intros a Hin. vm_compute in Hin.
    destruct Hin as [H|[H|[]]]; [discriminate H | injection H as <-; reflexivity]. }
  destruct (handleRemoteMessage_thread_over_reply (E := env_thread) alice_login
              (remote_message "r9") world_room
              (converted :=
                 {| ConvertedMessage_ReplyTo := Some (ref_to "r5");
                    ConvertedMessage_ThreadRoot := Some (ref_to "r7");
                    ConvertedMessage_Timestamp := 5%Z;
                    ConvertedMessage_Parts := [text_part "1" "one"; text_part "2" "two"] |})
              (replyRef := ref_to "r5") (rootRef := ref_to "r7")
              (replyRow := stored_message 5 "r5" "$m5")
              (rootRow := stored_message 7 "r7" "$m7")
              eq_refl eq_refl eq_refl Hreply Hroot)
    as (Hkeys & Hrows).
  split; [exact Hkeys|]. split; [exact Hrows | reflexivity].
Defined.

(** The store has the message and the check fails: the message is sent
    again. *)
Lemma handleRemoteMessage_check_error_witness :
  let tr := new_entries world_room
              (final (handleRemoteMessage (E := env_check_error) alice_login
                        (remote_message "r1") world_room)) in
  length (filter is_SendMessage tr) = 1.
Proof.
  destruct (handleRemoteMessage_check_error (E := env_check_error) alice_login
              (remote_message "r1") world_room
              (existing := Some (stored_message 1 "r1" "$m1"))
              (err := OtherError "database is locked") eq_refl)
    as (_ & _ & Hsend).
  exact (Hsend
           {| ConvertedMessage_ReplyTo := None; ConvertedMessage_ThreadRoot := None;
              ConvertedMessage_Timestamp := 5%Z;
              ConvertedMessage_Parts := [text_part "" "hello"] |}
           (final (handleRemoteMessage (E := env_check_error) alice_login
                     (remote_message "r1") world_room))
           eq_refl eq_refl).
Defined.

(** ** Avatars *)

(** A new avatar whose upload gives a new hash: one [m.room.avatar] event. *)
Lemma UpdateAvatar_hash_short_circuit_witness :
  let w' := final (UpdateAvatar (E := env_new_hash) new_avatar None 0%Z world_room) in
  length (filter (is_SendState_of is_StateRoomAvatar) (new_entries world_room w')) = 1.
Proof.
  assert (Hm : MXID (portal world_room) <> "") by (simpl; discriminate).
  destruct (UpdateAvatar_hash_short_circuit (E := env_new_hash) new_avatar None 0%Z
              world_room (newMXC := "mxc://example.org/new") (newHash := other_hash)
              Hm eq_refl eq_refl)
    as (_ & Hne).
  apply Hne. simpl. discriminate.
Defined.

(** A new avatar whose upload gives the stored hash: nothing is sent, and
    [AvatarSet] stays true. *)
Example UpdateAvatar_same_hash :
  let w' := final (UpdateAvatar (E := env_ok) new_avatar None 0%Z world_room) in
  answers_Reupload (new_entries world_room w') = [("", zeroHash, None)] /\
  filter is_matrix_send (new_entries world_room w') = [] /\
  Portal_AvatarSet (Portal_row (portal w')) = true.
Proof. repeat split; reflexivity. Qed.

(** ** Room creation *)

(** C4, against the claim. The room is created and the portal row cannot be
    saved: [CreateMatrixRoom] returns the error and the portal has the new
    room id. *)
Lemma CreateMatrixRoom_error_after_creation :
  MXID (portal world_new) = "" /\
  match CreateMatrixRoom (E := env_update_fails) alice_login world_new with
  | Done (Some _) w' => MXID (portal w') = "!created:example.org"
  | _ => False
  end /\
  ~ (forall e w',
       CreateMatrixRoom (E := env_update_fails) alice_login world_new = Done (Some e) w' ->
       MXID (portal w') = "").
Proof.
  split; [reflexivity|]. split; [reflexivity|].
  intros H.
  specialize (H (OtherError "database is locked")
                (final (CreateMatrixRoom (E := env_update_fails) alice_login world_new))
                eq_refl).
  discriminate H.
Qed.

(** The same run, read through the theorem: the room was created. *)
Lemma CreateMatrixRoom_error_witness :
  let w' := final (CreateMatrixRoom (E := env_update_fails) alice_login world_new) in
  answers_CreateRoom (new_entries world_new w') = [("!created:example.org", None)] /\
  MXID (portal w') = "!created:example.org".
Proof.
  destruct (CreateMatrixRoom_error (E := env_update_fails) alice_login world_new
              (e := OtherError "database is locked")
              (w' := final (CreateMatrixRoom (E := env_update_fails) alice_login world_new))
              eq_refl eq_refl)
    as [(Hempty & _) | (roomID & tr0 & Hans & Hmxid & _)].
  - discriminate Hempty.
  - split; reflexivity.
Defined.

(** ** The pump *)

(** C3, against the claim. Two remote messages are queued; the first is a
    reply to a message the store does not have, and its handler dereferences
    the missing row. The loop ends with that panic; the second message is
    never looked at. *)
Lemma eventLoop_panic_ends_pump :
  match eventLoop (E := env_reply_unknown)
          [portalRemoteEvent (remote_message "r1") alice_login;
           portalRemoteEvent (remote_message "r2") alice_login] world_room with
  | Panicked reason w' =>
      reason = "nil pointer dereference" /\ duplicate_checks (trace w') = ["r1"]
  | Done _ _ => False
  end /\
  ~ (exists w',
       eventLoop (E := env_reply_unknown)
         [portalRemoteEvent (remote_message "r1") alice_login;
          portalRemoteEvent (remote_message "r2") alice_login] world_room
       = Done tt w').
Proof.
  split; [split; reflexivity|].
  intros (w' & H). discriminate H.
Qed.

(** The same queue, read through the theorem: the loop ends in the world in
    which the handler of the first event panicked. *)
Lemma eventLoop_handler_panic_witness :
  eventLoop (E := env_reply_unknown)
    [portalRemoteEvent (remote_message "r1") alice_login;
     portalRemoteEvent (remote_message "r2") alice_login] world_room
  = Panicked "nil pointer dereference"
      (final (handleRemoteEvent (E := env_reply_unknown) alice_login
                (remote_message "r1") world_room)).
Proof.
  exact (proj1 (eventLoop_handler_panic (E := env_reply_unknown) []
                  (portalRemoteEvent (remote_message "r1") alice_login)
                  [portalRemoteEvent (remote_message "r2") alice_login]
                  world_room (w1 := world_room) eq_refl)
               "nil pointer dereference"
               (final (handleRemoteEvent (E := env_reply_unknown) alice_login
                         (remote_message "r1") world_room))
               eq_refl).
Defined.


(** ** The further properties on explicit inputs *)

(** A name that is published: the second update does nothing. *)
Lemma UpdateName_twice_witness :
  let w1 := final (UpdateName (E := env_ok) "Renamed" None 1%Z world_room) in
  UpdateName (E := env_ok) "Renamed" None 2%Z w1 = Done false w1.
Proof.
  exact (@UpdateName_twice _ env_ok "Renamed" None 1%Z None 2%Z world_room true _
            eq_refl (or_introl eq_refl)).
Defined.

(** New name and topic for a portal without room: stored, not sent. *)
Lemma UpdateInfo_without_room_witness :
  exists w',
    UpdateInfo (E := env_ok) renamed None 0%Z world_new = Done tt w' /\
    MXID (portal w') = "" /\
    filter is_matrix_send (new_entries world_new w') = [].
Proof.
  exact (UpdateInfo_without_room (E := env_ok) renamed None 0%Z world_new eq_refl).
Defined.

(** A room name event from Matrix is ignored. *)
Lemma handleMatrixEvent_not_dispatched_witness :
  exists w',
    handleMatrixEvent (E := env_ok) alice name_event world_room = Done tt w' /\
    portal w' = portal world_room /\
    forallb quiet_entry (new_entries world_room w') = true.
Proof.
  exact (handleMatrixEvent_not_dispatched (E := env_ok) alice name_event world_room
           eq_refl eq_refl).
Defined.

(** A reaction of a user without login, in a relayed portal, is dropped. *)
Lemma handleMatrixEvent_relayed_reaction_witness :
  exists w' before,
    handleMatrixEvent (E := env_ok) carol reaction_to_b world_relay = Done tt w' /\
    new_entries world_relay w' =
      before ++ [Called (Log DebugLevel "Ignoring reaction event from relayed user") tt] /\
    forallb quiet_entry (new_entries world_relay w') = true.
Proof.
  exact (@handleMatrixEvent_relayed_reaction _ env_ok carol reaction_to_b
            world_relay _ eq_refl eq_refl eq_refl).
Defined.

(** A message of alice that the client sends: the ghost of the row's sender
    is looked up, and the row is saved with her MXID. *)
Lemma handleMatrixMessage_saves_stamped_witness :
  let tr := new_entries world_room
              (final (handleMatrixMessage (E := env_client) alice_login None
                        hello_event world_room)) in
  db_writes tr = [WriteMessageInsert (stamped "@alice:example.org" sent_row)] /\
  ghost_calls tr = [GhostLookup "alice"].
Proof.
  destruct (@handleMatrixMessage_saves_stamped _ env_client alice_login None
              hello_event (plain_text "hello") 7 world_room
              eq_refl eq_refl eq_refl)
    as (answer & Hans & H).
  injection Hans as <-. split; [exact (proj1 H) | exact (proj1 (proj2 H))].
Defined.

(** A reaction of alice to [$b] that the client accepts: it is upserted. *)
Lemma handleMatrixReaction_upserts_witness :
  exists w',
    handleMatrixReaction (E := env_client) alice_login reaction_to_b world_room
      = Done tt w' /\
    db_writes (new_entries world_room w') = [WriteReactionUpsert thumbs_up].
Proof.
  destruct (@handleMatrixReaction_upserts _ env_client alice_login reaction_to_b
              {| Reaction_RelatesTo_EventID := "$b" |} 7
              world_room eq_refl eq_refl)
    as (w' & Hrun & H).
  exists w'. split; [exact Hrun|].
  injection Hrun as <-. destruct H as (answer & Hans & Hw).
  injection Hans as <-. exact Hw.
Defined.

(** An edit that changes one part and deletes another, while Matrix rejects
    every message: both rows are written all the same, after the ghost of
    bob was looked up and refreshed. *)
Lemma handleRemoteEdit_writes_witness :
  let tr := new_entries world_room
              (final (handleRemoteEdit (E := env_edit) alice_login
                        (remote_edit "r3") world_room)) in
  db_writes tr =
    [WriteMessageUpdate (stored_message 3 "r3" "$m3"); WriteMessageDelete 4%Z] /\
  map snd (send_answers tr) =
    [Some (OtherError "room is gone"); Some (OtherError "room is gone")] /\
  ghost_calls tr = [GhostLookup "bob"; GhostRefresh (ghost_of "bob")].
Proof.
  split; [|split; reflexivity].
  exact (proj1 (proj2 (@handleRemoteEdit_writes _ env_edit alice_login
                         (remote_edit "r3") world_room the_edit eq_refl))).
Defined.

(** A message of two parts of which Matrix accepts the first only: one row,
    for the first part, with the MXID of the ghost that sent it. *)
Lemma handleRemoteMessage_rows_witness :
  let tr := new_entries world_room
              (final (handleRemoteMessage (E := env_second_fails) alice_login
                        (remote_message "r9") world_room)) in
  length (send_answers tr) = 2 /\
  sent_by tr = [ghost_intent "bob"; ghost_intent "bob"] /\
  map Message_PartID (inserted tr) = ["1"] /\
  map Message_MXID (inserted tr) = ["$sent1"] /\
  map Message_Metadata (inserted tr)
    = [Some [("sender_mxid", AnyUserID (GetMXID (ghost_intent "bob")))]].
Proof.
  split; [|repeat split; reflexivity].
  exact (proj1 (@handleRemoteMessage_rows _ env_second_fails alice_login
                  (remote_message "r9") world_room _ two_parts eq_refl eq_refl)).
Defined.

(** A remote message for the portal with a room. *)
Lemma handleRemoteEvent_frame_witness :
  let w' := final (handleRemoteEvent (E := env_thread) alice_login
                     (remote_message "r9") world_room) in
  portal w' = portal world_room /\
  answers_CreateRoom (new_entries world_room w') = [] /\
  length (db_writes (new_entries world_room w')) = 2.
Proof.
  assert (Hm : MXID (portal world_room) <> "") by (simpl; discriminate).
  destruct (handleRemoteEvent_frame (E := env_thread) alice_login
              (remote_message "r9") world_room Hm)
    as (Hp & _ & Hc & _).
  split; [exact Hp|]. split; [exact Hc | reflexivity].
Defined.

(** A remote message for the portal without room, when the portal row
    cannot be saved after the room was created: the message is dropped. *)
Lemma handleRemoteEvent_dropped_witness :
  let o := handleRemoteEvent (E := env_update_fails) alice_login
             (remote_message "r9") world_new in
  (exists w', o = Done tt w') /\
  send_answers (new_entries world_new (final o)) = [] /\
  MXID (portal (final o)) = "!created:example.org".
Proof.
  destruct (handleRemoteEvent_dropped (E := env_update_fails) alice_login
              (remote_message "r9") world_new eq_refl
              (or_intror
                 (ex_intro _ (OtherError "database is locked")
                    (ex_intro _
                       (final (CreateMatrixRoom (E := env_update_fails) alice_login
                                 world_new))
                       eq_refl))))
    as (w' & Hrun & _ & _ & Hs & _).
  cbv zeta. split; [exists w'; exact Hrun|].
  split; [|vm_compute; reflexivity].
  rewrite Hrun. exact Hs.
Defined.

(** Bob is the only member of the remote chat; the room has his ghost and
    mallory: mallory is removed, the ghost is not. *)
Lemma SyncParticipants_spares_expected_witness :
  let o := SyncParticipants (E := env_members) ["bob"] alice_login world_room in
  o = Done (["@ghost_bob:example.org"], None) (final o) /\
  state_keys (new_entries world_room (final o)) = ["@mallory:example.org"] /\
  ~ In "@mallory:example.org" ["@ghost_bob:example.org"].
Proof.
  split; [reflexivity|]. split; [reflexivity|].
  apply (proj1 (@SyncParticipants_spares_expected _ env_members ["bob"]
                  alice_login world_room ["@ghost_bob:example.org"] _ eq_refl)).
  left. reflexivity.
Defined.

(** The room of the portal is created. *)
Lemma CreateMatrixRoom_success_witness :
  let w' := final (CreateMatrixRoom (E := env_ok) alice_login world_new) in
  exists before,
    MXID (portal w') = "!created:example.org" /\
    map_get "!created:example.org" (portalsByMXID w') = Some "chat1" /\
    new_entries world_new w'
      = before ++ [Called (DB_Portal_Update (Portal_row (portal w'))) None].
Proof.
  destruct (@CreateMatrixRoom_success _ env_ok alice_login world_new
              (final (CreateMatrixRoom (E := env_ok) alice_login world_new))
              eq_refl eq_refl)
    as (roomID & before & _ & _ & _ & _ & _ & _ & Htr).
  exists before. split; [reflexivity|]. split; [reflexivity|]. exact Htr.
Defined.

(** The request for that room: the portal has a name and no topic. *)
Lemma CreateMatrixRoom_request_witness :
  let w' := final (CreateMatrixRoom (E := env_ok) alice_login world_new) in
  exists req,
    requests_CreateRoom (new_entries world_new w') = [req] /\
    Req_Name req = "Chat" /\
    map Event_Type (Req_InitialState req)
      = [event.stateElementFunctionalMembers; event.StateTopic].
Proof.
  destruct (CreateMatrixRoom_request (E := env_ok) alice_login world_new eq_refl)
    as [Hnone | (req & Hreq & Hshape)].
  - vm_compute in Hnone. discriminate Hnone.
  - exists req. split; [exact Hreq|].
    destruct Hshape as (_ & _ & Hname & _ & _ & _ & _ & Htypes & _).
    split; [exact Hname | exact Htypes].
Defined.

(** A typing event comes with the ephemeral flag: nothing is called. *)
Lemma handleMatrixEvent_ephemeral_witness :
  exists w',
    handleMatrixEvent (E := env_ok) alice typing_event world_room = Done tt w' /\
    new_entries world_room w' = [] /\
    Portal_row (portal w') = Portal_row (portal world_room).
Proof.
  assert (Hsrc : Z.land (Event_EventSource typing_event) SourceEphemeral <> 0%Z)
    by (simpl; discriminate).
  destruct (handleMatrixEvent_ephemeral (E := env_ok) alice typing_event world_room
              Hsrc)
    as (w' & Hrun & _ & _ & Hnone & Hrow & _).
  exists w'. split; [exact Hrun|]. split; [exact Hnone | exact Hrow].
Defined.

(** Carol and alice are typing: alice comes first. *)
Lemma handleMatrixTyping_sorted_witness :
  exists w',
    handleMatrixTyping typing_event world_room = Done tt w' /\
    Portal_currentlyTyping (portal w') = ["@alice:example.org"; "@carol:example.org"].
Proof.
  destruct (@handleMatrixTyping_sorted _ typing_event
              ["@carol:example.org"; "@alice:example.org"] world_room eq_refl)
    as (w' & Hrun & _).
  exists w'. split; [exact Hrun|]. injection Hrun as <-. reflexivity.
Defined.

(** The avatar of the portal with a room is removed. *)
Lemma UpdateAvatar_remove_witness :
  exists w',
    UpdateAvatar (E := env_ok) removed_avatar None 3%Z world_room = Done true w' /\
    Portal_AvatarMXC (Portal_row (portal w')) = "" /\
    Portal_AvatarSet (Portal_row (portal w')) = true /\
    length (new_entries world_room w') = 1.
Proof.
  destruct (UpdateAvatar_remove (E := env_ok) removed_avatar None 3%Z world_room
              eq_refl eq_refl)
    as (w' & Hrun & _ & Hmxc & _ & _ & _ & _).
  exists w'. split; [exact Hrun|]. split; [exact Hmxc|].
  injection Hrun as <-. split; reflexivity.
Defined.

(** A full channel drops the event; an empty one takes it. *)
Lemma queueEvent_bounded_witness :
  (exists w',
     queue_all (E := env_ok) [queued "r2"] (repeat (queued "r1") 64) world_room
       = Done (repeat (queued "r1") 64) w' /\
     length (new_entries world_room w') = 1) /\
  (exists w',
     queue_all (E := env_ok) [queued "r1"; queued "r2"] [] world_room
       = Done [queued "r1"; queued "r2"] w' /\
     new_entries world_room w' = []).
Proof.
  split.
  - destruct (queueEvent_bounded (E := env_ok) [queued "r2"]
                (repeat (queued "r1") 64) world_room (le_n 64))
      as (w' & Hrun & _ & _ & Ht).
    exists w'. split; [rewrite Hrun; rewrite app_nil_r; reflexivity|].
    rewrite Ht. reflexivity.
  - destruct (queueEvent_bounded (E := env_ok) [queued "r1"; queued "r2"] []
                world_room (Nat.le_0_l 64))
      as (w' & Hrun & _ & _ & Ht).
    exists w'. split; [exact Hrun | exact Ht].
Defined.

(** ** The registry on explicit inputs *)

(** A portal that nobody knows: only [GetPortalByID] creates it. *)
Lemma lookup_of_missing_row_witness :
  GetExistingPortalByID (store := store_missing) 1 "chat9" bridge_empty
    = Some ((None, None),
            with_asked bridge_empty [Answered (Portal_GetByID "chat9") (None, None)]) /\
  exists br,
    GetPortalByID (store := store_missing) 1 "chat9" bridge_empty
      = Some ((Some 0, None), br) /\
    inserted_rows (asked br) = [new_row "bridge" "chat9"] /\
    GetPortalByID (store := store_missing) 0 "chat9" br = Some ((Some 0, None), br).
Proof.
  destruct (@lookup_of_missing_row store_missing 0 "chat9" bridge_empty
              eq_refl eq_refl)
    as (Hex & Hget & Hagain).
  split; [exact Hex|].
  eexists. split; [exact Hget|]. split; [reflexivity | exact (Hagain 0)].
Defined.

(** The parent of [chat1] cannot be loaded: the lookup fails, and the next
    one returns the portal that was left in the cache. *)
Lemma parent_failure_leaves_child_witness :
  exists br,
    GetPortalByID (store := store_broken_parent) 2 "chat1" bridge_empty
      = Some ((None, Some (FailedParent "space1"
                             (FailedQuery (OtherError "connection lost")))), br) /\
    GetPortalByID (store := store_broken_parent) 0 "chat1" br
      = Some ((Some 0, None), br) /\
    option_map Object_looping (nth_error (heap br) 0) = Some false.
Proof.
  assert (Hp : Portal_ParentID (row_with_parent "chat1" "space1") <> "")
    by (simpl; discriminate).
  assert (Hs : Portal_ParentID (row_with_parent "chat1" "space1")
               <> Portal_ID (row_with_parent "chat1" "space1"))
    by (simpl; discriminate).
  destruct (@parent_failure_leaves_child store_broken_parent 0 "chat1"
              (row_with_parent "chat1" "space1") None
              (OtherError "connection lost") bridge_empty
              eq_refl eq_refl Hp Hs eq_refl eq_refl)
    as (Hrun & _ & Hagain).
  eexists. split; [exact Hrun|]. split; [exact (Hagain 0) | reflexivity].
Defined.

(** The portal [loop] is its own parent. *)
Lemma self_parent_is_accepted_witness :
  exists br,
    GetPortalByID (store := store_self_parent) 1 "loop" bridge_empty
      = Some ((Some 0, None), br) /\
    option_map Object_Parent (nth_error (heap br) 0) = Some (Some 0).
Proof.
  assert (Hp : Portal_ParentID (row_with_parent "loop" "loop") <> "")
    by (simpl; discriminate).
  destruct (@self_parent_is_accepted store_self_parent 0 "loop"
              (row_with_parent "loop" "loop") bridge_empty
              eq_refl eq_refl Hp eq_refl)
    as (br & Hrun & Hobj & _).
  exists br. split; [exact Hrun | exact (f_equal (option_map Object_Parent) Hobj)].
Defined.

(** The portal of a room is loaded by room id, and cached under both ids. *)
Lemma GetPortalByMXID_loads_witness :
  exists br,
    GetPortalByMXID (store := store_room) 0 "!room:example.org" bridge_empty
      = Some ((Some 0, None), br) /\
    map_get "chat1" (Bridge_portalsByID br) = Some 0 /\
    map_get "!room:example.org" (Bridge_portalsByMXID br) = Some 0 /\
    inserted_rows (asked br) = [].
Proof.
  eexists. split.
  - exact (@GetPortalByMXID_loads store_room 0 "!room:example.org"
             bridge_empty eq_refl eq_refl).
  - repeat split; reflexivity.
Defined.

(** The caches after that lookup are consistent. *)
Lemma lookups_keep_caches_witness :
  exists br,
    GetPortalByMXID (store := store_room) 0 "!room:example.org" bridge_empty
      = Some ((Some 0, None), br) /\
    cache_ok br /\
    exists o, nth_error (heap br) 0 = Some o.
Proof.
  eexists. split; [reflexivity|].
  assert (Hok : cache_ok bridge_empty) by (split; intros ? ? H; discriminate H).
  destruct (proj2 (proj2 (@lookups_keep_caches store_room 0 "" "!room:example.org"))
              bridge_empty _ _ eq_refl Hok)
    as (Hcache & _ & Hres).
  split; [exact Hcache | exact Hres].
Defined.

(** The portal [loop] again: its top-level parent is never found. *)
Lemma GetTopLevelParent_on_heap_witness :
  exists br,
    GetPortalByID (store := store_self_parent) 1 "loop" bridge_empty
      = Some ((Some 0, None), br) /\
    forall fuel, Heap.GetTopLevelParent fuel (heap br) 0 = None.
Proof.
  eexists. split; [cbv; reflexivity|].
  refine (proj2 (GetTopLevelParent_on_heap _ 0) 0 _).
  exists 0. split; [|reflexivity].
  eexists. split; reflexivity.
Defined.
End Examples.
